(** * Verification of the game core of ut-game-jam-2025

    A shallow embedding of the score manager and the pause / respawn state
    machine (class [Game], the second class of src/core/input.js) and of
    the movement resolver's collision, ground and placement routines
    (class [Player], src/entities/player.js).

    JavaScript numbers are modelled as exact rationals ([Q]): rounding,
    NaN and the infinities of IEEE doubles are outside the model, except
    where the code itself names them ([Infinity] in the push-axis search,
    the falsy NaN in [||]).  Integer-valued results ([Math.floor]) are [Z].
    A double can round where a rational does not, so what is stated about
    the value of a score is stated where the method computes with integers
    that a double holds exactly.

    Plain objects used as maps ([keyMappings], [inputState],
    [otherPlayers]) inherit from [Object.prototype], and a method that a
    class does not define is [undefined] where it is called: both are part
    of the model, and a call that throws is a [Throw] completion. *)

From Stdlib Require Import QArith Qround Qabs Qminmax ZArith List Sorted String Ascii Bool Lia Lqa.
Import ListNotations.
Local Open Scope Q_scope.

(** ** Numbers *)

(** [Math.sign] on a finite number. *)
Definition Math_sign (a : Q) : Q :=
  match Qcompare a 0 with
  | Lt => -(1)
  | Eq => 0
  | Gt => 1
  end.

Definition Math_abs (a : Q) : Q := Qabs a.
Definition Math_max (a b : Q) : Q := Qmax a b.
Definition Math_floor (a : Q) : Z := Qfloor a.

(** [a < b], [a <= b] as the booleans the code branches on. *)
Definition Qltb (a b : Q) : bool :=
  match Qcompare a b with Lt => true | _ => false end.
Definition Qleb (a b : Q) : bool :=
  match Qcompare a b with Gt => false | _ => true end.

(** ** Session state ([Game.state]) *)

(** What [levelManager.collectItem] hands back for a pickup: its identity,
    its [type] ('artifact', 'memory', 'health') and, when present, the
    [type] of its [effect]. *)
Record ItemData := mkItemData {
  id : string;
  type : string;
  effect : option string
}.

Module State.
Record t := mk {
  artifacts : Z;
  memories : Z;
  collectedMemories : list ItemData;
  depth : Q;
  gameTimer : Q;
  playerHealth : option (Q * Q);
  gameOverReason : option string;
  gameWon : bool;
  finalScore : Z;
  scoreFromLastAttempt : option Z
}.

(** The object literal of the constructor and of [restart]. *)
Definition initial : t :=
  {| artifacts := 0; memories := 0; collectedMemories := [];
     depth := 0; gameTimer := 0; playerHealth := None;
     gameOverReason := None; gameWon := false; finalScore := 0;
     scoreFromLastAttempt := None |}.

Definition set_artifacts (s : t) (v : Z) : t :=
  mk v (memories s) (collectedMemories s) (depth s) (gameTimer s)
     (playerHealth s) (gameOverReason s) (gameWon s) (finalScore s)
     (scoreFromLastAttempt s).
Definition set_memories (s : t) (v : Z) : t :=
  mk (artifacts s) v (collectedMemories s) (depth s) (gameTimer s)
     (playerHealth s) (gameOverReason s) (gameWon s) (finalScore s)
     (scoreFromLastAttempt s).
Definition set_collectedMemories (s : t) (v : list ItemData) : t :=
  mk (artifacts s) (memories s) v (depth s) (gameTimer s)
     (playerHealth s) (gameOverReason s) (gameWon s) (finalScore s)
     (scoreFromLastAttempt s).
Definition set_depth (s : t) (v : Q) : t :=
  mk (artifacts s) (memories s) (collectedMemories s) v (gameTimer s)
     (playerHealth s) (gameOverReason s) (gameWon s) (finalScore s)
     (scoreFromLastAttempt s).
Definition set_gameTimer (s : t) (v : Q) : t :=
  mk (artifacts s) (memories s) (collectedMemories s) (depth s) v
     (playerHealth s) (gameOverReason s) (gameWon s) (finalScore s)
     (scoreFromLastAttempt s).
Definition set_playerHealth (s : t) (v : option (Q * Q)) : t :=
  mk (artifacts s) (memories s) (collectedMemories s) (depth s) (gameTimer s)
     v (gameOverReason s) (gameWon s) (finalScore s)
     (scoreFromLastAttempt s).
Definition set_gameOverReason (s : t) (v : option string) : t :=
  mk (artifacts s) (memories s) (collectedMemories s) (depth s) (gameTimer s)
     (playerHealth s) v (gameWon s) (finalScore s)
     (scoreFromLastAttempt s).
Definition set_gameWon (s : t) (v : bool) : t :=
  mk (artifacts s) (memories s) (collectedMemories s) (depth s) (gameTimer s)
     (playerHealth s) (gameOverReason s) v (finalScore s)
     (scoreFromLastAttempt s).
Definition set_finalScore (s : t) (v : Z) : t :=
  mk (artifacts s) (memories s) (collectedMemories s) (depth s) (gameTimer s)
     (playerHealth s) (gameOverReason s) (gameWon s) v
     (scoreFromLastAttempt s).
Definition set_scoreFromLastAttempt (s : t) (v : option Z) : t :=
  mk (artifacts s) (memories s) (collectedMemories s) (depth s) (gameTimer s)
     (playerHealth s) (gameOverReason s) (gameWon s) (finalScore s) v.
End State.

(** ** Score manager *)

Module Score.

(** [Game.calculateScore(isWin)], reading the three fields of [this.state]
    it uses. *)
Definition calculateScore (state : State.t) (isWin : bool) : Z :=
  let BaseTimeScore := 10000 in
  let PenaltyPerSecond := 10 in
  let PointsPerArtifact := 1000%Z in
  let PointsPerMemory := 750%Z in
  let WinBonus := 1000 in
  let elapsedSeconds := State.gameTimer state in
  let numArtifacts := State.artifacts state in
  let numMemories := State.memories state in
  let TimeScore := Math_max 0 (BaseTimeScore - elapsedSeconds * PenaltyPerSecond) in
  let CollectibleScore :=
    inject_Z (numArtifacts * PointsPerArtifact + numMemories * PointsPerMemory) in
  let CalculatedScore := TimeScore + CollectibleScore in
  let CalculatedScore :=
    if isWin then CalculatedScore + WinBonus else CalculatedScore in
  Math_floor CalculatedScore.

(** The score block written out inside [Game.gameOver]. *)
Definition gameOverScore (state : State.t) : Z :=
  let BaseTimeScore := 10000 in
  let PenaltyPerSecond := 10 in
  let PointsPerArtifact := 1000%Z in
  let PointsPerMemory := 750%Z in
  let elapsedSeconds := State.gameTimer state in
  let numArtifacts := State.artifacts state in
  let numMemories := State.memories state in
  let TimeScore := Math_max 0 (BaseTimeScore - elapsedSeconds * PenaltyPerSecond) in
  let CollectibleScore :=
    inject_Z (numArtifacts * PointsPerArtifact + numMemories * PointsPerMemory) in
  let CalculatedScore := TimeScore + CollectibleScore in
  Math_floor CalculatedScore.

(** The immediately-invoked arrow function of [Game.respawnPlayer], used
    when [scoreToDisplay] is [null]. *)
Definition respawnInlineScore (state : State.t) : Z :=
  let BaseTimeScore := 10000 in
  let PenaltyPerSecond := 10 in
  let PointsPerArtifact := 1000%Z in
  let PointsPerMemory := 750%Z in
  let elapsedSeconds := State.gameTimer state in
  let numArtifacts := State.artifacts state in
  let numMemories := State.memories state in
  let TimeScore := Math_max 0 (BaseTimeScore - elapsedSeconds * PenaltyPerSecond) in
  let CollectibleScore :=
    inject_Z (numArtifacts * PointsPerArtifact + numMemories * PointsPerMemory) in
  Math_floor (TimeScore + CollectibleScore).

(** A session that has run [elapsedSeconds] with the given counters. *)
Definition session (elapsedSeconds : Q) (artifactCount memoryCount : Z) : State.t :=
  {| State.artifacts := artifactCount;
     State.memories := memoryCount;
     State.collectedMemories := [];
     State.depth := 0;
     State.gameTimer := elapsedSeconds;
     State.playerHealth := None;
     State.gameOverReason := None;
     State.gameWon := false;
     State.finalScore := 0;
     State.scoreFromLastAttempt := None |}.

(** The spec's [computeScore]: [calculateScore] on such a session. *)
Definition computeScore (elapsedSeconds : Q) (artifactCount memoryCount : Z)
    (isWin : bool) : Z :=
  calculateScore (session elapsedSeconds artifactCount memoryCount) isWin.

End Score.

(** ** Geometry ([THREE.Vector3], [THREE.Box3]) *)

Module THREE.

Record Vector3 := mkVector3 { x : Q; y : Q; z : Q }.

Definition zero : Vector3 := mkVector3 0 0 0.

Definition add (a b : Vector3) : Vector3 :=
  mkVector3 (x a + x b) (y a + y b) (z a + z b).
Definition sub (a b : Vector3) : Vector3 :=
  mkVector3 (x a - x b) (y a - y b) (z a - z b).
Definition multiplyScalar (a : Vector3) (s : Q) : Vector3 :=
  mkVector3 (x a * s) (y a * s) (z a * s).
Definition addScaledVector (a v : Vector3) (s : Q) : Vector3 :=
  mkVector3 (x a + x v * s) (y a + y v * s) (z a + z v * s).
Definition dot (a b : Vector3) : Q :=
  x a * x b + y a * y b + z a * z b.

Record Box3 := mkBox3 { min : Vector3; max : Vector3 }.

Definition isEmpty (b : Box3) : bool :=
  Qltb (x (max b)) (x (min b)) || Qltb (y (max b)) (y (min b))
  || Qltb (z (max b)) (z (min b)).

Definition getCenter (b : Box3) : Vector3 :=
  if isEmpty b then zero else multiplyScalar (add (min b) (max b)) (1 # 2).

Definition getSize (b : Box3) : Vector3 :=
  if isEmpty b then zero else sub (max b) (min b).

(** [this.intersectsBox(box)]: closed boxes, touching faces intersect. *)
Definition intersectsBox (this box : Box3) : bool :=
  if Qltb (x (max box)) (x (min this)) || Qltb (x (max this)) (x (min box))
     || Qltb (y (max box)) (y (min this)) || Qltb (y (max this)) (y (min box))
     || Qltb (z (max box)) (z (min this)) || Qltb (z (max this)) (z (min box))
  then false else true.

(** A level body as the resolver sees it: whether [object.geometry] and
    [object.matrixWorld] are set, and the world box that
    [new THREE.Box3().setFromObject(object)] computes for it. *)
Record Object3D := mkObject3D {
  geometry : bool;
  matrixWorld : bool;
  worldBox : Box3
}.

(** The player's group: [setFromObject] yields the extent of its children
    under the current orientation ([localBox]), moved to [position]. *)
Record Group := mkGroup {
  position : Vector3;
  rotation_y : Q;
  localBox : Box3
}.

Definition setFromObject (g : Group) : Box3 :=
  mkBox3 (add (position g) (min (localBox g))) (add (position g) (max (localBox g))).

Definition withPosition (g : Group) (p : Vector3) : Group :=
  mkGroup p (rotation_y g) (localBox g).

(** [this.union(box)] while [setFromObject] walks the children; an empty
    box is the one [makeEmpty] leaves, which any box replaces. *)
Definition union (this box : Box3) : Box3 :=
  if isEmpty this then box
  else if isEmpty box then this
  else mkBox3 (mkVector3 (Qmin (x (min this)) (x (min box)))
                         (Qmin (y (min this)) (y (min box)))
                         (Qmin (z (min this)) (z (min box))))
              (mkVector3 (Qmax (x (max this)) (x (max box)))
                         (Qmax (y (max this)) (y (max box)))
                         (Qmax (z (max this)) (z (max box)))).

(** [group.add(child)]: the group's extent grows by the child's. *)
Definition addChild (g : Group) (childBox : Box3) : Group :=
  mkGroup (position g) (rotation_y g) (union (localBox g) childBox).

(** What a ray cast reports for a hit. *)
Record Intersection := mkIntersection { distance : Q }.

Record Raycaster := mkRaycaster {
  origin : Vector3;
  direction : Vector3;
  near : Q;
  far : Q
}.

End THREE.

(** ** Values handed to [setPosition] *)

(** A property of a plain object that is read as a number: missing
    ([undefined]), [NaN], or a finite number. *)
Inductive JsComponent :=
| CUndefined
| CNaN
| CNumber (q : Q).

(** The argument of [Player.setPosition] at the public interface. *)
Inductive JsValue :=
| JsUndefined
| JsNull
| JsBoolean (b : bool)
| JsNumber (q : Q)
| JsNaN
| JsString (s : string)
| JsVector3 (v : THREE.Vector3)               (* instanceof THREE.Vector3 *)
| JsObject (px py pz : JsComponent).          (* any other object *)

(** JavaScript truthiness, for [!position]. *)
Definition truthy (v : JsValue) : bool :=
  match v with
  | JsUndefined | JsNull | JsNaN => false
  | JsBoolean b => b
  | JsNumber q => negb (Qeq_bool q 0)
  | JsString s => negb (String.eqb s EmptyString)
  | JsVector3 _ | JsObject _ _ _ => true
  end.

Definition instanceofVector3 (v : JsValue) : bool :=
  match v with JsVector3 _ => true | _ => false end.

Inductive Axis := AxisX | AxisY | AxisZ.

(** A failed evaluation: the [TypeError] of reading a property of
    [null] or [undefined]. *)
Inductive Completion (A : Type) :=
| Normal (a : A)
| Throw (msg : string).
Arguments Normal {A} a.
Arguments Throw {A} msg.

(** [position.x], [position.y], [position.z] on an arbitrary value. *)
Definition getComponent (v : JsValue) (a : Axis) : Completion JsComponent :=
  match v with
  | JsUndefined | JsNull => Throw "Cannot read properties of null or undefined"
  | JsBoolean _ | JsNumber _ | JsNaN | JsString _ => Normal CUndefined
  | JsVector3 w =>
      Normal (CNumber match a with
                      | AxisX => THREE.x w | AxisY => THREE.y w | AxisZ => THREE.z w
                      end)
  | JsObject px py pz =>
      Normal match a with AxisX => px | AxisY => py | AxisZ => pz end
  end.

(** [c || d] for a number-valued [c]: [undefined], [NaN] and [0] are falsy. *)
Definition orDefault (c : JsComponent) (d : Q) : Q :=
  match c with
  | CUndefined | CNaN => d
  | CNumber q => if Qeq_bool q 0 then d else q
  end.

(** ** The level as the resolver reads it *)

Record LevelManager := mkLevelManager {
  groundObjects : option (list THREE.Object3D);
  collisionObjects : option (list (option THREE.Object3D))
}.

(** ** The movement resolver ([Player]) *)

Module Player.
Import THREE.

Record t := mk {
  velocity : Vector3;
  isGrounded : bool;
  isJumping : bool;
  isFalling : bool;
  currentFallDistance : Q;
  maxFallDistanceThisSession : Q;
  hasHighJump : bool;
  canTelekinesis : bool;
  mesh : Group;
  hitbox : Box3;
  (* read by [Game]; [None] is [undefined] *)
  currentHealth : option Q;
  maxHealth : option Q
}.

Definition set_velocity (this : t) (v : Vector3) : t :=
  mk v (isGrounded this) (isJumping this) (isFalling this)
     (currentFallDistance this) (maxFallDistanceThisSession this)
     (hasHighJump this) (canTelekinesis this) (mesh this) (hitbox this)
     (currentHealth this) (maxHealth this).

Definition set_isGrounded (this : t) (b : bool) : t :=
  mk (velocity this) b (isJumping this) (isFalling this)
     (currentFallDistance this) (maxFallDistanceThisSession this)
     (hasHighJump this) (canTelekinesis this) (mesh this) (hitbox this)
     (currentHealth this) (maxHealth this).

Definition set_isFalling (this : t) (b : bool) : t :=
  mk (velocity this) (isGrounded this) (isJumping this) b
     (currentFallDistance this) (maxFallDistanceThisSession this)
     (hasHighJump this) (canTelekinesis this) (mesh this) (hitbox this)
     (currentHealth this) (maxHealth this).

Definition set_hasHighJump (this : t) (b : bool) : t :=
  mk (velocity this) (isGrounded this) (isJumping this) (isFalling this)
     (currentFallDistance this) (maxFallDistanceThisSession this)
     b (canTelekinesis this) (mesh this) (hitbox this)
     (currentHealth this) (maxHealth this).

Definition set_canTelekinesis (this : t) (b : bool) : t :=
  mk (velocity this) (isGrounded this) (isJumping this) (isFalling this)
     (currentFallDistance this) (maxFallDistanceThisSession this)
     (hasHighJump this) b (mesh this) (hitbox this)
     (currentHealth this) (maxHealth this).

Definition set_mesh (this : t) (m : Group) : t :=
  mk (velocity this) (isGrounded this) (isJumping this) (isFalling this)
     (currentFallDistance this) (maxFallDistanceThisSession this)
     (hasHighJump this) (canTelekinesis this) m (hitbox this)
     (currentHealth this) (maxHealth this).

Definition set_hitbox (this : t) (b : Box3) : t :=
  mk (velocity this) (isGrounded this) (isJumping this) (isFalling this)
     (currentFallDistance this) (maxFallDistanceThisSession this)
     (hasHighJump this) (canTelekinesis this) (mesh this) b
     (currentHealth this) (maxHealth this).

Definition set_currentHealth (this : t) (h : option Q) : t :=
  mk (velocity this) (isGrounded this) (isJumping this) (isFalling this)
     (currentFallDistance this) (maxFallDistanceThisSession this)
     (hasHighJump this) (canTelekinesis this) (mesh this) (hitbox this)
     h (maxHealth this).

(** *** [setPosition] *)

(** The vector that [setPosition] ends up copying: the first [if] chain
    of the method. *)
Definition positionToCopy (position : JsValue) : Completion Vector3 :=
  if negb (truthy position) then
    Normal (mkVector3 0 2 0)
  else if negb (instanceofVector3 position) then
    match getComponent position AxisX with
    | Throw e => Throw e
    | Normal px =>
      match getComponent position AxisY with
      | Throw e => Throw e
      | Normal py =>
        match getComponent position AxisZ with
        | Throw e => Throw e
        | Normal pz =>
            Normal (mkVector3 (orDefault px 0) (orDefault py 2) (orDefault pz 0))
        end
      end
    end
  else
    match position with
    | JsVector3 v => Normal v
    | _ => Throw "unreachable: not an instance of Vector3"
    end.

Definition setPosition (this : t) (position : JsValue) : Completion t :=
  match positionToCopy position with
  | Throw e => Throw e
  | Normal position =>
      (* this.mesh.position.copy(position) *)
      let this := set_mesh this (withPosition (mesh this) position) in
      (* this.hitbox.setFromObject(this.mesh) *)
      Normal (set_hitbox this (setFromObject (mesh this)))
  end.

(** *** [checkGrounded] *)

(** Insertion of a hit into a list sorted by ascending distance, and the
    sort that [Raycaster.intersectObjects] applies to the collected hits. *)
Fixpoint insertHit (i : Intersection) (l : list Intersection) : list Intersection :=
  match l with
  | [] => [i]
  | j :: l' => if Qltb (distance j) (distance i) || Qeq_bool (distance j) (distance i)
               then j :: insertHit i l' else i :: l
  end.

Definition sortHits (l : list Intersection) : list Intersection :=
  fold_left (fun acc i => insertHit i acc) l [].

(** The order of the sorted hits. *)
Definition nearerOrEqual (a b : Intersection) : Prop :=
  distance a <= distance b.

Section Grounding.
  (** [object.raycast(raycaster, intersects)] of the rendering engine: the
      hits of one body, whatever its shape. *)
Variable raycast : Raycaster -> Object3D -> list Intersection.

  (** [raycaster.intersectObjects(objects, false)]. *)
Definition intersectObjects (ray : Raycaster) (objects : list Object3D)
      : list Intersection :=
    sortHits (flat_map (raycast ray) objects).

  (** The ray of the constructor: straight down from the mesh position,
      [near = 0], [far = 2]. *)
Definition groundRay (this : t) : Raycaster :=
    mkRaycaster (position (mesh this)) (mkVector3 0 (-(1)) 0) 0 2.

Definition checkGrounded (this : t) (levelManager : option LevelManager) : t :=
    let ray := groundRay this in
    let groundObjects :=
      match levelManager with
      | Some lm => match groundObjects lm with Some l => l | None => [] end
      | None => []
      end in
    let this := set_isGrounded this false in
    if (List.length groundObjects =? 0)%nat then this
    else
      let intersects := intersectObjects ray groundObjects in
      match intersects with
      | first :: _ =>
          if Qleb (distance first) 2 then set_isGrounded this true
          else set_isGrounded this false
      | [] => set_isGrounded this false
      end.
(** Every hit of the ground ray with the level's ground bodies, before
    sorting; none when the level or its ground list is missing. *)
Definition groundHits (this : t) (levelManager : option LevelManager)
    : list Intersection :=
    match levelManager with
    | Some lm =>
        match groundObjects lm with
        | Some l => flat_map (raycast (groundRay this)) l
        | None => []
        end
    | None => []
    end.
End Grounding.

(** *** [handleCollisions] *)

Definition component (v : Vector3) (a : Axis) : Q :=
  match a with AxisX => x v | AxisY => y v | AxisZ => z v end.

(** The per-axis penetration depth computed inside the loop. *)
Definition overlapOf (hitbox objectHitbox : Box3) : Vector3 :=
  let playerCenter := getCenter hitbox in
  let playerSize := getSize hitbox in
  let objectCenter := getCenter objectHitbox in
  let objectSize := getSize objectHitbox in
  mkVector3
    ((x playerSize / 2 + x objectSize / 2) - Math_abs (x playerCenter - x objectCenter))
    ((y playerSize / 2 + y objectSize / 2) - Math_abs (y playerCenter - y objectCenter))
    ((z playerSize / 2 + z objectSize / 2) - Math_abs (z playerCenter - z objectCenter)).

(** One [if (overlap.a < minOverlap) { minOverlap = overlap.a; pushAxis = 'a' }].
    [None] is the initial pair [(Infinity, null)]. *)
Definition consider (current : option (Q * Axis)) (ov : Q) (a : Axis)
    : option (Q * Axis) :=
  match current with
  | None => Some (ov, a)
  | Some (minOverlap, _) => if Qltb ov minOverlap then Some (ov, a) else current
  end.

Definition selectPushAxis (overlap : Vector3) : option (Q * Axis) :=
  consider (consider (consider None (x overlap) AxisX) (y overlap) AxisY)
           (z overlap) AxisZ.

(** The minimum translation vector's direction. *)
Definition mtvOf (pushAxis : Axis) (playerCenter objectCenter : Vector3) : Vector3 :=
  match pushAxis with
  | AxisX => mkVector3 (Math_sign (x playerCenter - x objectCenter)) 0 0
  | AxisY => mkVector3 0 (Math_sign (y playerCenter - y objectCenter)) 0
  | AxisZ => mkVector3 0 0 (Math_sign (z playerCenter - z objectCenter))
  end.

(** The callback of [collisionObjects.forEach]. *)
Definition resolveObject (this : t) (object : option Object3D) : t :=
  match object with
  | None => this
  | Some object =>
    if negb (geometry object) || negb (matrixWorld object) then this
    else
      let objectHitbox := worldBox object in
      let this := set_hitbox this (setFromObject (mesh this)) in
      if intersectsBox (hitbox this) objectHitbox then
        let playerCenter := getCenter (hitbox this) in
        let objectCenter := getCenter objectHitbox in
        let overlap := overlapOf (hitbox this) objectHitbox in
        if Qleb (x overlap) 0 || Qleb (y overlap) 0 || Qleb (z overlap) 0 then this
        else
          match selectPushAxis overlap with
          | None => this (* not reached: the first comparison is with Infinity *)
          | Some (minOverlap, pushAxis) =>
            let mtv := mtvOf pushAxis playerCenter objectCenter in
            let pushAmount := minOverlap * (101 # 100) in
            let this :=
              set_mesh this
                (withPosition (mesh this)
                   (addScaledVector (position (mesh this)) mtv pushAmount)) in
            let velocityAlongNormal := dot (velocity this) mtv in
            let this :=
              if Qltb velocityAlongNormal 0 then
                let correction := multiplyScalar mtv velocityAlongNormal in
                set_velocity this (sub (velocity this) correction)
              else this in
            match pushAxis with
            | AxisY =>
                if Qltb 0 (y mtv) && negb (isJumping this)
                then set_isFalling (set_isGrounded this true) false
                else this
            | _ => this
            end
          end
      else this
  end.

Definition handleCollisions (this : t) (levelManager : option LevelManager) : t :=
  let collisionObjects :=
    match levelManager with
    | Some lm => match collisionObjects lm with Some l => l | None => [] end
    | None => []
    end in
  if (List.length collisionObjects =? 0)%nat then this
  else
    let this := fold_left resolveObject collisionObjects this in
    set_hitbox this (setFromObject (mesh this)).

(** Two boxes overlap when the penetration depth the loop computes is
    positive on all three axes: the test behind the loop's early [return],
    negated. *)
Definition boxesOverlap (hitbox objectHitbox : Box3) : bool :=
  let overlap := overlapOf hitbox objectHitbox in
  Qltb 0 (x overlap) && Qltb 0 (y overlap) && Qltb 0 (z overlap).

(** The order in which the loop looks at the axes. *)
Definition axisOrder (a : Axis) : nat :=
  match a with AxisX => 0 | AxisY => 1 | AxisZ => 2 end.

(** [enableHighJump]. *)
Definition enableHighJump (this : t) : t :=
  if negb (hasHighJump this) then set_hasHighJump this true else this.

(** [enableTelekinesis]: the indicator, a sphere of radius 0.3 at the
    group's origin, becomes a child of the mesh; [indicatorBox] is the box
    the engine finds for it under the group's orientation. *)
Definition enableTelekinesis (indicatorBox : Box3) (this : t) : t :=
  let this := set_canTelekinesis this true in
  set_mesh this (addChild (mesh this) indicatorBox).

(** [resetForRespawn] and [heal], which the loop calls on its player:
    [class Player] defines neither, so the property read is [undefined]. *)
Definition resetForRespawn : option (t -> t) := None.

Definition heal : option (t -> Q -> t) := None.

End Player.

(** ** Input, clock and outward calls *)

Record InputState := mkInputState {
  forward : bool;
  backward : bool;
  left : bool;
  right : bool;
  jump : bool;
  down : bool;
  action : bool;
  interact : bool;
  pause : bool
}.

(** [InputManager.clearInputState]: every intent back to [false]. *)
Definition clearInputState : InputState :=
  mkInputState false false false false false false false false false.

(** [THREE.Clock], as far as the loop drives it. *)
Record Clock := mkClock { running : bool; autoStart : bool }.

Definition Clock_start (c : Clock) : Clock := mkClock true (autoStart c).
Definition Clock_stop (c : Clock) : Clock := mkClock false false.

(** [clock.getDelta()]; [elapsed] is the wall-clock time since the last
    reading, which only a running clock reports. *)
Definition Clock_getDelta (c : Clock) (elapsed : Q) : Clock * Q :=
  if autoStart c && negb (running c) then (Clock_start c, 0)
  else if running c then (c, elapsed)
  else (c, 0).

Record NPC := mkNPC {
  name : string;
  isWinConditionNPC : bool   (* appearance?.isWinConditionNPC *)
}.

(** Calls that leave the core, in the order they are made. *)
Inductive Call :=
| AudioPlay (sound : string)
| AudioPlayMusic (track : string)
| AudioPauseAudio
| AudioResumeAudio
| AudioStopMusic
| AudioStopAllLoops
| UiShowPauseScreen
| UiHidePauseScreen
| UiHideDialogue
| UiShowDialogue (speaker text : string)
| UiShowTemporaryMessage (text : string) (durationMs : Z)
| UiShowPreviousScoreLater (score : Z) (delayMs : Z)
| UiUpdate
| SaveHighScore (playerName : string) (score : Z) (elapsed : Q) (artifactCount : Z)
| GetHighScoresThenShowGameOver
| RendererRender (deltaTime : Q)
| RendererEnableNightVision
| RequestAnimationFrame
| RegenerateLevel.

(** Collaborators of the loop whose code is not part of the core: the
    per-frame movement of the player against the level (quaternion
    arithmetic and level queries), the level's own update and reset, the
    engine's box for the telekinesis indicator at a yaw, and the health
    reading the loop tests for before it calls it. *)
Class Collaborators (Level : Type) := {
  playerUpdate : Q -> InputState -> Level -> Player.t ->
                 Player.t * Level * list ItemData;
  levelManagerUpdate : Q -> Player.t -> Level -> Player.t * Level;
  resetCollectibles : Level -> Level;
  indicatorExtent : Q -> THREE.Box3;
  getHealthState : option (Player.t -> Q * Q)
}.

(** ** The game loop ([Game]) *)

Module Game.

Section WithLevel.
Context {Level : Type} `{Collaborators Level}.

Record t := mk {
  clock : Clock;
  inputState : InputState;          (* this.input.inputState *)
  levelManager : Level;
  player : option Player.t;
  isRunning : bool;
  isPaused : bool;
  isUserPaused : bool;
  interactingNPC : option NPC;
  initialPlayerPosition : option THREE.Vector3;
  playerName : string;
  timeSinceLastRegen : Q;
  state : State.t;
  calls : list Call
}.

Definition set_clock (g : t) (v : Clock) : t :=
  mk v (inputState g) (levelManager g) (player g) (isRunning g) (isPaused g)
     (isUserPaused g) (interactingNPC g) (initialPlayerPosition g)
     (playerName g) (timeSinceLastRegen g) (state g) (calls g).
Definition set_inputState (g : t) (v : InputState) : t :=
  mk (clock g) v (levelManager g) (player g) (isRunning g) (isPaused g)
     (isUserPaused g) (interactingNPC g) (initialPlayerPosition g)
     (playerName g) (timeSinceLastRegen g) (state g) (calls g).
Definition set_levelManager (g : t) (v : Level) : t :=
  mk (clock g) (inputState g) v (player g) (isRunning g) (isPaused g)
     (isUserPaused g) (interactingNPC g) (initialPlayerPosition g)
     (playerName g) (timeSinceLastRegen g) (state g) (calls g).
Definition set_player (g : t) (v : option Player.t) : t :=
  mk (clock g) (inputState g) (levelManager g) v (isRunning g) (isPaused g)
     (isUserPaused g) (interactingNPC g) (initialPlayerPosition g)
     (playerName g) (timeSinceLastRegen g) (state g) (calls g).
Definition set_isRunning (g : t) (v : bool) : t :=
  mk (clock g) (inputState g) (levelManager g) (player g) v (isPaused g)
     (isUserPaused g) (interactingNPC g) (initialPlayerPosition g)
     (playerName g) (timeSinceLastRegen g) (state g) (calls g).
Definition set_isPaused (g : t) (v : bool) : t :=
  mk (clock g) (inputState g) (levelManager g) (player g) (isRunning g) v
     (isUserPaused g) (interactingNPC g) (initialPlayerPosition g)
     (playerName g) (timeSinceLastRegen g) (state g) (calls g).
Definition set_isUserPaused (g : t) (v : bool) : t :=
  mk (clock g) (inputState g) (levelManager g) (player g) (isRunning g)
     (isPaused g) v (interactingNPC g) (initialPlayerPosition g)
     (playerName g) (timeSinceLastRegen g) (state g) (calls g).
Definition set_interactingNPC (g : t) (v : option NPC) : t :=
  mk (clock g) (inputState g) (levelManager g) (player g) (isRunning g)
     (isPaused g) (isUserPaused g) v (initialPlayerPosition g)
     (playerName g) (timeSinceLastRegen g) (state g) (calls g).
Definition set_timeSinceLastRegen (g : t) (v : Q) : t :=
  mk (clock g) (inputState g) (levelManager g) (player g) (isRunning g)
     (isPaused g) (isUserPaused g) (interactingNPC g) (initialPlayerPosition g)
     (playerName g) v (state g) (calls g).
Definition set_state (g : t) (v : State.t) : t :=
  mk (clock g) (inputState g) (levelManager g) (player g) (isRunning g)
     (isPaused g) (isUserPaused g) (interactingNPC g) (initialPlayerPosition g)
     (playerName g) (timeSinceLastRegen g) v (calls g).
Definition call (g : t) (c : Call) : t :=
  mk (clock g) (inputState g) (levelManager g) (player g) (isRunning g)
     (isPaused g) (isUserPaused g) (interactingNPC g) (initialPlayerPosition g)
     (playerName g) (timeSinceLastRegen g) (state g) (calls g ++ [c]).

Definition isSome {A} (o : option A) : bool :=
  match o with Some _ => true | None => false end.

Definition andThen {A B} (c : Completion A) (k : A -> Completion B) : Completion B :=
  match c with
  | Normal a => k a
  | Throw e => Throw e
  end.

(** [receiver.method] about to be called, for a property that may be
    [undefined]: calling [undefined] is a [TypeError]. *)
Definition callMethod {A B} (method : option (A -> B)) (expression : string)
    (receiver : A) : Completion B :=
  match method with
  | Some f => Normal (f receiver)
  | None => Throw (expression ++ " is not a function")
  end.

(** *** Collecting *)

Definition applyArtifactEffect (this : t) (effectType : string) : Completion t :=
  if String.eqb effectType "oxygen_efficiency" then Normal this
  else if String.eqb effectType "night_vision" then
    Normal (call this RendererEnableNightVision)
  else if String.eqb effectType "telekinesis" then
    match player this with
    | Some p =>
        let indicatorBox := indicatorExtent (THREE.rotation_y (Player.mesh p)) in
        Normal (set_player this (Some (Player.enableTelekinesis indicatorBox p)))
    | None => Throw "Cannot read properties of null (reading 'enableTelekinesis')"
    end
  else Normal this.

Definition collectArtifact (this : t) (artifactData : ItemData) : Completion t :=
  let this :=
    set_state this (State.set_artifacts (state this) (State.artifacts (state this) + 1)) in
  andThen
    match effect artifactData with
    | Some e => applyArtifactEffect this e
    | None => Normal this
    end
    (fun this =>
       let this := call this (AudioPlay "artifact_collect") in
       Normal
         (if (State.artifacts (state this) =? 1)%Z then
            match player this with
            | Some p => set_player this (Some (Player.enableHighJump p))
            | None => this
            end
          else this)).

Definition collectMemory (this : t) (memoryData : ItemData) : t :=
  let this :=
    set_state this (State.set_memories (state this) (State.memories (state this) + 1)) in
  let this :=
    if negb (existsb (fun m => String.eqb (id m) (id memoryData))
                     (State.collectedMemories (state this)))
    then set_state this
           (State.set_collectedMemories (state this)
              (State.collectedMemories (state this) ++ [memoryData]))
    else this in
  call this (AudioPlay "memory_collect").

(** The ids on the [collectedMemories] list. *)
Definition memoryIds (this : t) : list string :=
  map id (State.collectedMemories (state this)).

(** The callback of [collectedItems.forEach] in [update]. *)
Definition processItem (this : t) (itemData : ItemData) : Completion t :=
  if String.eqb (type itemData) "artifact" then collectArtifact this itemData
  else if String.eqb (type itemData) "memory" then Normal (collectMemory this itemData)
  else if String.eqb (type itemData) "health" then
    match player this with
    | Some p =>
        andThen (callMethod Player.heal "this.player.heal" p)
                (fun heal => Normal (set_player this (Some (heal 50))))
    | None => Throw "Cannot read properties of null (reading 'heal')"
    end
  else Normal this.

Fixpoint processItems (this : t) (items : list ItemData) : Completion t :=
  match items with
  | [] => Normal this
  | itemData :: rest => andThen (processItem this itemData) (fun this => processItems this rest)
  end.

(** *** Terminal events *)

Definition gameOver (this : t) (reason : string) : t :=
  if negb (isRunning this) then this
  else
    let this := set_isRunning this false in
    let this := set_state this (State.set_gameOverReason (state this) (Some reason)) in
    let this :=
      set_state this (State.set_finalScore (state this) (Score.gameOverScore (state this))) in
    let this :=
      call this (SaveHighScore (playerName this) (State.finalScore (state this))
                               (State.gameTimer (state this))
                               (State.artifacts (state this))) in
    let this := call this GetHighScoresThenShowGameOver in
    let this := call this (AudioPlay "game_over") in
    let this := call this AudioStopMusic in
    let this := call this AudioStopAllLoops in
    set_inputState this clearInputState.

(** [respawnPlayer] from the guard to the call of [resetForRespawn]: the
    score to show is recorded and, for a fall or a death, saved. *)
Definition respawnPlayer_beforeReset (this : t) (reason : string)
    (scoreToDisplay : option Z) : t :=
  let finalScoreForDisplay :=
    match scoreToDisplay with
    | Some score => score
    | None => Score.respawnInlineScore (state this)
    end in
  let this :=
    set_state this
      (State.set_scoreFromLastAttempt (state this) (Some finalScoreForDisplay)) in
  if String.eqb reason "fall" || String.eqb reason "health" then
    let timerBeforeReset := State.gameTimer (state this) in
    let artifactsBeforeReset := State.artifacts (state this) in
    call this (SaveHighScore (playerName this) finalScoreForDisplay
                             timerBeforeReset artifactsBeforeReset)
  else this.

Definition respawnPlayer (this : t) (reason : string) (scoreToDisplay : option Z)
    : Completion t :=
  match player this, initialPlayerPosition this with
  | Some _, Some initialPosition =>
    let finalScoreForDisplay :=
      match scoreToDisplay with
      | Some score => score
      | None => Score.respawnInlineScore (state this)
      end in
    let this := respawnPlayer_beforeReset this reason scoreToDisplay in
    andThen
      match player this with
      | Some p =>
          andThen (callMethod Player.resetForRespawn "this.player.resetForRespawn" p)
                  (fun p => Normal (set_player this (Some p)))
      | None => Throw "Cannot read properties of null (reading 'resetForRespawn')"
      end
      (fun this =>
    let this := set_state this (State.set_gameTimer (state this) 0) in
    let this := set_state this (State.set_artifacts (state this) 0) in
    let this := set_state this (State.set_memories (state this) 0) in
    let this := set_state this (State.set_collectedMemories (state this) []) in
    let this := set_levelManager this (resetCollectibles (levelManager this)) in
    andThen
      match player this with
      | Some p =>
          andThen (Player.setPosition p (JsVector3 initialPosition))
                  (fun p => Normal (set_player this (Some p)))
      | None => Throw "Cannot read properties of null (reading 'setPosition')"
      end
      (fun this =>
         let this := call this (UiShowTemporaryMessage "Respawning..." 2000) in
         let this := call this (UiShowPreviousScoreLater finalScoreForDisplay 2000) in
         let this := set_isRunning this true in
         let this := set_isPaused this false in
         let this := set_isUserPaused this false in
         let this := call this (AudioPlay "player_respawn") in
         Normal
           match player this with
           | Some p =>
               match Player.maxHealth p with
               | Some h =>
                   if negb (Qeq_bool h 0)
                   then set_player this (Some (Player.set_currentHealth p (Some h)))
                   else this
               | None => this
               end
           | None => this
           end))
  | _, _ => Normal (gameOver this "respawn_error")
  end.

Definition gameWon (this : t) : Completion t :=
  if negb (isRunning this) then Normal this
  else
    let this := set_state this (State.set_gameWon (state this) true) in
    let this :=
      set_state this
        (State.set_finalScore (state this) (Score.calculateScore (state this) true)) in
    let this := set_state this (State.set_scoreFromLastAttempt (state this) None) in
    let this :=
      call this (SaveHighScore (playerName this) (State.finalScore (state this))
                               (State.gameTimer (state this))
                               (State.artifacts (state this))) in
    respawnPlayer this "win" (Some (State.finalScore (state this))).

(** *** Pause and dialogue *)

Definition unpauseAndEndDialogue (this : t) : t :=
  let this := call this UiHideDialogue in
  let this := set_isPaused this false in
  let this := set_interactingNPC this None in
  set_inputState this clearInputState.

Definition togglePause (this : t) : t :=
  let this := set_isUserPaused this (negb (isUserPaused this)) in
  if isUserPaused this then
    let this := set_clock this (Clock_stop (clock this)) in
    let this := call this AudioPauseAudio in
    call this UiShowPauseScreen
  else
    let this := set_clock this (Clock_start (clock this)) in
    let this := call this AudioResumeAudio in
    call this UiHidePauseScreen.

Definition checkWinCondition (this : t) : Completion t :=
  match interactingNPC this with
  | Some npc =>
      if String.eqb (name npc) "Guardian of the Depths" then gameWon this
      else
        let speaker :=
          if String.eqb (name npc) EmptyString then "???"%string else name npc in
        let this := call this (UiShowDialogue speaker "Something seems incomplete...") in
        Normal (set_inputState this clearInputState)
  | None =>
      let this := call this (UiShowDialogue "???" "Something seems incomplete...") in
      Normal (set_inputState this clearInputState)
  end.

(** *** The per-frame pipeline *)

Definition updateGameState (this : t) (deltaTime : Q) : Completion t :=
  match player this with
  | None => Throw "Cannot read properties of null (reading 'mesh')"
  | Some p =>
    let firstPlatformTopY := 291 # 2 in
    let this :=
      set_state this
        (State.set_depth (state this)
           (Math_max 0 (firstPlatformTopY - THREE.y (THREE.position (Player.mesh p))))) in
    let this :=
      match getHealthState with
      | Some healthOf => set_state this (State.set_playerHealth (state this) (Some (healthOf p)))
      | None => this
      end in
    let this :=
      if negb (isUserPaused this) && negb (isPaused this) then
        set_state this
          (State.set_gameTimer (state this) (State.gameTimer (state this) + deltaTime))
      else this in
    if match Player.currentHealth p with Some h => Qleb h 0 | None => false end then
      if negb (isRunning this) then Normal this
      else respawnPlayer this "health" None
    else
      andThen
        (if Qltb (THREE.y (THREE.position (Player.mesh p))) (-(20))
         then respawnPlayer this "fall" None
         else Normal this)
        (fun this =>
           match player this with
           | None => Throw "Cannot read properties of null (reading 'isGrounded')"
           | Some p =>
               if Player.isGrounded p
                  && Qltb (THREE.y (THREE.position (Player.mesh p))) 5
               then gameWon this
               else Normal this
           end)
  end.

(** The [deltaTime] of a frame: zero while user-paused, otherwise what the
    clock reports. *)
Definition frameDelta (this : t) (elapsed : Q) : Clock * Q :=
  if isUserPaused this then (clock this, 0)
  else Clock_getDelta (clock this) elapsed.

(** The branch of [update] for a dialogue pause. *)
Definition dialogueFrame (this : t) (inputState : InputState) : Completion t :=
  andThen
    (if interact inputState && isSome (interactingNPC this) then
       match interactingNPC this with
       | Some npc =>
           if isWinConditionNPC npc then
             andThen (checkWinCondition this)
               (fun this =>
                  Normal (if isRunning this then unpauseAndEndDialogue this else this))
           else Normal (unpauseAndEndDialogue this)
       | None => Normal this
       end
     else if interact inputState && negb (isSome (interactingNPC this)) then
       Normal (unpauseAndEndDialogue this)
     else Normal this)
    (fun this => Normal (call this RequestAnimationFrame)).

(** The rest of [update] once neither pause gate has returned. The
    network send and the name sprites of other players that follow the
    render are presentation only and are left out. *)
Definition runningFrame (this : t) (deltaTime : Q) (inputState : InputState)
    : Completion t :=
  match player this with
  | None => Throw "Cannot read properties of null (reading 'update')"
  | Some p =>
    let '(p, level, collectedItems) :=
      playerUpdate deltaTime inputState (levelManager this) p in
    let '(p, level) := levelManagerUpdate deltaTime p level in
    let this := set_levelManager (set_player this (Some p)) level in
    andThen (processItems this collectedItems) (fun this =>
    andThen (updateGameState this deltaTime) (fun this =>
      let this := call this UiUpdate in
      let this := call this (RendererRender deltaTime) in
      let this := call this RequestAnimationFrame in
      Normal
        (if negb (isUserPaused this) && negb (isPaused this) then
           let this :=
             set_timeSinceLastRegen this
               (timeSinceLastRegen this + deltaTime * 1000) in
           if Qleb (5 * 60 * 1000) (timeSinceLastRegen this) then
             let this := call this (UiShowTemporaryMessage "Regenerating level..." 3000) in
             let this := set_timeSinceLastRegen this 0 in
             let this := call this AudioStopMusic in
             call this RegenerateLevel
           else this
         else this)))
  end.

(** [Game.update]: one frame. [elapsed] is the wall-clock time the clock
    would report for this frame. *)
Definition update (this : t) (elapsed : Q) : Completion t :=
  if negb (isRunning this) then Normal this
  else
    let '(clock', deltaTime) := frameDelta this elapsed in
    let this := set_clock this clock' in
    let inputState := inputState this in
    let this :=
      if pause inputState
      then set_inputState (togglePause this) clearInputState
      else this in
    if isPaused this && isSome (interactingNPC this) then
      dialogueFrame this inputState
    else if isUserPaused this then
      let this := call this (RendererRender 0) in
      Normal (call this RequestAnimationFrame)
    else
      runningFrame this deltaTime inputState.

(** What a pause must leave alone: the session state, the player, the
    level and the flags other than [isUserPaused]. *)
Definition sameWorld (before after : t) : Prop :=
  state after = state before
  /\ player after = player before
  /\ levelManager after = levelManager before
  /\ isRunning after = isRunning before
  /\ isPaused after = isPaused before
  /\ interactingNPC after = interactingNPC before
  /\ initialPlayerPosition after = initialPlayerPosition before
  /\ timeSinceLastRegen after = timeSinceLastRegen before.

(** Frames with the key and touch events between them: before each frame
    the input manager holds the intents the events left, and the clock
    reports the time since the previous frame. *)
Fixpoint frames (this : t) (inputs : list (InputState * Q)) : Completion t :=
  match inputs with
  | [] => Normal this
  | (intents, elapsed) :: rest =>
      andThen (update (set_inputState this intents) elapsed)
              (fun this => frames this rest)
  end.

End WithLevel.
End Game.

(** ** A small concrete world

    Enough of a level to run the loop and the resolver on explicit inputs:
    the level is the list of items still to be picked up, and the player's
    box is the extent of the group that [createPlayerMesh] builds, not
    rotated: the capsule (radius 0.5, length 1.5, centred at y = 1) gives
    x and z in [-0.5, 0.5] and y in [-0.25, 2.25], the lamp (radius 0.1 at
    z = 0.8) extends z to 0.9. *)

Module Fixture.

Definition Level := list ItemData.

Definition resetLevel : Level :=
  [mkItemData "memory-1" "memory" None; mkItemData "artifact-1" "artifact" None].

#[global] Instance collaborators : Collaborators Level := {|
  playerUpdate := fun _ _ level p => (p, level, []);
  levelManagerUpdate := fun _ p level => (p, level);
  resetCollectibles := fun _ => resetLevel;
  indicatorExtent := fun _ =>
    THREE.mkBox3 (THREE.mkVector3 (-(3 # 10)) (-(3 # 10)) (-(3 # 10)))
                 (THREE.mkVector3 (3 # 10) (3 # 10) (3 # 10));
  getHealthState := None
|}.

Definition playerBox : THREE.Box3 :=
  THREE.mkBox3 (THREE.mkVector3 (-(1 # 2)) (-(1 # 4)) (-(1 # 2)))
               (THREE.mkVector3 (1 # 2) (9 # 4) (9 # 10)).

Definition playerAt (px py pz : Q) : Player.t :=
  let mesh := THREE.mkGroup (THREE.mkVector3 px py pz) 0 playerBox in
  Player.mk THREE.zero false false false 0 0 false false
            mesh (THREE.setFromObject mesh) None None.

Definition solid (xmin ymin zmin xmax ymax zmax : Q) : THREE.Object3D :=
  THREE.mkObject3D true true
    (THREE.mkBox3 (THREE.mkVector3 xmin ymin zmin) (THREE.mkVector3 xmax ymax zmax)).

(** A thin pillar around the origin, and two walls 0.8 apart: a corridor
    narrower than the player. *)
Definition pillar : THREE.Object3D :=
  solid (-(3 # 10)) (-(5)) (-(5)) (3 # 10) 5 5.



(** A floor with its top at y = 0, and a body far from everything. *)
Definition floor : THREE.Object3D := solid (-(10)) (-(1)) (-(10)) 10 0 10.


Definition levelOf (bodies : list THREE.Object3D) : option LevelManager :=
  Some (mkLevelManager None (Some (map Some bodies))).

(** A ray cast that hits the top face of a body's box from above. *)
Definition raycastTop (ray : THREE.Raycaster) (o : THREE.Object3D)
    : list THREE.Intersection :=
  let b := THREE.worldBox o in
  let from := THREE.origin ray in
  if Qleb (THREE.x (THREE.min b)) (THREE.x from)
     && Qleb (THREE.x from) (THREE.x (THREE.max b))
     && Qleb (THREE.z (THREE.min b)) (THREE.z from)
     && Qleb (THREE.z from) (THREE.z (THREE.max b))
     && Qleb (THREE.y (THREE.max b)) (THREE.y from)
  then [THREE.mkIntersection (THREE.y from - THREE.y (THREE.max b))]
  else [].

(** A running game, 75 seconds in, with two artifacts and one memory. *)
Definition game : @Game.t Level :=
  Game.mk (mkClock true true) clearInputState
          [mkItemData "artifact-1" "artifact" None]
          (Some (playerAt 3 40 (-(2))))
          true false false None
          (Some (THREE.mkVector3 0 150 0))
          "Anon" 0
          (State.mk 2 1 [mkItemData "memory-1" "memory" None] 0 75 None None false 0 None)
          [].

End Fixture.

(** ** Objects used as maps

    [inputState], [activeTouches] and [otherPlayers] are plain objects
    indexed by a computed key.  They are kept as association lists in
    insertion order with at most one entry per key: an assignment replaces
    the entry of a key that is present and appends one otherwise.  (A JS
    object lists integer-like keys first; the code enumerates keys only to
    clear or remove every entry, which comes out the same in any order.) *)

Module Obj.
Section WithKey.
Context {K V : Type} (eq_dec : forall a b : K, {a = b} + {a <> b}).

(** [o[k]]; [None] is [undefined]. *)
Fixpoint get (o : list (K * V)) (k : K) : option V :=
  match o with
  | [] => None
  | (k', v) :: rest => if eq_dec k' k then Some v else get rest k
  end.

(** [o[k] = v]. *)
Fixpoint set (o : list (K * V)) (k : K) (v : V) : list (K * V) :=
  match o with
  | [] => [(k, v)]
  | (k', v') :: rest =>
      if eq_dec k' k then (k', v) :: rest else (k', v') :: set rest k v
  end.

(** [delete o[k]]. *)
Fixpoint delete (o : list (K * V)) (k : K) : list (K * V) :=
  match o with
  | [] => []
  | (k', v') :: rest =>
      if eq_dec k' k then delete rest k else (k', v') :: delete rest k
  end.

(** [Object.keys(o)]. *)
Definition keys (o : list (K * V)) : list K := map fst o.

End WithKey.
End Obj.

(** ** What a plain object inherits

    [keyMappings], [inputState] and [otherPlayers] are object literals.  A
    read [o[k]] that finds no own property goes on to [Object.prototype],
    whose properties are functions, except for ['__proto__'], an accessor
    that answers with [Object.prototype] itself; an assignment to
    ['__proto__'] without an own property of that name reaches the setter
    there, which ignores a value that is not an object. *)

Module Proto.

(** The own property names of [Object.prototype]. *)
Definition names : list string :=
  ["constructor"; "__defineGetter__"; "__defineSetter__"; "hasOwnProperty";
   "__lookupGetter__"; "__lookupSetter__"; "isPrototypeOf";
   "propertyIsEnumerable"; "toString"; "valueOf"; "__proto__";
   "toLocaleString"]%string.

Definition inherited (k : string) : bool := existsb (String.eqb k) names.

(** What [o[k]] finds: an own property, an inherited one (always truthy
    and never [undefined]), or nothing. *)
Inductive Property (V : Type) :=
| Own (v : V)
| Inherited
| Undefined.
Arguments Own {V} v.
Arguments Inherited {V}.
Arguments Undefined {V}.

Definition read {V : Type} (o : list (string * V)) (k : string) : Property V :=
  match Obj.get string_dec o k with
  | Some v => Own v
  | None => if inherited k then Inherited else Undefined
  end.

(** The [name] of the value inherited under [k]: the functions have one
    ([Object] for [constructor]), [Object.prototype] has none. *)
Definition functionName (k : string) : option string :=
  if String.eqb k "__proto__" then None
  else if String.eqb k "constructor" then Some "Object"%string
  else Some k.

(** The value inherited under [k] used as a property key: its [ToString].
    The text of a native function is the engine's; it is V8's here. *)
Definition toPropertyKey (k : string) : string :=
  match functionName k with
  | Some n => ("function " ++ n ++ "() { [native code] }")%string
  | None => "[object Object]"%string
  end.

(** Whether an assignment [o[k] = v] ends in the inherited setter. *)
Definition swallows {V : Type} (o : list (string * V)) (k : string) : bool :=
  match Obj.get string_dec o k with
  | Some _ => false
  | None => String.eqb k "__proto__"
  end.

(** [o[k] = v] for a [v] that is not an object (the intents are booleans). *)
Definition assign {V : Type} (o : list (string * V)) (k : string) (v : V)
    : list (string * V) :=
  if swallows o k then o else Obj.set string_dec o k v.

End Proto.

(** ** The input manager ([InputManager]) *)

Module InputManager.

(** A touch of a touch event: its identifier and what its target element
    answers to [classList.contains('touch-button')] and [dataset.action]. *)
Record Touch := mkTouch {
  identifier : Z;
  isTouchButton : bool;
  datasetAction : option string
}.

Record t := mk {
  inputState : list (string * bool);
  activeTouches : list (Z * string)
}.

(** The [keyMappings] literal of the constructor, indexed by [event.key]. *)
Definition keyMappings : list (string * string) :=
  [("w", "forward"); ("ArrowUp", "forward");
   ("s", "backward"); ("ArrowDown", "backward");
   ("a", "left"); ("ArrowLeft", "left");
   ("d", "right"); ("ArrowRight", "right");
   (" ", "jump"); ("z", "down"); ("e", "interact"); ("f", "action");
   ("p", "pause")]%string.

(** The state the constructor leaves. *)
Definition initial : t :=
  mk [("forward", false); ("backward", false); ("left", false);
      ("right", false); ("jump", false); ("down", false);
      ("action", false); ("interact", false); ("pause", false)]%string
     [].

(** [this.inputState[this.keyMappings[key]] = b]: the property key is the
    mapped intent or, for a key that names an inherited property, the
    inherited value turned into a string. *)
Definition mappedKey (key : string) : option string :=
  match Proto.read keyMappings key with
  | Proto.Own intent => Some intent
  | Proto.Inherited => Some (Proto.toPropertyKey key)
  | Proto.Undefined => None
  end.

(** [handleKeyDown(event)] and [handleKeyUp(event)]; the boolean tells
    whether [event.preventDefault()] was called. *)
Definition handleKeyDown (this : t) (key : string) : t * bool :=
  match mappedKey key with
  | Some property =>
      (mk (Proto.assign (inputState this) property true) (activeTouches this), true)
  | None => (this, false)
  end.

Definition handleKeyUp (this : t) (key : string) : t * bool :=
  match mappedKey key with
  | Some property =>
      (mk (Proto.assign (inputState this) property false) (activeTouches this), true)
  | None => (this, false)
  end.

(** Reading an intent off the object: a missing property is falsy. *)
Definition flag (inputState : list (string * bool)) (intent : string) : bool :=
  match Obj.get string_dec inputState intent with
  | Some b => b
  | None => false
  end.

(** [getInputState()]: a copy, of which the loop and the player read
    these nine properties. *)
Definition getInputState (this : t) : InputState :=
  let i := inputState this in
  mkInputState (flag i "forward") (flag i "backward") (flag i "left")
               (flag i "right") (flag i "jump") (flag i "down")
               (flag i "action") (flag i "interact") (flag i "pause").

(** [clearInputState()]: every key of the object is set to [false]; the
    keys are own properties, so each assignment is an ordinary write. *)
Definition clearInputState (this : t) : t :=
  mk (fold_left (fun i key => Obj.set string_dec i key false)
                (Obj.keys (inputState this)) (inputState this))
     (activeTouches this).

(** JavaScript truthiness of [dataset.action]. *)
Definition truthyAction (a : option string) : option string :=
  match a with
  | Some s => if String.eqb s EmptyString then None else Some s
  | None => None
  end.

(** The body of the loop over [event.changedTouches] in [onTouchStart]. *)
Definition touchStarted (this : t) (touch : Touch) : t :=
  if isTouchButton touch then
    match truthyAction (datasetAction touch) with
    | Some action =>
        match truthyAction (Obj.get Z.eq_dec (activeTouches this) (identifier touch)) with
        | None =>
            mk (Proto.assign (inputState this) action true)
               (Obj.set Z.eq_dec (activeTouches this) (identifier touch) action)
        | Some _ => this
        end
    | None => this
    end
  else this.

Definition onTouchStart (this : t) (changedTouches : list Touch) : t :=
  fold_left touchStarted changedTouches this.

(** The body of the loop over [event.changedTouches] in [onTouchEnd]. *)
Definition touchEnded (this : t) (touch : Touch) : t :=
  match truthyAction (Obj.get Z.eq_dec (activeTouches this) (identifier touch)) with
  | Some action =>
      mk (Proto.assign (inputState this) action false)
         (Obj.delete Z.eq_dec (activeTouches this) (identifier touch))
  | None => this
  end.

Definition onTouchEnd (this : t) (changedTouches : list Touch) : t :=
  fold_left touchEnded changedTouches this.

End InputManager.

(** ** Other players and chat ([Game], network handlers) *)

Module Presence.

Record Quaternion := mkQuaternion { qx : Q; qy : Q; qz : Q; qw : Q }.

(** The payload of a [playerStateUpdate]: [position] and [rotation] are
    arrays of three and four numbers when present. *)
Record PlayerState := mkPlayerState {
  position : option THREE.Vector3;
  rotation : option Quaternion;
  health : option Q;
  stateName : option string            (* state.name *)
}.

(** The [{}] that stands in for a missing state. *)
Definition emptyState : PlayerState := mkPlayerState None None None None.

(** What the server sends about a player on join and in the world state. *)
Record PlayerData := mkPlayerData {
  id : option string;
  dataName : option string;            (* playerData.name *)
  dataState : option PlayerState       (* playerData.state *)
}.

Record Mesh := mkMesh { meshPosition : THREE.Vector3; quaternion : Quaternion }.

Record Sprite := mkSprite { spritePosition : THREE.Vector3; spriteText : string }.

(** An entry of [otherPlayers]. *)
Record OtherPlayer := mkOtherPlayer {
  mesh : Mesh;
  nameSprite : Sprite;
  state : PlayerState;
  name : string
}.

(** The objects the handlers put into the scene, named by the player they
    were made for. *)
Inductive Visual :=
| MeshOf (playerId : string)
| SpriteOf (playerId : string).

Definition Visual_eq_dec (a b : Visual) : {a = b} + {a <> b}.
Proof. decide equality; apply string_dec. Defined.

Inductive Out :=
| NetworkSend (messageType : string) (text : string)
| UiShowChatMessage (displayName : string) (text : string)
| UiShowTemporaryMessage (text : string) (durationMs : Z)
| ConsoleWarn (message : string).

Record t := mk {
  network : bool;                      (* this.network is set *)
  clientId : option string;
  playerName : string;
  otherPlayers : list (string * OtherPlayer);
  scene : list Visual;
  out : list Out
}.

Definition set_otherPlayers (this : t) (v : list (string * OtherPlayer)) : t :=
  mk (network this) (clientId this) (playerName this) v (scene this) (out this).
Definition set_scene (this : t) (v : list Visual) : t :=
  mk (network this) (clientId this) (playerName this) (otherPlayers this) v (out this).
Definition emit (this : t) (o : Out) : t :=
  mk (network this) (clientId this) (playerName this) (otherPlayers this)
     (scene this) (out this ++ [o]).

(** Truthiness of a string-valued property: missing and empty are falsy. *)
Definition truthyString (s : option string) : option string :=
  match s with
  | Some v => if String.eqb v EmptyString then None else Some v
  | None => None
  end.

(** [a !== this.clientId] for an id read off a message. *)
Definition notClient (this : t) (a : option string) : bool :=
  match a, clientId this with
  | Some x, Some c => negb (String.eqb x c)
  | _, _ => true
  end.

Definition above (p : THREE.Vector3) : THREE.Vector3 :=
  THREE.mkVector3 (THREE.x p) (THREE.y p + (5 # 2)) (THREE.z p).

Definition setClientId (this : t) (newId : string) : t :=
  mk (network this) (Some newId) (playerName this) (otherPlayers this)
     (scene this) (out this).

Definition addOtherPlayer (this : t) (playerData : option PlayerData) : t :=
  match playerData with
  | None => emit this (ConsoleWarn "Attempted to add invalid or existing player data")
  | Some playerData =>
    match truthyString (id playerData) with
    | None => emit this (ConsoleWarn "Attempted to add invalid or existing player data")
    | Some playerId =>
      match Proto.read (otherPlayers this) playerId with
      | Proto.Own _ | Proto.Inherited =>
          emit this (ConsoleWarn "Attempted to add invalid or existing player data")
      | Proto.Undefined =>
        let playerName :=
          match truthyString (dataName playerData) with
          | Some n => n
          | None => ("Player_" ++ substring 0 4 playerId)%string
          end in
        let initialState :=
          match dataState playerData with Some st => st | None => emptyState end in
        let meshPosition :=
          match position initialState with
          | Some p => p
          | None => THREE.mkVector3 0 (-(100)) 0
          end in
        let meshQuaternion :=
          match rotation initialState with
          | Some q => q
          | None => mkQuaternion 0 0 0 1
          end in
        let mesh := mkMesh meshPosition meshQuaternion in
        let nameSprite := mkSprite (above meshPosition) playerName in
        let this := set_scene this (scene this ++ [MeshOf playerId]) in
        let this := set_scene this (scene this ++ [SpriteOf playerId]) in
        set_otherPlayers this
          (Obj.set string_dec (otherPlayers this) playerId
                   (mkOtherPlayer mesh nameSprite initialState playerName))
      end
    end
  end.

(** [removeOtherPlayer(playerId)]; a value inherited under [playerId] has
    neither [mesh] nor [nameSprite], so nothing leaves the scene for it. *)
Definition removeOtherPlayer (this : t) (playerId : string) : t :=
  let this :=
    match Obj.get string_dec (otherPlayers this) playerId with
    | Some _ =>
        let this := set_scene this (remove Visual_eq_dec (MeshOf playerId) (scene this)) in
        set_scene this (remove Visual_eq_dec (SpriteOf playerId) (scene this))
    | None => this
    end in
  set_otherPlayers this (Obj.delete string_dec (otherPlayers this) playerId).

(** [Object.keys(this.otherPlayers).forEach(id => this.removeOtherPlayer(id))]. *)
Definition removeAll (this : t) : t :=
  fold_left removeOtherPlayer (Obj.keys (otherPlayers this)) this.

Definition handleWorldState (this : t) (playersData : list PlayerData) : t :=
  let this := removeAll this in
  fold_left
    (fun this playerData =>
       if notClient this (id playerData) then addOtherPlayer this (Some playerData)
       else this)
    playersData this.

Definition handlePlayerJoined (this : t) (playerData : PlayerData) : t :=
  if notClient this (id playerData) then addOtherPlayer this (Some playerData)
  else this.

Definition handlePlayerLeft (this : t) (playerId : string) : t :=
  removeOtherPlayer this playerId.

(** [handlePlayerUpdate(playerId, state)]; a value inherited under
    [playerId] is truthy and has no [mesh]: neither branch is taken. *)
Definition handlePlayerUpdate (this : t) (playerId : string)
    (newState : option PlayerState) : t :=
  match Proto.read (otherPlayers this) playerId, newState with
  | Proto.Own otherPlayer, Some newState =>
      let meshPosition :=
        match position newState with
        | Some p => p
        | None => meshPosition (mesh otherPlayer)
        end in
      let meshQuaternion :=
        match rotation newState with
        | Some q => q
        | None => quaternion (mesh otherPlayer)
        end in
      let receivedName :=
        match truthyString (stateName newState) with
        | Some n => n
        | None => ("Player_" ++ substring 0 4 playerId)%string
        end in
      let spriteText :=
        if String.eqb receivedName (name otherPlayer)
        then spriteText (nameSprite otherPlayer)
        else receivedName in
      set_otherPlayers this
        (Obj.set string_dec (otherPlayers this) playerId
           (mkOtherPlayer (mkMesh meshPosition meshQuaternion)
                          (mkSprite (above meshPosition) spriteText)
                          newState receivedName))
  | Proto.Own _, None => this
  | Proto.Inherited, _ => this
  | Proto.Undefined, _ =>
      emit this (ConsoleWarn ("Received update for unknown player ID: " ++ playerId))
  end.

Definition handleChatMessage (this : t) (senderId messageText : string) : t :=
  if negb (notClient this (Some senderId)) then this
  else
    let displayName :=
      match Proto.read (otherPlayers this) senderId with
      | Proto.Own senderData =>
          match truthyString (Some (name senderData)) with
          | Some n => n
          | None => substring 0 6 senderId
          end
      | Proto.Inherited =>
          match truthyString (Proto.functionName senderId) with
          | Some n => n
          | None => substring 0 6 senderId
          end
      | Proto.Undefined => substring 0 6 senderId
      end in
    emit this (UiShowChatMessage displayName messageText).

Definition handleDisconnect (this : t) : t :=
  let this := emit this (ConsoleWarn "Disconnected from server.") in
  let this := removeAll this in
  emit this (UiShowTemporaryMessage "Disconnected from server" 5000).

(** [s.replace(/c/g, by)] for a one-character pattern. *)
Fixpoint replaceAll (c : Ascii.ascii) (by_ : string) (s : string) : string :=
  match s with
  | EmptyString => EmptyString
  | String a rest =>
      if Ascii.eqb a c then (by_ ++ replaceAll c by_ rest)%string
      else String a (replaceAll c by_ rest)
  end.

Definition sanitize (message : string) : string :=
  replaceAll ">"%char "&gt;" (replaceAll "<"%char "&lt;" message).

Definition sendChatMessage (this : t) (message : string) : t :=
  if negb (network this)
     || match truthyString (clientId this) with Some _ => false | None => true end
  then emit this (ConsoleWarn "Cannot send chat message: Network not ready.")
  else if (String.length message =? 0)%nat || (100 <? String.length message)%nat
  then emit this (ConsoleWarn "Cannot send empty or too long chat message.")
  else
    let sanitizedMessage := sanitize message in
    let this := emit this (NetworkSend "chatMessage" sanitizedMessage) in
    emit this (UiShowChatMessage (playerName this) sanitizedMessage).

(** How often a character occurs in a string. *)
Fixpoint occurrences (c : Ascii.ascii) (s : string) : nat :=
  match s with
  | EmptyString => 0
  | String a rest => (if Ascii.eqb a c then 1 else 0) + occurrences c rest
  end.

(** The inbound callbacks of the transport, as one step. *)
Inductive Inbound :=
| Welcome (newId : string)
| WorldState (playersData : list PlayerData)
| PlayerJoined (playerData : PlayerData)
| PlayerLeft (playerId : string)
| PlayerUpdate (playerId : string) (newState : option PlayerState)
| ChatMessage (senderId messageText : string)
| Disconnect.

Definition receive (this : t) (m : Inbound) : t :=
  match m with
  | Welcome newId => setClientId this newId
  | WorldState playersData => handleWorldState this playersData
  | PlayerJoined playerData => handlePlayerJoined this playerData
  | PlayerLeft playerId => handlePlayerLeft this playerId
  | PlayerUpdate playerId newState => handlePlayerUpdate this playerId newState
  | ChatMessage senderId messageText => handleChatMessage this senderId messageText
  | Disconnect => handleDisconnect this
  end.

(** The roster and the scene a game starts with. *)
Definition initial (playerName : string) : t :=
  mk false None playerName [] [] [].

(** The visuals a roster accounts for, in the order they were added. *)
Definition visualsOf (roster : list (string * OtherPlayer)) : list Visual :=
  flat_map (fun playerId => [MeshOf playerId; SpriteOf playerId]) (Obj.keys roster).

(** A roster and a scene that fit: one entry per id, no empty id, in the
    scene exactly the mesh and the sprite of every entry, and every name
    sprite 2.5 above its mesh. *)
Definition consistent (this : t) : Prop :=
  NoDup (Obj.keys (otherPlayers this))
  /\ ~ In EmptyString (Obj.keys (otherPlayers this))
  /\ scene this = visualsOf (otherPlayers this)
  /\ (forall playerId p,
        Obj.get string_dec (otherPlayers this) playerId = Some p ->
        spritePosition (nameSprite p) = above (meshPosition (mesh p))).

Definition isWelcome (m : Inbound) : bool :=
  match m with Welcome _ => true | _ => false end.

End Presence.

(** ** The player's frame ([Player.update], [Player.updateLandMovement]) *)

(** What [Player.update] asks of the level and of the rendering engine.
    The level's own code is not part of the resolver: its queries are the
    methods the player calls, with the level threaded through the ones
    that change it.  A method the player tests for before calling it is an
    [option]. *)
Class LevelApi (L : Type) := {
  Npc : Type;
  Dialogue : Type;
  Movable : Type;
  (** [groundObjects] and [collisionObjects] *)
  resolverView : L -> LevelManager;
  (** whether [levelManager.checkCollisions] is set *)
  checkCollisions : L -> bool;
  (** ids of [getCollectiblesInRadius(position, radius)] *)
  getCollectiblesInRadius : option (L -> THREE.Vector3 -> Q -> list string);
  collectItem : L -> string -> option ItemData * L;
  getClosestNPC : option (L -> THREE.Vector3 -> Q -> option Npc);
  (** [npc.interact()] *)
  npcInteract : L -> Npc -> option Dialogue * L;
  getMovableObjects : option (L -> list Movable);
  applyForceToObject : L -> Movable -> THREE.Vector3 -> L;
  (** [raycaster.intersectObjects(objects)[0].object], when there is a hit *)
  firstHit : THREE.Raycaster -> list Movable -> option Movable;
  (** [object.raycast] of a ground body *)
  raycastGround : THREE.Raycaster -> THREE.Object3D -> list THREE.Intersection;
  (** [(0, 0, 1).applyQuaternion(mesh.quaternion)] at a yaw *)
  forwardAt : Q -> THREE.Vector3;
  (** the extent of the player's body at a yaw *)
  extentAt : Q -> THREE.Box3;
  (** the extent of the telekinesis indicator at a yaw *)
  indicatorAt : Q -> THREE.Box3
}.

Module Motion.
Import THREE.

Section WithLevel.
Context {L : Type} `{LevelApi L}.

(** The fields of the constructor that never change. *)
Definition moveSpeed : Q := 10.
Definition turnSpeed : Q := 5 # 2.
Definition jumpForce : Q := 15.
Definition highJumpForceMultiplier : Q := 14 # 10.
Definition gravity : Q := 30.
Definition stepInterval : Q := 4 # 10.
Definition collectionRadius : Q := 5 # 2.

(** The player with the fields a frame uses beside the resolver's:
    the step timer, this frame's pickups, the pending dialogue, and the
    sounds asked of [window.game.audio]. *)
Record t := mk {
  body : Player.t;
  stepTimer : Q;
  collectedItemsThisFrame : list ItemData;
  currentDialogue : option (Dialogue * Npc);
  sounds : list string
}.

Definition set_body (this : t) (b : Player.t) : t :=
  mk b (stepTimer this) (collectedItemsThisFrame this) (currentDialogue this)
     (sounds this).
Definition set_stepTimer (this : t) (v : Q) : t :=
  mk (body this) v (collectedItemsThisFrame this) (currentDialogue this) (sounds this).
Definition set_collected (this : t) (v : list ItemData) : t :=
  mk (body this) (stepTimer this) v (currentDialogue this) (sounds this).
Definition set_currentDialogue (this : t) (v : option (Dialogue * Npc)) : t :=
  mk (body this) (stepTimer this) (collectedItemsThisFrame this) v (sounds this).
Definition play (this : t) (sound : string) : t :=
  mk (body this) (stepTimer this) (collectedItemsThisFrame this)
     (currentDialogue this) (sounds this ++ [sound]).

Definition set_isJumping (p : Player.t) (b : bool) : Player.t :=
  Player.mk (Player.velocity p) (Player.isGrounded p) b (Player.isFalling p)
            (Player.currentFallDistance p) (Player.maxFallDistanceThisSession p)
            (Player.hasHighJump p) (Player.canTelekinesis p) (Player.mesh p)
            (Player.hitbox p) (Player.currentHealth p) (Player.maxHealth p).
Definition set_currentFallDistance (p : Player.t) (v : Q) : Player.t :=
  Player.mk (Player.velocity p) (Player.isGrounded p) (Player.isJumping p)
            (Player.isFalling p) v (Player.maxFallDistanceThisSession p)
            (Player.hasHighJump p) (Player.canTelekinesis p) (Player.mesh p)
            (Player.hitbox p) (Player.currentHealth p) (Player.maxHealth p).
Definition set_maxFallDistanceThisSession (p : Player.t) (v : Q) : Player.t :=
  Player.mk (Player.velocity p) (Player.isGrounded p) (Player.isJumping p)
            (Player.isFalling p) (Player.currentFallDistance p) v
            (Player.hasHighJump p) (Player.canTelekinesis p) (Player.mesh p)
            (Player.hitbox p) (Player.currentHealth p) (Player.maxHealth p).
Definition set_velocity_y (p : Player.t) (v : Q) : Player.t :=
  Player.set_velocity p
    (mkVector3 (x (Player.velocity p)) v (z (Player.velocity p))).

(** [this.mesh.rotation.y += delta]: the group turns, and with it the
    extent that [setFromObject] will find for its children, the indicator
    among them once telekinesis is enabled. *)
Definition turn (p : Player.t) (delta : Q) : Player.t :=
  let m := Player.mesh p in
  let yaw := rotation_y m + delta in
  let extent :=
    if Player.canTelekinesis p then union (extentAt yaw) (indicatorAt yaw)
    else extentAt yaw in
  Player.set_mesh p (mkGroup (position m) yaw extent).

(** [updateLandMovement(deltaTime, inputState, levelManager)].  The vector
    the source calls [forward] is [direction] here; [multiplyScalar]
    changes it in place, so the backward branch scales what the forward
    branch left. *)
Definition updateLandMovement (this : t) (deltaTime : Q) (inputState : InputState)
    (levelManager : option LevelManager) : t :=
  let previousYVelocity := y (Player.velocity (body this)) in
  let p := Player.checkGrounded raycastGround (body this) levelManager in
  let p := Player.set_velocity p (mkVector3 0 (y (Player.velocity p)) 0) in
  let direction := forwardAt (rotation_y (Player.mesh p)) in
  let isMoving := false in
  let '(p, direction, isMoving) :=
    if forward inputState then
      let direction := multiplyScalar direction moveSpeed in
      (Player.set_velocity p (add (Player.velocity p) direction), direction, true)
    else (p, direction, isMoving) in
  let '(p, direction, isMoving) :=
    if backward inputState then
      let direction := multiplyScalar direction (- moveSpeed * (7 # 10)) in
      (Player.set_velocity p (add (Player.velocity p) direction), direction, true)
    else (p, direction, isMoving) in
  let p := if left inputState then turn p (turnSpeed * deltaTime) else p in
  let p := if right inputState then turn p (- (turnSpeed * deltaTime)) else p in
  let this := set_body this p in
  let this :=
    if jump inputState && Player.isGrounded (body this) then
      let effectiveJumpForce :=
        if Player.hasHighJump (body this)
        then jumpForce * highJumpForceMultiplier else jumpForce in
      let p := set_velocity_y (body this) effectiveJumpForce in
      let p := set_isJumping p true in
      let p := Player.set_isGrounded p false in
      play (set_body this p) "player_jump"
    else this in
  if negb (Player.isGrounded (body this)) then
    let p := body this in
    let p :=
      if negb (Player.isFalling p) && Qltb (y (Player.velocity p)) 0 then
        set_currentFallDistance (Player.set_isFalling p true) 0
      else if Player.isFalling p then
        let verticalDelta := Math_abs (previousYVelocity * deltaTime) in
        set_currentFallDistance p (Player.currentFallDistance p + verticalDelta)
      else p in
    let p := set_velocity_y p (y (Player.velocity p) - gravity * deltaTime) in
    set_body this p
  else
    let this :=
      if Player.isFalling (body this) then
        let p := body this in
        let p :=
          set_maxFallDistanceThisSession p
            (Math_max (Player.maxFallDistanceThisSession p)
                      (Player.currentFallDistance p)) in
        play (set_body this p) "player_step"
      else this in
    let p := body this in
    let p := Player.set_isFalling p false in
    let p := set_currentFallDistance p 0 in
    let p := set_velocity_y p 0 in
    let p := set_isJumping p false in
    let this := set_body this p in
    if isMoving then
      let this := set_stepTimer this (stepTimer this + deltaTime) in
      if Qleb stepInterval (stepTimer this) then
        set_stepTimer (play this "player_step") 0
      else this
    else set_stepTimer this 0.

(** The two halves of [updateLandMovement], for the proofs: [steering] is
    the method from the reset of the horizontal velocity to the turn keys,
    [vertical] is the rest (jump, gravity and fall tracking, landing and
    step sounds).  [updateLandMovement_phases] shows that the method is
    the one after the other. *)
Definition steering (p : Player.t) (deltaTime : Q) (inputState : InputState)
    : Player.t * bool :=
  let p := Player.set_velocity p (mkVector3 0 (y (Player.velocity p)) 0) in
  let direction := forwardAt (rotation_y (Player.mesh p)) in
  let isMoving := false in
  let '(p, direction, isMoving) :=
    if forward inputState then
      let direction := multiplyScalar direction moveSpeed in
      (Player.set_velocity p (add (Player.velocity p) direction), direction, true)
    else (p, direction, isMoving) in
  let '(p, direction, isMoving) :=
    if backward inputState then
      let direction := multiplyScalar direction (- moveSpeed * (7 # 10)) in
      (Player.set_velocity p (add (Player.velocity p) direction), direction, true)
    else (p, direction, isMoving) in
  let p := if left inputState then turn p (turnSpeed * deltaTime) else p in
  let p := if right inputState then turn p (- (turnSpeed * deltaTime)) else p in
  (p, isMoving).

Definition vertical (this : t) (previousYVelocity deltaTime : Q)
    (jumpIntent isMoving : bool) : t :=
  let this :=
    if jumpIntent && Player.isGrounded (body this) then
      let effectiveJumpForce :=
        if Player.hasHighJump (body this)
        then jumpForce * highJumpForceMultiplier else jumpForce in
      let p := set_velocity_y (body this) effectiveJumpForce in
      let p := set_isJumping p true in
      let p := Player.set_isGrounded p false in
      play (set_body this p) "player_jump"
    else this in
  if negb (Player.isGrounded (body this)) then
    let p := body this in
    let p :=
      if negb (Player.isFalling p) && Qltb (y (Player.velocity p)) 0 then
        set_currentFallDistance (Player.set_isFalling p true) 0
      else if Player.isFalling p then
        let verticalDelta := Math_abs (previousYVelocity * deltaTime) in
        set_currentFallDistance p (Player.currentFallDistance p + verticalDelta)
      else p in
    let p := set_velocity_y p (y (Player.velocity p) - gravity * deltaTime) in
    set_body this p
  else
    let this :=
      if Player.isFalling (body this) then
        let p := body this in
        let p :=
          set_maxFallDistanceThisSession p
            (Math_max (Player.maxFallDistanceThisSession p)
                      (Player.currentFallDistance p)) in
        play (set_body this p) "player_step"
      else this in
    let p := body this in
    let p := Player.set_isFalling p false in
    let p := set_currentFallDistance p 0 in
    let p := set_velocity_y p 0 in
    let p := set_isJumping p false in
    let this := set_body this p in
    if isMoving then
      let this := set_stepTimer this (stepTimer this + deltaTime) in
      if Qleb stepInterval (stepTimer this) then
        set_stepTimer (play this "player_step") 0
      else this
    else set_stepTimer this 0.

(** [checkCollectibles(levelManager)], for a level that has
    [getCollectiblesInRadius]. *)
Definition checkCollectibles (this : t) (level : L)
    (inRadius : L -> Vector3 -> Q -> list string) : t * L :=
  let collectibles :=
    inRadius level (position (Player.mesh (body this))) collectionRadius in
  fold_left
    (fun '(this, level) collectibleId =>
       match collectItem level collectibleId with
       | (Some itemData, level) =>
           (set_collected this (collectedItemsThisFrame this ++ [itemData]), level)
       | (None, level) => (this, level)
       end)
    collectibles (this, level).

(** [inputState.interact], read before the method of the same name. *)
Definition interactIntent (inputState : InputState) : bool := interact inputState.

(** [interact(levelManager)]. *)
Definition interact (this : t) (level : L) : t * L :=
  let this := set_currentDialogue this None in
  let npc :=
    match getClosestNPC with
    | Some closest => closest level (position (Player.mesh (body this))) 3
    | None => None
    end in
  match npc with
  | Some npc =>
      match npcInteract level npc with
      | (Some dialogueData, level) =>
          (set_currentDialogue this (Some (dialogueData, npc)), level)
      | (None, level) => (this, level)
      end
  | None => (this, level)
  end.

(** [useTelekinesis(levelManager)], for a level that has
    [getMovableObjects]. *)
Definition useTelekinesis (this : t) (level : L) (movable : L -> list Movable) : L :=
  let m := Player.mesh (body this) in
  let forwardRay :=
    mkRaycaster (add (position m) (mkVector3 0 1 0)) (forwardAt (rotation_y m)) 0 10 in
  match firstHit forwardRay (movable level) with
  | Some object =>
      let force := multiplyScalar (forwardAt (rotation_y m)) 5 in
      applyForceToObject level object force
  | None => level
  end.

(** [update(deltaTime, inputState, levelManager)]. *)
Definition update (this : t) (deltaTime : Q) (inputState : InputState)
    (levelManager : option L) : t * option L :=
  match levelManager with
  | None => (this, None)
  | Some level =>
    let this := set_collected this [] in
    let this :=
      updateLandMovement this deltaTime inputState (Some (resolverView level)) in
    let p := body this in
    let m := Player.mesh p in
    let v := Player.velocity p in
    let p :=
      Player.set_mesh p
        (withPosition m
           (mkVector3 (x (position m) + x v * deltaTime)
                      (y (position m) + y v * deltaTime)
                      (z (position m) + z v * deltaTime))) in
    let p :=
      if checkCollisions level
      then Player.handleCollisions p (Some (resolverView level)) else p in
    let p := Player.set_hitbox p (setFromObject (Player.mesh p)) in
    let this := set_body this p in
    let '(this, level) :=
      match getCollectiblesInRadius with
      | Some inRadius => checkCollectibles this level inRadius
      | None => (this, level)
      end in
    let '(this, level) :=
      if interactIntent inputState then interact this level else (this, level) in
    let level :=
      if action inputState && Player.canTelekinesis (body this) then
        match getMovableObjects with
        | Some movable => useTelekinesis this level movable
        | None => level
        end
      else level in
    (this, Some level)
  end.

(** [getCollectedItems()] and [getCurrentDialogue()]; the latter clears
    what it returns. *)
Definition getCollectedItems (this : t) : list ItemData :=
  collectedItemsThisFrame this.

Definition getCurrentDialogue (this : t) : option (Dialogue * Npc) * t :=
  (currentDialogue this, set_currentDialogue this None).

(** [resetSessionStats()]. *)
Definition resetSessionStats (this : t) : t :=
  set_body this
    (set_maxFallDistanceThisSession (set_currentFallDistance (body this) 0) 0).

End WithLevel.
End Motion.

(** ** A flat arena

    A level for running the player's frame on explicit inputs: the level is
    its ground and collision bodies, nothing to pick up, nobody to talk to;
    the player always faces +z. *)

Module Arena.

#[global] Instance api : LevelApi LevelManager := {|
  Npc := string;
  Dialogue := string;
  Movable := unit;
  resolverView := fun level => level;
  checkCollisions := fun _ => true;
  getCollectiblesInRadius := None;
  collectItem := fun level _ => (None, level);
  getClosestNPC := None;
  npcInteract := fun level _ => (None, level);
  getMovableObjects := None;
  applyForceToObject := fun level _ _ => level;
  firstHit := fun _ _ => None;
  raycastGround := Fixture.raycastTop;
  forwardAt := fun _ => THREE.mkVector3 0 0 1;
  extentAt := fun _ => Fixture.playerBox;
  indicatorAt := fun _ =>
    THREE.mkBox3 (THREE.mkVector3 (-(3 # 10)) (-(3 # 10)) (-(3 # 10)))
                 (THREE.mkVector3 (3 # 10) (3 # 10) (3 # 10))
|}.

(** A slab whose top is at y = 0, as ground and as collision body. *)
Definition floor : THREE.Object3D := Fixture.solid (-(20)) (-(1)) (-(20)) 20 0 20.

Definition level : LevelManager :=
  mkLevelManager (Some [floor]) (Some [Some floor]).

Definition playerAt (px py pz : Q) : @Motion.t LevelManager api :=
  Motion.mk (Fixture.playerAt px py pz) 0 [] None [].

Definition keys (f b l r j : bool) : InputState :=
  mkInputState f b l r j false false false false.

End Arena.

(* ================================================================= *)
(** * Theorems *)

(** ** Score manager *)

Lemma calculateScore_fields (s : State.t) (isWin : bool) :
  Score.calculateScore s isWin =
  Score.computeScore (State.gameTimer s) (State.artifacts s) (State.memories s) isWin.
Proof. reflexivity. Qed.

(** C1 (as amended). [computeScore(50, 1, 1, true)] is 12250: the time
    score [max(0, 10000 - 50*10) = 9500], the collectible score
    [1*1000 + 1*750 = 1750] and the win bonus 1000 add up to 12250, which
    [Math.floor] leaves as it is. *)
Theorem C1_computeScore_win_example :
  Score.computeScore 50 1 1 true = 12250%Z
  /\ Math_max 0 (10000 - 50 * 10) == 9500
  /\ (1 * 1000 + 1 * 750 = 1750)%Z
  /\ Math_floor (9500 + inject_Z 1750 + 1000) = 12250%Z.
Proof.
  repeat split; vm_compute; reflexivity.
Qed.

(** C1 as the spec has it: 11250 is not what the formula gives. *)
Lemma C1_computeScore_not_11250 :
  Score.computeScore 50 1 1 true <> 11250%Z.
Proof. vm_compute. discriminate. Qed.


(** C2. The score written out inside [respawnPlayer] (used when no score
    is passed in) and the one written out inside [gameOver] are, on every
    game state, the integer that [calculateScore(false)] returns. *)
Theorem C2_inline_scores_agree (state : State.t) :
  Score.respawnInlineScore state = Score.calculateScore state false
  /\ Score.gameOverScore state = Score.calculateScore state false.
Proof.
  split.
  - unfold Score.respawnInlineScore, Score.calculateScore. cbv zeta. reflexivity.
  - unfold Score.gameOverScore, Score.calculateScore. cbv zeta. reflexivity.
Qed.

Lemma Qltb_lt (a b : Q) : Qltb a b = true <-> a < b.
Proof.
  unfold Qltb. rewrite Qlt_alt.
  destruct (a ?= b); split; intros E; try reflexivity; discriminate.
Qed.

Lemma Qltb_ge (a b : Q) : Qltb a b = false <-> b <= a.
Proof.
  split; intros E.
  - apply Qnot_lt_le. intros L. apply Qltb_lt in L. congruence.
  - destruct (Qltb a b) eqn:L; [|reflexivity].
    apply Qltb_lt in L. exfalso. apply (Qlt_not_le _ _ L E).
Qed.

Lemma Qleb_le (a b : Q) : Qleb a b = true <-> a <= b.
Proof.
  unfold Qleb. rewrite Qle_alt.
  destruct (a ?= b); split; intros E; try reflexivity; try discriminate.
  exfalso. apply E. reflexivity.
Qed.

Lemma Qleb_gt (a b : Q) : Qleb a b = false <-> b < a.
Proof.
  split; intros E.
  - apply Qnot_le_lt. intros L. apply Qleb_le in L. congruence.
  - destruct (Qleb a b) eqn:L; [|reflexivity].
    apply Qleb_le in L. exfalso. apply (Qlt_not_le _ _ E L).
Qed.

Lemma Math_max_nonneg (a : Q) : 0 <= Math_max 0 a.
Proof. unfold Math_max. apply Q.le_max_l. Qed.

Lemma Math_floor_nonneg (a : Q) : 0 <= a -> (0 <= Math_floor a)%Z.
Proof.
  intros Ha. unfold Math_floor.
  change 0%Z with (Qfloor 0). apply Qfloor_resp_le. exact Ha.
Qed.

Lemma inject_Z_nonneg (n : Z) : (0 <= n)%Z -> 0 <= inject_Z n.
Proof.
  intros Hn. change 0 with (inject_Z 0). rewrite <- Zle_Qle. exact Hn.
Qed.

(** C5. With a non-negative elapsed time and non-negative counters the
    score is a non-negative integer, with or without the win bonus: the
    time term is clamped at zero.  In particular
    [computeScore(2000, 0, 0, false)] is 0. *)
Theorem C5_computeScore_nonneg (elapsedSeconds : Q) (artifactCount memoryCount : Z)
    (isWin : bool) :
  0 <= elapsedSeconds -> (0 <= artifactCount)%Z -> (0 <= memoryCount)%Z ->
  (0 <= Score.computeScore elapsedSeconds artifactCount memoryCount isWin)%Z
  /\ 0 <= Math_max 0 (10000 - elapsedSeconds * 10)
  /\ Score.computeScore 2000 0 0 false = 0%Z.
Proof.
  intros _ Ha Hm. split; [|split].
  - unfold Score.computeScore, Score.calculateScore. cbv zeta. simpl.
    apply Math_floor_nonneg.
    pose proof (Math_max_nonneg (10000 - elapsedSeconds * 10)) as Ht.
    assert (Hc : 0 <= inject_Z (artifactCount * 1000 + memoryCount * 750))
      by (apply inject_Z_nonneg; lia).
    destruct isWin; lra.
  - apply Math_max_nonneg.
  - vm_compute. reflexivity.
Qed.

(** The bound at a late win: 2000 seconds, three artifacts, two memories. *)
Lemma C5_computeScore_nonneg_witness :
  (0 <= Score.computeScore 2000 3 2 true)%Z
  /\ 0 <= Math_max 0 (10000 - 2000 * 10)
  /\ Score.computeScore 2000 0 0 false = 0%Z.
Proof.
  apply (C5_computeScore_nonneg 2000 3 2 true).
  - vm_compute. discriminate.
  - lia.
  - lia.
Defined.

(** ** Respawn and collecting *)

Section GameFacts.
Context {Level : Type} `{Collaborators Level}.

Lemma setPosition_vector (p : Player.t) (v : THREE.Vector3) :
  Player.setPosition p (JsVector3 v) =
  Normal (Player.set_hitbox
            (Player.set_mesh p (THREE.withPosition (Player.mesh p) v))
            (THREE.setFromObject (THREE.withPosition (Player.mesh p) v))).
Proof. reflexivity. Qed.

(** Past its guard [respawnPlayer] gets as far as the call of
    [resetForRespawn], which is [undefined] on the player; without a
    player or an initial position it turns into a game over. *)
Lemma respawnPlayer_cases (g : @Game.t Level) (reason : string)
    (scoreToDisplay : option Z) :
  Game.respawnPlayer g reason scoreToDisplay
  = match Game.player g, Game.initialPlayerPosition g with
    | Some _, Some _ => Throw "this.player.resetForRespawn is not a function"
    | _, _ => Normal (Game.gameOver g "respawn_error")
    end.
Proof.
  unfold Game.respawnPlayer.
  destruct (Game.player g) as [p|] eqn:Hp; [|reflexivity].
  destruct (Game.initialPlayerPosition g) as [pos|]; [|reflexivity].
  cbv zeta.
  assert (Hp' : Game.player (Game.respawnPlayer_beforeReset g reason scoreToDisplay)
                = Some p).
  { unfold Game.respawnPlayer_beforeReset. cbv zeta.
    destruct (String.eqb reason "fall" || String.eqb reason "health")%bool; exact Hp. }
  rewrite Hp'. reflexivity.
Qed.

Lemma respawnPlayer_beforeReset_frame (g : @Game.t Level) (reason : string)
    (scoreToDisplay : option Z) :
  let atThrow := Game.respawnPlayer_beforeReset g reason scoreToDisplay in
  State.artifacts (Game.state atThrow) = State.artifacts (Game.state g)
  /\ State.memories (Game.state atThrow) = State.memories (Game.state g)
  /\ State.collectedMemories (Game.state atThrow)
     = State.collectedMemories (Game.state g)
  /\ State.gameTimer (Game.state atThrow) = State.gameTimer (Game.state g)
  /\ Game.levelManager atThrow = Game.levelManager g
  /\ Game.player atThrow = Game.player g.
Proof.
  cbv zeta. unfold Game.respawnPlayer_beforeReset. cbv zeta.
  destruct (String.eqb reason "fall" || String.eqb reason "health")%bool;
    repeat split; reflexivity.
Qed.

(** C7 (contradicted by the code). Whatever the reason and whether or
    not a score is passed in, a respawn of a game that has a player and a
    recorded initial position does not reset anything: [respawnPlayer]
    calls [this.player.resetForRespawn()] first, [class Player] has no such
    method, and the call throws a [TypeError].  When it leaves the method
    the counters, the memories, the timer, the level and the player, with
    its position, are what they were. *)
Theorem C7_respawn_throws_before_reset (g : @Game.t Level) (reason : string)
    (scoreToDisplay : option Z) (p : Player.t) (pos : THREE.Vector3) :
  Game.player g = Some p ->
  Game.initialPlayerPosition g = Some pos ->
  Game.respawnPlayer g reason scoreToDisplay
  = Throw "this.player.resetForRespawn is not a function"
  /\ let atThrow := Game.respawnPlayer_beforeReset g reason scoreToDisplay in
     State.artifacts (Game.state atThrow) = State.artifacts (Game.state g)
     /\ State.memories (Game.state atThrow) = State.memories (Game.state g)
     /\ State.collectedMemories (Game.state atThrow)
        = State.collectedMemories (Game.state g)
     /\ State.gameTimer (Game.state atThrow) = State.gameTimer (Game.state g)
     /\ Game.levelManager atThrow = Game.levelManager g
     /\ Game.player atThrow = Some p.
Proof.
  intros Hp Hpos. split.
  - rewrite respawnPlayer_cases, Hp, Hpos. reflexivity.
  - cbv zeta.
    destruct (respawnPlayer_beforeReset_frame g reason scoreToDisplay)
      as (Ha & Hm & Hc & Ht & Hl & Hq).
    cbv zeta in *. rewrite Hq. repeat split; assumption.
Qed.

(** Where the two written-out scores end up: [gameOver] stores its score as
    [finalScore], a respawn without a passed-in score records its score as
    [scoreFromLastAttempt] before it reaches [resetForRespawn]; both are
    [calculateScore(false)] of the state before. *)
Lemma gameOver_finalScore (g : @Game.t Level) (reason : string) :
  Game.isRunning g = true ->
  State.finalScore (Game.state (Game.gameOver g reason))
  = Score.calculateScore (Game.state g) false.
Proof.
  intros Hrun. unfold Game.gameOver. rewrite Hrun. reflexivity.
Qed.

Lemma respawnPlayer_score (g : @Game.t Level) (reason : string) :
  State.scoreFromLastAttempt
    (Game.state (Game.respawnPlayer_beforeReset g reason None))
  = Some (Score.calculateScore (Game.state g) false).
Proof.
  unfold Game.respawnPlayer_beforeReset. cbv zeta.
  destruct (String.eqb reason "fall" || String.eqb reason "health")%bool; reflexivity.
Qed.
End GameFacts.

(** A fall, 75 seconds into a session with two artifacts and one memory:
    the counters and the timer are still there and the player is still at
    y = 40. *)
Lemma C7_respawn_throws_before_reset_witness :
  Game.respawnPlayer Fixture.game "fall" None
  = Throw "this.player.resetForRespawn is not a function"
  /\ State.artifacts
       (Game.state (Game.respawnPlayer_beforeReset Fixture.game "fall" None)) = 2%Z
  /\ State.gameTimer
       (Game.state (Game.respawnPlayer_beforeReset Fixture.game "fall" None)) = 75
  /\ Game.player (Game.respawnPlayer_beforeReset Fixture.game "fall" None)
     = Some (Fixture.playerAt 3 40 (-(2))).
Proof.
  destruct (C7_respawn_throws_before_reset Fixture.game "fall" None
              (Fixture.playerAt 3 40 (-(2))) (THREE.mkVector3 0 150 0)
              eq_refl eq_refl) as (E & Ha & _ & _ & Ht & _ & Hp).
  split; [exact E|]. split; [exact Ha|]. split; [exact Ht | exact Hp].
Defined.

(** ** Collected memories *)

Section MemoryFacts.
Context {Level : Type}.

Lemma existsb_id_In (i : string) (l : list ItemData) :
  existsb (fun m => String.eqb (id m) i) l = true <-> In i (map id l).
Proof.
  rewrite existsb_exists, in_map_iff. split.
  - intros [m [Hin Heq]]. apply String.eqb_eq in Heq. exists m. auto.
  - intros [m [Heq Hin]]. exists m. split; [exact Hin|]. apply String.eqb_eq. exact Heq.
Qed.

Lemma collectMemory_known (g : @Game.t Level) (m : ItemData) :
  In (id m) (Game.memoryIds g) ->
  State.collectedMemories (Game.state (Game.collectMemory g m))
  = State.collectedMemories (Game.state g).
Proof.
  intros Hin. apply existsb_id_In in Hin.
  unfold Game.collectMemory. cbn. rewrite Hin. reflexivity.
Qed.

Lemma collectMemory_new (g : @Game.t Level) (m : ItemData) :
  ~ In (id m) (Game.memoryIds g) ->
  State.collectedMemories (Game.state (Game.collectMemory g m))
  = State.collectedMemories (Game.state g) ++ [m].
Proof.
  intros Hin. unfold Game.collectMemory. cbn.
  destruct (existsb _ _) eqn:E; [|reflexivity].
  apply existsb_id_In in E. contradiction.
Qed.

Lemma collectMemory_counter (g : @Game.t Level) (m : ItemData) :
  State.memories (Game.state (Game.collectMemory g m))
  = (State.memories (Game.state g) + 1)%Z.
Proof.
  unfold Game.collectMemory. cbn. destruct (existsb _ _); reflexivity.
Qed.

Lemma collectMemory_NoDup (g : @Game.t Level) (m : ItemData) :
  NoDup (Game.memoryIds g) -> NoDup (Game.memoryIds (Game.collectMemory g m)).
Proof.
  intros Hnd. unfold Game.memoryIds.
  destruct (in_dec string_dec (id m) (Game.memoryIds g)) as [Hin|Hout].
  - rewrite collectMemory_known by exact Hin. exact Hnd.
  - rewrite collectMemory_new by exact Hout. rewrite map_app. cbn.
    apply NoDup_app; [exact Hnd | constructor; [intros [] | constructor] |].
    intros a Ha [Hb|[]]. subst a. contradiction.
Qed.

(** C10. Starting from a list that has no two entries with the same
    id (as it is, empty, at the start of every life), any sequence of
    [collectMemory] calls keeps [collectedMemories] pairwise distinct by
    id and raises [memories] once per call; a call with an id that is
    already listed leaves the list as it is and still raises the counter. *)
Theorem C10_collectedMemories_distinct (g : @Game.t Level) (items : list ItemData) :
  NoDup (Game.memoryIds g) ->
  NoDup (Game.memoryIds (fold_left Game.collectMemory items g))
  /\ State.memories (Game.state (fold_left Game.collectMemory items g))
     = (State.memories (Game.state g) + Z.of_nat (List.length items))%Z
  /\ (forall m, In (id m) (Game.memoryIds g) ->
        State.collectedMemories (Game.state (Game.collectMemory g m))
        = State.collectedMemories (Game.state g)
        /\ State.memories (Game.state (Game.collectMemory g m))
           = (State.memories (Game.state g) + 1)%Z).
Proof.
  intros Hnd. split; [|split].
  - revert g Hnd. induction items as [|m items IH]; intros g Hnd; cbn.
    + exact Hnd.
    + apply IH. apply collectMemory_NoDup. exact Hnd.
  - clear Hnd. revert g. induction items as [|m items IH]; intros g.
    + cbn. lia.
    + cbn [fold_left List.length]. rewrite IH, collectMemory_counter. lia.
  - intros m Hin. split.
    + apply collectMemory_known. exact Hin.
    + apply collectMemory_counter.
Qed.
End MemoryFacts.

(** Three pickups, one id already listed and one picked up twice. *)
Lemma C10_collectedMemories_distinct_witness :
  let items := [mkItemData "memory-2" "memory" None;
                mkItemData "memory-1" "memory" None;
                mkItemData "memory-2" "memory" None] in
  Game.memoryIds (fold_left Game.collectMemory items Fixture.game)
    = ["memory-1"; "memory-2"]%string
  /\ NoDup (Game.memoryIds (fold_left Game.collectMemory items Fixture.game))
  /\ State.memories (Game.state (fold_left Game.collectMemory items Fixture.game)) = 4%Z.
Proof.
  intros items.
  assert (Hnd : NoDup (Game.memoryIds Fixture.game)).
  { cbn. constructor; [intros [] | constructor]. }
  destruct (C10_collectedMemories_distinct Fixture.game items Hnd) as [H1 [H2 _]].
  split; [reflexivity | split; [exact H1 | exact H2]].
Defined.

(** ** Placement *)

Lemma orDefault_cases (c : JsComponent) (d : Q) :
  match c with
  | CUndefined | CNaN => orDefault c d = d
  | CNumber q => (q == 0 -> orDefault c d = d) /\ (~ q == 0 -> orDefault c d = q)
  end.
Proof.
  destruct c as [| |q]; cbn; try reflexivity.
  destruct (Qeq_bool q 0) eqn:E; split; intros Hq; try reflexivity.
  - apply Qeq_bool_iff in E. contradiction.
  - apply Qeq_bool_neq in E. contradiction.
Qed.

(** C9. [setPosition] never throws, whatever it is given.  For [null] or
    [undefined] (and any other falsy value) the mesh goes to (0, 2, 0); for
    an object that is not a [Vector3] each component is read with its own
    default ([x || 0], [y || 2], [z || 0], so a missing, NaN or zero
    component takes the default); a [Vector3] is copied as it is.  In
    every case the hitbox is recomputed from the mesh at its new position
    and nothing else of the player changes. *)
Theorem C9_setPosition_total (this : Player.t) (position : JsValue) :
  exists this',
    Player.setPosition this position = Normal this'
    /\ Player.hitbox this' = THREE.setFromObject (Player.mesh this')
    /\ (position = JsNull \/ position = JsUndefined \/ truthy position = false ->
        THREE.position (Player.mesh this') = THREE.mkVector3 0 2 0)
    /\ (forall px py pz, position = JsObject px py pz ->
        THREE.position (Player.mesh this')
        = THREE.mkVector3 (orDefault px 0) (orDefault py 2) (orDefault pz 0))
    /\ (forall v, position = JsVector3 v -> THREE.position (Player.mesh this') = v)
    /\ THREE.localBox (Player.mesh this') = THREE.localBox (Player.mesh this)
    /\ Player.velocity this' = Player.velocity this
    /\ Player.isGrounded this' = Player.isGrounded this.
Proof.
  unfold Player.setPosition, Player.positionToCopy.
  destruct position as [| |b|q| |s|v|px py pz]; cbn -[Qeq_bool String.eqb];
    try (destruct b);
    try (destruct (Qeq_bool q 0));
    try (destruct (String.eqb s EmptyString));
    cbn;
    (eexists; split; [reflexivity|]; cbn;
     repeat split; try reflexivity;
     try (intros; discriminate);
     try (intros [E|[E|E]]; (discriminate E || reflexivity));
     try (intros ? ? ? E; inversion E; subst; reflexivity);
     try (intros ? E; inversion E; subst; reflexivity)).
Qed.

(** A plain object with a zero [y] and no [z]: the player lands at (7, 2, 0). *)
Lemma C9_setPosition_total_witness :
  exists this',
    Player.setPosition (Fixture.playerAt 3 40 5)
       (JsObject (CNumber 7) (CNumber 0) CUndefined) = Normal this'
    /\ THREE.position (Player.mesh this') = THREE.mkVector3 7 2 0
    /\ Player.hitbox this'
       = THREE.mkBox3 (THREE.add (THREE.mkVector3 7 2 0) (THREE.min Fixture.playerBox))
                      (THREE.add (THREE.mkVector3 7 2 0) (THREE.max Fixture.playerBox)).
Proof.
  destruct (C9_setPosition_total (Fixture.playerAt 3 40 5)
              (JsObject (CNumber 7) (CNumber 0) CUndefined))
    as [this' [Hrun [Hbox [_ [Hobj [_ [Hlocal _]]]]]]].
  exists this'. split; [exact Hrun|].
  pose proof (Hobj _ _ _ eq_refl) as Hpos. cbn in Hpos.
  split; [exact Hpos|].
  rewrite Hbox. unfold THREE.setFromObject. rewrite Hpos, Hlocal. reflexivity.
Defined.

(** ** Ground detection *)

Lemma insertHit_In (i j : THREE.Intersection) (l : list THREE.Intersection) :
  In j (Player.insertHit i l) <-> j = i \/ In j l.
Proof.
  induction l as [|k l IH]; cbn.
  - intuition.
  - destruct (Qltb (THREE.distance k) (THREE.distance i)
              || Qeq_bool (THREE.distance k) (THREE.distance i))%bool; cbn.
    + rewrite IH. intuition.
    + intuition.
Qed.

Lemma insertHit_sorted (i : THREE.Intersection) (l : list THREE.Intersection) :
  StronglySorted Player.nearerOrEqual l -> StronglySorted Player.nearerOrEqual (Player.insertHit i l).
Proof.
  induction 1 as [|k l Hs IH Hk]; cbn.
  - constructor; constructor.
  - destruct (Qltb (THREE.distance k) (THREE.distance i)
              || Qeq_bool (THREE.distance k) (THREE.distance i))%bool eqn:E.
    + constructor; [exact IH|].
      apply Forall_forall. intros j Hj. apply insertHit_In in Hj.
      destruct Hj as [->|Hj].
      * unfold Player.nearerOrEqual. apply orb_true_iff in E. destruct E as [E|E].
        -- apply Qltb_lt in E. apply Qlt_le_weak. exact E.
        -- apply Qeq_bool_iff in E. rewrite E. apply Qle_refl.
      * rewrite Forall_forall in Hk. apply Hk. exact Hj.
    + apply orb_false_iff in E. destruct E as [E _]. apply Qltb_ge in E.
      constructor; [constructor; assumption|].
      constructor; [exact E|].
      apply Forall_forall. intros j Hj. rewrite Forall_forall in Hk.
      unfold Player.nearerOrEqual in *. apply Qle_trans with (THREE.distance k); auto.
Qed.

Lemma sortHits_from (l acc : list THREE.Intersection) :
  StronglySorted Player.nearerOrEqual acc ->
  StronglySorted Player.nearerOrEqual (fold_left (fun a i => Player.insertHit i a) l acc)
  /\ (forall j, In j (fold_left (fun a i => Player.insertHit i a) l acc)
                <-> In j l \/ In j acc).
Proof.
  revert acc. induction l as [|i l IH]; intros acc Hs; cbn.
  - split; [exact Hs | intuition].
  - destruct (IH (Player.insertHit i acc) (insertHit_sorted i acc Hs)) as [H1 H2].
    split; [exact H1|]. intros j. rewrite H2, insertHit_In. intuition.
Qed.

Lemma sortHits_sorted (l : list THREE.Intersection) :
  StronglySorted Player.nearerOrEqual (Player.sortHits l).
Proof. apply sortHits_from. constructor. Qed.

Lemma sortHits_In (l : list THREE.Intersection) (j : THREE.Intersection) :
  In j (Player.sortHits l) <-> In j l.
Proof.
  unfold Player.sortHits.
  destruct (sortHits_from l [] (SSorted_nil _)) as [_ Hin].
  rewrite Hin. cbn. intuition.
Qed.

(** The first hit that [intersectObjects] returns is a nearest one. *)
Lemma sortHits_first_nearest (l rest : list THREE.Intersection)
    (first : THREE.Intersection) :
  Player.sortHits l = first :: rest ->
  In first l /\ forall j, In j l -> THREE.distance first <= THREE.distance j.
Proof.
  intros E. split.
  - apply sortHits_In. rewrite E. left. reflexivity.
  - intros j Hj. apply sortHits_In in Hj. rewrite E in Hj.
    pose proof (sortHits_sorted l) as Hs. rewrite E in Hs.
    inversion Hs as [|? ? _ Hall]; subst.
    destruct Hj as [<-|Hj]; [apply Qle_refl|].
    rewrite Forall_forall in Hall. apply Hall. exact Hj.
Qed.

Section GroundFacts.
Variable raycast : THREE.Raycaster -> THREE.Object3D -> list THREE.Intersection.

(** The player is grounded after [checkGrounded] exactly when the ray has
    a hit with a ground body within the probe distance. *)
Lemma checkGrounded_iff (this : Player.t) (levelManager : option LevelManager) :
  Player.isGrounded (Player.checkGrounded raycast this levelManager) = true
  <-> exists hit, In hit (Player.groundHits raycast this levelManager)
                  /\ THREE.distance hit <= 2.
Proof.
  unfold Player.checkGrounded, Player.groundHits.
  destruct levelManager as [lm|]; [destruct (groundObjects lm) as [objs|]|];
    cbv zeta; cbn [List.length Nat.eqb Player.isGrounded Player.set_isGrounded];
    try (split; [discriminate | intros [hit [[] _]]]).
  destruct objs as [|o objs].
  - cbn. split; [discriminate | intros [hit [[] _]]].
  - cbn [List.length Nat.eqb]. unfold Player.intersectObjects.
    change (Player.groundRay (Player.set_isGrounded this false))
      with (Player.groundRay this).
    set (hits := flat_map (raycast (Player.groundRay this)) (o :: objs)).
    destruct (Player.sortHits hits) as [|first rest] eqn:E.
    + cbn [Player.isGrounded Player.set_isGrounded].
      split; [discriminate|]. intros [hit [Hin _]].
      apply sortHits_In in Hin. rewrite E in Hin. destruct Hin.
    + destruct (sortHits_first_nearest hits rest first E) as [Hin Hmin].
      destruct (Qleb (THREE.distance first) 2) eqn:L;
        cbn [Player.isGrounded Player.set_isGrounded].
      * split; [intros _ | reflexivity]. exists first. split; [exact Hin|].
        apply Qleb_le. exact L.
      * split; [discriminate|]. intros [hit [Hhit Hle]].
        apply Qleb_gt in L. exfalso.
        apply (Qlt_not_le _ _ L). apply Qle_trans with (THREE.distance hit); auto.
Qed.

(** C6. After [checkGrounded]: a hit of the downward ray with a ground
    body at exactly the probe distance 2 makes the player grounded; when
    every hit (so also the nearest) is strictly beyond 2 the player is not
    grounded; and with no level, no ground list or an empty one the player
    is not grounded, whatever its state. *)
Theorem C6_checkGrounded_boundary (this : Player.t) (levelManager : option LevelManager) :
  (forall hit, In hit (Player.groundHits raycast this levelManager) ->
               THREE.distance hit == 2 ->
               Player.isGrounded (Player.checkGrounded raycast this levelManager) = true)
  /\ ((forall hit, In hit (Player.groundHits raycast this levelManager) ->
                   2 < THREE.distance hit) ->
      Player.isGrounded (Player.checkGrounded raycast this levelManager) = false)
  /\ ((levelManager = None
       \/ exists lm, levelManager = Some lm
                     /\ (groundObjects lm = None \/ groundObjects lm = Some [])) ->
      Player.isGrounded (Player.checkGrounded raycast this levelManager) = false).
Proof.
  split; [|split].
  - intros hit Hin Hd. apply checkGrounded_iff. exists hit. split; [exact Hin|].
    rewrite Hd. apply Qle_refl.
  - intros Hfar.
    destruct (Player.isGrounded (Player.checkGrounded raycast this levelManager)) eqn:G;
      [|reflexivity].
    apply checkGrounded_iff in G. destruct G as [hit [Hin Hle]].
    exfalso. apply (Qlt_not_le _ _ (Hfar hit Hin) Hle).
  - intros Hnone.
    destruct (Player.isGrounded (Player.checkGrounded raycast this levelManager)) eqn:G;
      [|reflexivity].
    apply checkGrounded_iff in G. destruct G as [hit [Hin _]].
    unfold Player.groundHits in Hin.
    destruct Hnone as [->|[lm [-> [E|E]]]]; try rewrite E in Hin; destruct Hin.
Qed.
End GroundFacts.

(** Over a slab whose top is at y = 1: grounded from y = 3, not from
    y = 3.5, and not without ground bodies. *)
Lemma C6_checkGrounded_boundary_witness :
  let slab := Fixture.solid (-(5)) 0 (-(5)) 5 1 5 in
  let level := Some (mkLevelManager (Some [slab]) None) in
  Player.isGrounded
    (Player.checkGrounded Fixture.raycastTop (Fixture.playerAt 0 3 0) level) = true
  /\ Player.isGrounded
       (Player.checkGrounded Fixture.raycastTop (Fixture.playerAt 0 (7 # 2) 0) level) = false
  /\ Player.isGrounded
       (Player.checkGrounded Fixture.raycastTop (Fixture.playerAt 0 3 0)
          (Some (mkLevelManager (Some []) None))) = false.
Proof.
  intros slab level. split; [|split].
  - apply (proj1 (C6_checkGrounded_boundary Fixture.raycastTop
                    (Fixture.playerAt 0 3 0) level)
             (THREE.mkIntersection 2)).
    + cbn. left. reflexivity.
    + reflexivity.
  - apply (proj1 (proj2 (C6_checkGrounded_boundary Fixture.raycastTop
                           (Fixture.playerAt 0 (7 # 2) 0) level))).
    intros hit Hin. cbn in Hin. destruct Hin as [<-|[]]. reflexivity.
  - apply (proj2 (proj2 (C6_checkGrounded_boundary Fixture.raycastTop
                           (Fixture.playerAt 0 3 0)
                           (Some (mkLevelManager (Some []) None))))).
    right. eexists. split; [reflexivity|]. right. reflexivity.
Defined.

(** ** Pausing *)

Section PauseFacts.
Context {Level : Type} `{Collaborators Level}.

Lemma sameWorld_refl (g : @Game.t Level) : Game.sameWorld g g.
Proof. repeat split. Qed.

Lemma sameWorld_trans (a b c : @Game.t Level) :
  Game.sameWorld a b -> Game.sameWorld b c -> Game.sameWorld a c.
Proof.
  unfold Game.sameWorld.
  intros [A1 [A2 [A3 [A4 [A5 [A6 [A7 A8]]]]]]] [B1 [B2 [B3 [B4 [B5 [B6 [B7 B8]]]]]]].
  repeat split; congruence.
Qed.

Lemma sameWorld_input (g : @Game.t Level) (intents : InputState) :
  Game.sameWorld g (Game.set_inputState g intents).
Proof. repeat split. Qed.

Lemma togglePause_flips (g : @Game.t Level) :
  Game.isUserPaused (Game.togglePause g) = negb (Game.isUserPaused g)
  /\ Game.sameWorld g (Game.togglePause g).
Proof.
  unfold Game.togglePause. cbn. destruct (Game.isUserPaused g); cbn; repeat split.
Qed.

(** A frame that starts running with the pause intent set ends
    user-paused, with the world as it was. *)
Lemma update_pausing (g : @Game.t Level) (elapsed : Q) :
  Game.isRunning g = true ->
  Game.isUserPaused g = false ->
  (Game.isPaused g && Game.isSome (Game.interactingNPC g))%bool = false ->
  pause (Game.inputState g) = true ->
  exists g', Game.update g elapsed = Normal g'
             /\ Game.isUserPaused g' = true
             /\ Game.sameWorld g g'.
Proof.
  intros Hrun Hup Hdlg Hpause. destruct g; cbn in *; subst.
  unfold Game.update, Game.frameDelta, Game.togglePause.
  cbn -[Clock_getDelta]. destruct (Clock_getDelta clock elapsed) as [c d].
  destruct isPaused, interactingNPC; try discriminate Hdlg;
    cbn; rewrite Hpause; cbn;
    (eexists; split; [reflexivity|]); cbn; repeat split.
Qed.

(** A frame that starts user-paused without the pause intent stays
    user-paused, with the world as it was; its [deltaTime] is zero. *)
Lemma update_paused (g : @Game.t Level) (elapsed : Q) :
  Game.isRunning g = true ->
  Game.isUserPaused g = true ->
  (Game.isPaused g && Game.isSome (Game.interactingNPC g))%bool = false ->
  pause (Game.inputState g) = false ->
  exists g', Game.update g elapsed = Normal g'
             /\ Game.isUserPaused g' = true
             /\ Game.sameWorld g g'.
Proof.
  intros Hrun Hup Hdlg Hpause. destruct g; cbn in *; subst.
  unfold Game.update, Game.frameDelta.
  destruct isPaused, interactingNPC; try discriminate Hdlg;
    cbn; rewrite Hpause; cbn;
    (eexists; split; [reflexivity|]); cbn; repeat split.
Qed.

Lemma frames_paused (inputs : list (InputState * Q)) (g : @Game.t Level) :
  Game.isRunning g = true ->
  Game.isUserPaused g = true ->
  (Game.isPaused g && Game.isSome (Game.interactingNPC g))%bool = false ->
  Forall (fun f => pause (fst f) = false) inputs ->
  exists g', Game.frames g inputs = Normal g'
             /\ Game.isUserPaused g' = true
             /\ Game.sameWorld g g'.
Proof.
  revert g. induction inputs as [|[intents elapsed] rest IH];
    intros g Hrun Hup Hdlg Hall.
  - exists g. cbn. repeat split. exact Hup.
  - inversion Hall as [|? ? Hhead Hrest]; subst. cbn in Hhead.
    destruct (update_paused (Game.set_inputState g intents) elapsed)
      as [g1 [E1 [U1 W1]]]; try assumption.
    pose proof W1 as [_ [_ [_ [R1 [P1 [N1 _]]]]]]. cbn in R1, P1, N1.
    destruct (IH g1) as [g2 [E2 [U2 W2]]]; try assumption.
    + congruence.
    + rewrite P1, N1. exact Hdlg.
    + exists g2. cbn [Game.frames]. rewrite E1. cbn [Game.andThen].
      split; [exact E2|]. split; [exact U2|].
      apply sameWorld_trans with g1; [|exact W2].
      apply sameWorld_trans with (Game.set_inputState g intents);
        [apply sameWorld_input | exact W1].
Qed.

(** C8. [togglePause] applied twice gives back the [isUserPaused] it
    started from.  From a running game outside a dialogue, a frame with the
    pause intent followed by any number of frames without it ends
    user-paused with the session state (so [gameTimer]), the player and
    the level exactly as they were; in that state the frame's [deltaTime]
    is zero, and a further frame with the pause intent toggles back to the
    original [isUserPaused] and runs the pipeline with [deltaTime = 0]. *)
Theorem C8_pause_toggle (g : @Game.t Level) (first : InputState) (elapsed0 : Q)
    (pausedFrames : list (InputState * Q)) :
  Game.isRunning g = true ->
  Game.isUserPaused g = false ->
  (Game.isPaused g && Game.isSome (Game.interactingNPC g))%bool = false ->
  pause first = true ->
  Forall (fun f => pause (fst f) = false) pausedFrames ->
  Game.isUserPaused (Game.togglePause (Game.togglePause g)) = Game.isUserPaused g
  /\ exists gp,
       Game.frames g ((first, elapsed0) :: pausedFrames) = Normal gp
       /\ Game.isUserPaused gp = true
       /\ Game.sameWorld g gp
       /\ State.gameTimer (Game.state gp) = State.gameTimer (Game.state g)
       /\ (forall elapsed, snd (Game.frameDelta gp elapsed) = 0)
       /\ (forall resume elapsed, pause resume = true ->
             Game.isUserPaused (Game.togglePause gp) = Game.isUserPaused g
             /\ Game.update (Game.set_inputState gp resume) elapsed
                = Game.runningFrame
                    (Game.set_inputState (Game.togglePause gp) clearInputState)
                    0 resume).
Proof.
  intros Hrun Hup Hdlg Hfirst Hall. split.
  - destruct (togglePause_flips g) as [F1 _].
    destruct (togglePause_flips (Game.togglePause g)) as [F2 _].
    rewrite F2, F1. apply negb_involutive.
  - destruct (update_pausing (Game.set_inputState g first) elapsed0)
      as [g1 [E1 [U1 W1]]]; try assumption.
    pose proof W1 as [_ [_ [_ [R1 [P1 [N1 _]]]]]]. cbn in R1, P1, N1.
    destruct (frames_paused pausedFrames g1) as [gp [E2 [U2 W2]]]; try assumption.
    + congruence.
    + rewrite P1, N1. exact Hdlg.
    + assert (W : Game.sameWorld g gp).
      { apply sameWorld_trans with g1; [|exact W2].
        apply sameWorld_trans with (Game.set_inputState g first);
          [apply sameWorld_input | exact W1]. }
      exists gp. cbn [Game.frames]. rewrite E1. cbn [Game.andThen].
      split; [exact E2|]. split; [exact U2|]. split; [exact W|].
      split; [destruct W as [Ws _]; rewrite Ws; reflexivity|].
      split.
      * intros elapsed. unfold Game.frameDelta. rewrite U2. reflexivity.
      * intros resume elapsed Hresume. split.
        -- destruct (togglePause_flips gp) as [F _]. rewrite F, U2, Hup. reflexivity.
        -- destruct W as [_ [_ [_ [Wr [Wp [Wn _]]]]]].
           rewrite <- Wp, <- Wn in Hdlg. rewrite Hrun in Wr.
           clear - Wr U2 Hdlg Hresume.
           destruct gp; cbn in Wr, U2, Hdlg. subst isRunning isUserPaused.
           unfold Game.update, Game.frameDelta.
           destruct isPaused, interactingNPC; try discriminate Hdlg;
             cbn; rewrite Hresume; cbn; reflexivity.
Qed.
End PauseFacts.

(** Pause, two paused frames (one with a key held for five seconds), then
    the toggle back: the timer still reads 75. *)
Lemma C8_pause_toggle_witness :
  let pauseKey := mkInputState false false false false false false false false true in
  let holdForward := mkInputState true false false false false false false false false in
  exists gp,
    Game.frames Fixture.game
      [(pauseKey, 1 # 60); (clearInputState, 1 # 60); (holdForward, 5)] = Normal gp
    /\ Game.isUserPaused gp = true
    /\ State.gameTimer (Game.state gp) = 75
    /\ Game.isUserPaused (Game.togglePause gp) = false.
Proof.
  intros pauseKey holdForward.
  destruct (C8_pause_toggle Fixture.game pauseKey (1 # 60)
              [(clearInputState, 1 # 60); (holdForward, 5)])
    as [_ [gp [E [U [_ [T [_ R]]]]]]].
  - reflexivity.
  - reflexivity.
  - reflexivity.
  - reflexivity.
  - repeat constructor.
  - exists gp. split; [exact E|]. split; [exact U|]. split; [exact T|].
    exact (proj1 (R pauseKey 0 eq_refl)).
Defined.

(** ** Collision resolution *)

Lemma selectPushAxis_spec (overlap : THREE.Vector3) :
  exists minOverlap pushAxis,
    Player.selectPushAxis overlap = Some (minOverlap, pushAxis)
    /\ minOverlap = Player.component overlap pushAxis
    /\ (forall a, minOverlap <= Player.component overlap a)
    /\ (forall a, (Player.axisOrder a < Player.axisOrder pushAxis)%nat ->
                  minOverlap < Player.component overlap a).
Proof.
  destruct overlap as [ox oy oz].
  unfold Player.selectPushAxis, Player.consider. cbn [THREE.x THREE.y THREE.z].
  destruct (Qltb oy ox) eqn:Eyx.
  - destruct (Qltb oz oy) eqn:Ezy.
    + apply Qltb_lt in Eyx, Ezy.
      exists oz, AxisZ. split; [reflexivity|]. split; [reflexivity|]. split.
      * intros [| |]; cbn; lra.
      * intros [| |]; cbn; intros Ho; try lia; lra.
    + apply Qltb_lt in Eyx. apply Qltb_ge in Ezy.
      exists oy, AxisY. split; [reflexivity|]. split; [reflexivity|]. split.
      * intros [| |]; cbn; lra.
      * intros [| |]; cbn; intros Ho; try lia; lra.
  - destruct (Qltb oz ox) eqn:Ezx.
    + apply Qltb_ge in Eyx. apply Qltb_lt in Ezx.
      exists oz, AxisZ. split; [reflexivity|]. split; [reflexivity|]. split.
      * intros [| |]; cbn; lra.
      * intros [| |]; cbn; intros Ho; try lia; lra.
    + apply Qltb_ge in Eyx, Ezx.
      exists ox, AxisX. split; [reflexivity|]. split; [reflexivity|]. split.
      * intros [| |]; cbn; lra.
      * intros [| |]; cbn; intros Ho; lia.
Qed.

Lemma resolveObject_invalid (this : Player.t) (object : THREE.Object3D) :
  THREE.geometry object = false \/ THREE.matrixWorld object = false ->
  Player.resolveObject this (Some object) = this.
Proof.
  intros [E|E]; unfold Player.resolveObject; rewrite E; cbn;
    [|destruct (THREE.geometry object)]; reflexivity.
Qed.


(** What one pass of the loop body does to an overlapping pair: the mesh
    is moved by the push vector, the velocity loses its component along
    the push normal when that component is negative, and a push upwards
    while not jumping grounds the player. *)
Lemma resolveObject_pushed (this : Player.t) (object : THREE.Object3D)
    (minOverlap : Q) (pushAxis : Axis) :
  THREE.geometry object = true -> THREE.matrixWorld object = true ->
  let hitbox := THREE.setFromObject (Player.mesh this) in
  let overlap := Player.overlapOf hitbox (THREE.worldBox object) in
  let mtv := Player.mtvOf pushAxis (THREE.getCenter hitbox)
                          (THREE.getCenter (THREE.worldBox object)) in
  THREE.intersectsBox hitbox (THREE.worldBox object) = true ->
  0 < THREE.x overlap -> 0 < THREE.y overlap -> 0 < THREE.z overlap ->
  Player.selectPushAxis overlap = Some (minOverlap, pushAxis) ->
  Player.mesh (Player.resolveObject this (Some object))
  = THREE.withPosition (Player.mesh this)
      (THREE.addScaledVector (THREE.position (Player.mesh this)) mtv
                             (minOverlap * (101 # 100)))
  /\ Player.velocity (Player.resolveObject this (Some object))
     = (if Qltb (THREE.dot (Player.velocity this) mtv) 0
        then THREE.sub (Player.velocity this)
                       (THREE.multiplyScalar mtv (THREE.dot (Player.velocity this) mtv))
        else Player.velocity this).
Proof.
  intros Hg Hm hitbox overlap mtv Hi Hx Hy Hz Hsel.
  unfold Player.resolveObject. rewrite Hg, Hm. cbn [negb orb]. cbv zeta.
  cbn [Player.hitbox Player.set_hitbox Player.mesh].
  fold hitbox. fold overlap. rewrite Hi.
  apply Qleb_gt in Hx, Hy, Hz. rewrite Hx, Hy, Hz. cbn [orb].
  rewrite Hsel. fold mtv.
  change (Player.velocity (Player.set_mesh (Player.set_hitbox this hitbox)
            (THREE.withPosition (Player.mesh this)
               (THREE.addScaledVector (THREE.position (Player.mesh this)) mtv
                  (minOverlap * (101 # 100))))))
    with (Player.velocity this).
  destruct (Qltb (THREE.dot (Player.velocity this) mtv) 0);
    destruct pushAxis;
    try (destruct (Qltb 0 (THREE.y mtv) && negb _)%bool);
    split; reflexivity.
Qed.

(** *** One axis *)

Lemma Math_sign_cases (d : Q) :
  (d < 0 /\ Math_sign d = -(1)) \/ (d == 0 /\ Math_sign d = 0)
  \/ (0 < d /\ Math_sign d = 1).
Proof.
  unfold Math_sign. destruct (d ?= 0) eqn:E.
  - right. left. split; [apply Qeq_alt; exact E | reflexivity].
  - left. split; [apply Qlt_alt; exact E | reflexivity].
  - right. right. split; [apply Qgt_alt; exact E | reflexivity].
Qed.


(** *** Boxes *)


Lemma isEmpty_false (b : THREE.Box3) :
  THREE.isEmpty b = false ->
  THREE.x (THREE.min b) <= THREE.x (THREE.max b)
  /\ THREE.y (THREE.min b) <= THREE.y (THREE.max b)
  /\ THREE.z (THREE.min b) <= THREE.z (THREE.max b).
Proof.
  unfold THREE.isEmpty. intros E.
  apply orb_false_iff in E. destruct E as [E Ez].
  apply orb_false_iff in E. destruct E as [Ex Ey].
  apply Qltb_ge in Ex, Ey, Ez. auto.
Qed.






(** *** One body *)














(** *** The mechanism of one resolution *)

Lemma mtvOf_components (pushAxis : Axis) (pc oc : THREE.Vector3) (a : Axis) :
  Player.component (Player.mtvOf pushAxis pc oc) a
  = if Nat.eqb (Player.axisOrder a) (Player.axisOrder pushAxis)
    then Math_sign (Player.component pc pushAxis - Player.component oc pushAxis)
    else 0.
Proof. destruct pushAxis, a; reflexivity. Qed.

Lemma Math_sign_square (d : Q) : ~ d == 0 -> Math_sign d * Math_sign d == 1.
Proof.
  intros Hd. destruct (Math_sign_cases d) as [[_ ->]|[[E _]|[_ ->]]];
    [reflexivity | contradiction | reflexivity].
Qed.

Ltac vec_simpl :=
  unfold THREE.dot, THREE.sub, THREE.add, THREE.multiplyScalar,
         THREE.addScaledVector, THREE.withPosition, Player.mtvOf, Player.component;
  cbn [THREE.x THREE.y THREE.z THREE.position].

Tactic Notation "vec_simpl" "in" hyp(H) :=
  unfold THREE.dot, THREE.sub, THREE.add, THREE.multiplyScalar,
         THREE.addScaledVector, THREE.withPosition, Player.mtvOf, Player.component in H;
  cbn [THREE.x THREE.y THREE.z THREE.position] in H.

(** What the loop body does for a valid body whose box intersects the
    player's with a positive penetration on all three axes: it picks the
    first axis (in the order x, y, z) of minimum penetration, moves the
    mesh on that axis only, by [Math.sign(playerCenter - objectCenter)]
    times [overlap * 1.01], and removes the velocity along the push normal
    exactly when that velocity is negative. *)
Lemma resolveObject_mechanism (this : Player.t) (object : THREE.Object3D) :
  let hitbox := THREE.setFromObject (Player.mesh this) in
  let objectHitbox := THREE.worldBox object in
  let overlap := Player.overlapOf hitbox objectHitbox in
  let after := Player.resolveObject this (Some object) in
  THREE.geometry object = true -> THREE.matrixWorld object = true ->
  THREE.intersectsBox hitbox objectHitbox = true ->
  0 < THREE.x overlap -> 0 < THREE.y overlap -> 0 < THREE.z overlap ->
  exists minOverlap pushAxis,
    Player.selectPushAxis overlap = Some (minOverlap, pushAxis)
    /\ minOverlap = Player.component overlap pushAxis
    /\ (forall a, minOverlap <= Player.component overlap a)
    /\ (forall a, (Player.axisOrder a < Player.axisOrder pushAxis)%nat ->
                  minOverlap < Player.component overlap a)
    /\ let side := Math_sign (Player.component (THREE.getCenter hitbox) pushAxis
                              - Player.component (THREE.getCenter objectHitbox) pushAxis) in
       let mtv := Player.mtvOf pushAxis (THREE.getCenter hitbox)
                               (THREE.getCenter objectHitbox) in
       let towards := THREE.dot (Player.velocity this) mtv in
       Player.component (THREE.position (Player.mesh after)) pushAxis
       == Player.component (THREE.position (Player.mesh this)) pushAxis
          + side * (minOverlap * (101 # 100))
       /\ (forall a, a <> pushAxis ->
             Player.component (THREE.position (Player.mesh after)) a
             == Player.component (THREE.position (Player.mesh this)) a)
       /\ towards == Player.component (Player.velocity this) pushAxis * side
       /\ (towards < 0 ->
             Player.component (Player.velocity after) pushAxis == 0
             /\ forall a, a <> pushAxis ->
                  Player.component (Player.velocity after) a
                  == Player.component (Player.velocity this) a)
       /\ (0 <= towards -> Player.velocity after = Player.velocity this).
Proof.
  intros hitbox objectHitbox overlap after Hg Hm Hi Hx Hy Hz.
  destruct (selectPushAxis_spec overlap) as [minOverlap [pushAxis [Hsel [Hmin [Hle Hfirst]]]]].
  exists minOverlap, pushAxis.
  split; [exact Hsel|]. split; [exact Hmin|]. split; [exact Hle|]. split; [exact Hfirst|].
  destruct (resolveObject_pushed this object minOverlap pushAxis Hg Hm Hi Hx Hy Hz Hsel)
    as [Hmesh Hvel].
  fold hitbox in Hmesh, Hvel. fold objectHitbox in Hmesh, Hvel. fold after in Hmesh, Hvel.
  cbv zeta. rewrite Hmesh, Hvel.
  clear Hmesh Hvel Hsel Hle Hfirst Hmin Hx Hy Hz Hi.
  set (pc := THREE.getCenter hitbox). set (oc := THREE.getCenter objectHitbox).
  set (push := minOverlap * (101 # 100)).
  clearbody pc oc push.
  destruct (Player.velocity this) as [vx vy vz].
  destruct (THREE.position (Player.mesh this)) as [px py pz].
  destruct pc as [cx cy cz], oc as [dx dy dz].
  destruct pushAxis; vec_simpl.
  - set (side := Math_sign (cx - dx)).
    assert (Hsq : ~ cx - dx == 0 -> side * side == 1) by apply Math_sign_square.
    assert (Hzero : cx - dx == 0 -> side = 0).
    { intros E. destruct (Math_sign_cases (cx - dx)) as [[L _]|[[_ S]|[G _]]];
        [lra | exact S | lra]. }
    clearbody side.
    split; [reflexivity|]. split; [intros [| |] Ha; try congruence; ring|].
    split; [ring|]. split.
    + intros Hneg. apply Qltb_lt in Hneg. rewrite Hneg. apply Qltb_lt in Hneg.
      assert (Hside : side * side == 1).
      { apply Hsq. intros E. rewrite (Hzero E) in Hneg. lra. }
      split; [|intros [| |] Ha; try congruence; vec_simpl; ring].
      vec_simpl.
      setoid_replace (vx - side * (vx * side + vy * 0 + vz * 0))
        with (vx * (1 - side * side)) by ring.
      rewrite Hside. ring.
    + intros Hge. apply Qltb_ge in Hge. rewrite Hge. reflexivity.
  - set (side := Math_sign (cy - dy)).
    assert (Hsq : ~ cy - dy == 0 -> side * side == 1) by apply Math_sign_square.
    assert (Hzero : cy - dy == 0 -> side = 0).
    { intros E. destruct (Math_sign_cases (cy - dy)) as [[L _]|[[_ S]|[G _]]];
        [lra | exact S | lra]. }
    clearbody side.
    split; [reflexivity|]. split; [intros [| |] Ha; try congruence; ring|].
    split; [ring|]. split.
    + intros Hneg. apply Qltb_lt in Hneg. rewrite Hneg. apply Qltb_lt in Hneg.
      assert (Hside : side * side == 1).
      { apply Hsq. intros E. rewrite (Hzero E) in Hneg. lra. }
      split; [|intros [| |] Ha; try congruence; vec_simpl; ring].
      vec_simpl.
      setoid_replace (vy - side * (vx * 0 + vy * side + vz * 0))
        with (vy * (1 - side * side)) by ring.
      rewrite Hside. ring.
    + intros Hge. apply Qltb_ge in Hge. rewrite Hge. reflexivity.
  - set (side := Math_sign (cz - dz)).
    assert (Hsq : ~ cz - dz == 0 -> side * side == 1) by apply Math_sign_square.
    assert (Hzero : cz - dz == 0 -> side = 0).
    { intros E. destruct (Math_sign_cases (cz - dz)) as [[L _]|[[_ S]|[G _]]];
        [lra | exact S | lra]. }
    clearbody side.
    split; [reflexivity|]. split; [intros [| |] Ha; try congruence; ring|].
    split; [ring|]. split.
    + intros Hneg. apply Qltb_lt in Hneg. rewrite Hneg. apply Qltb_lt in Hneg.
      assert (Hside : side * side == 1).
      { apply Hsq. intros E. rewrite (Hzero E) in Hneg. lra. }
      split; [|intros [| |] Ha; try congruence; vec_simpl; ring].
      vec_simpl.
      setoid_replace (vz - side * (vx * 0 + vy * 0 + vz * side))
        with (vz * (1 - side * side)) by ring.
      rewrite Hside. ring.
    + intros Hge. apply Qltb_ge in Hge. rewrite Hge. reflexivity.
Qed.

(** C4, at a pair whose centres coincide on the axis of least
    penetration.  The player's box, x in [-0.5, 0.5], has a pillar with x
    in [-0.3, 0.3] through its middle: the penetrations are 0.8, 5.25 and 5.5,
    the push axis is x, and [Math.sign(0)] is 0.  The loop body leaves the
    mesh where it was (the claim has it moved by 0.8 * 1.01 = 0.808 along
    x), so the player is still 0.8 deep inside the pillar, also after the
    whole of [handleCollisions]. *)
Theorem C4_coincident_centres_not_pushed :
  let start := Fixture.playerAt 0 0 0 in
  let hitbox := Player.hitbox start in
  let objectHitbox := THREE.worldBox Fixture.pillar in
  let overlap := Player.overlapOf hitbox objectHitbox in
  let after := Player.resolveObject start (Some Fixture.pillar) in
  let final := Player.handleCollisions start (Fixture.levelOf [Fixture.pillar]) in
  THREE.intersectsBox hitbox objectHitbox = true
  /\ (THREE.x overlap == 8 # 10 /\ THREE.y overlap == 21 # 4
      /\ THREE.z overlap == 11 # 2)
  /\ (exists minOverlap, Player.selectPushAxis overlap = Some (minOverlap, AxisX)
                         /\ minOverlap * (101 # 100) == 808 # 1000)
  /\ THREE.x (THREE.getCenter hitbox) - THREE.x (THREE.getCenter objectHitbox) == 0
  /\ THREE.x (THREE.position (Player.mesh after))
     == THREE.x (THREE.position (Player.mesh start))
  /\ ~ Qabs (THREE.x (THREE.position (Player.mesh after))
             - THREE.x (THREE.position (Player.mesh start))) == 808 # 1000
  /\ Player.boxesOverlap (THREE.setFromObject (Player.mesh after)) objectHitbox = true
  /\ Player.boxesOverlap (Player.hitbox final) objectHitbox = true
  /\ THREE.x (Player.overlapOf (Player.hitbox final) objectHitbox) == 8 # 10.
Proof.
  cbv zeta. split; [reflexivity|]. split; [repeat split; reflexivity|].
  split; [eexists; split; [vm_compute; reflexivity | reflexivity]|].
  split; [reflexivity|]. split; [reflexivity|].
  split; [vm_compute; discriminate|].
  split; [reflexivity|]. split; reflexivity.
Qed.

(** ** The dialogue pause is never entered

    Nothing in the loop sets [isPaused]: a game that is not dialogue-paused
    stays so through every frame, whatever the collaborators do. *)

Section NoDialoguePause.
Context {Level : Type} `{Collaborators Level}.

Ltac split_match :=
  match goal with
  | H : context [match ?x with _ => _ end] |- _ => destruct x eqn:?
  | |- context [match ?x with _ => _ end] => destruct x eqn:?
  end.

Ltac finish_flag :=
  repeat match goal with
         | H : Normal _ = Normal _ |- _ => inversion H; clear H; subst
         | H : Throw _ = Normal _ |- _ => discriminate H
         end;
  cbn in *; try congruence; auto.

Lemma applyArtifactEffect_isPaused (g g' : @Game.t Level) (e : string) :
  Game.applyArtifactEffect g e = Normal g' -> Game.isPaused g' = Game.isPaused g.
Proof.
  unfold Game.applyArtifactEffect. intros E.
  repeat split_match; finish_flag.
Qed.

Lemma collectArtifact_isPaused (g g' : @Game.t Level) (item : ItemData) :
  Game.collectArtifact g item = Normal g' -> Game.isPaused g' = Game.isPaused g.
Proof.
  unfold Game.collectArtifact, Game.andThen. cbv zeta. intros E.
  destruct (effect item) as [e|].
  - destruct (Game.applyArtifactEffect _ e) as [g1|] eqn:E1; [|discriminate].
    apply applyArtifactEffect_isPaused in E1. cbn in E1.
    repeat split_match; finish_flag.
  - repeat split_match; finish_flag.
Qed.

Lemma collectMemory_isPaused (g : @Game.t Level) (item : ItemData) :
  Game.isPaused (Game.collectMemory g item) = Game.isPaused g.
Proof.
  unfold Game.collectMemory. cbv zeta. repeat split_match; reflexivity.
Qed.

Lemma processItem_isPaused (g g' : @Game.t Level) (item : ItemData) :
  Game.processItem g item = Normal g' -> Game.isPaused g' = Game.isPaused g.
Proof.
  unfold Game.processItem. intros E.
  destruct (String.eqb (type item) "artifact");
    [apply collectArtifact_isPaused in E; exact E|].
  destruct (String.eqb (type item) "memory");
    [inversion E; apply collectMemory_isPaused|].
  repeat split_match; finish_flag.
Qed.

Lemma processItems_isPaused (items : list ItemData) (g g' : @Game.t Level) :
  Game.processItems g items = Normal g' -> Game.isPaused g' = Game.isPaused g.
Proof.
  revert g. induction items as [|item items IH]; intros g E; cbn in E.
  - inversion E. reflexivity.
  - unfold Game.andThen in E.
    destruct (Game.processItem g item) as [g1|] eqn:E1; [|discriminate].
    apply processItem_isPaused in E1. apply IH in E. congruence.
Qed.

Lemma gameOver_isPaused (g : @Game.t Level) (reason : string) :
  Game.isPaused (Game.gameOver g reason) = Game.isPaused g.
Proof. unfold Game.gameOver. destruct (negb (Game.isRunning g)); reflexivity. Qed.

Lemma respawnPlayer_isPaused (g g' : @Game.t Level) (reason : string)
    (score : option Z) :
  Game.isPaused g = false ->
  Game.respawnPlayer g reason score = Normal g' -> Game.isPaused g' = false.
Proof.
  intros Hp. rewrite respawnPlayer_cases.
  destruct (Game.player g) as [p|];
    [destruct (Game.initialPlayerPosition g) as [pos|]|];
    try discriminate;
    intros E; inversion E; rewrite gameOver_isPaused; exact Hp.
Qed.

Lemma gameWon_isPaused (g g' : @Game.t Level) :
  Game.isPaused g = false ->
  Game.gameWon g = Normal g' -> Game.isPaused g' = false.
Proof.
  intros Hp. unfold Game.gameWon.
  destruct (negb (Game.isRunning g)); [intros E; inversion E; subst; exact Hp|].
  cbv zeta. apply respawnPlayer_isPaused. exact Hp.
Qed.

Lemma updateGameState_isPaused (g g' : @Game.t Level) (deltaTime : Q) :
  Game.isPaused g = false ->
  Game.updateGameState g deltaTime = Normal g' -> Game.isPaused g' = false.
Proof.
  intros Hp. unfold Game.updateGameState.
  destruct (Game.player g) as [p|]; [|discriminate].
  cbv zeta.
  set (g1 := match getHealthState with
             | Some healthOf => _
             | None => _
             end).
  assert (H1 : Game.isPaused g1 = false)
    by (unfold g1; destruct getHealthState; exact Hp).
  set (g2 := if (negb (Game.isUserPaused g1) && negb (Game.isPaused g1))%bool
             then _ else g1).
  assert (H2 : Game.isPaused g2 = false)
    by (unfold g2; destruct (negb (Game.isUserPaused g1) && negb (Game.isPaused g1))%bool;
        exact H1).
  clearbody g2. clear g1 H1.
  destruct (match Player.currentHealth p with Some h => Qleb h 0 | None => false end).
  - destruct (negb (Game.isRunning g2)); [intros E; inversion E; subst; exact H2|].
    apply respawnPlayer_isPaused. exact H2.
  - unfold Game.andThen.
    destruct (Qltb _ _).
    + destruct (Game.respawnPlayer g2 "fall" None) as [g3|] eqn:E3; [|discriminate].
      apply respawnPlayer_isPaused in E3; [|exact H2].
      destruct (Game.player g3) as [p3|]; [|discriminate].
      destruct (Player.isGrounded p3 && Qltb _ 5)%bool;
        [apply gameWon_isPaused; exact E3 | intros E; inversion E; subst; exact E3].
    + destruct (Game.player g2) as [p2|]; [|discriminate].
      destruct (Player.isGrounded p2 && Qltb _ 5)%bool;
        [apply gameWon_isPaused; exact H2 | intros E; inversion E; subst; exact H2].
Qed.

Lemma runningFrame_isPaused (g g' : @Game.t Level) (deltaTime : Q)
    (intents : InputState) :
  Game.isPaused g = false ->
  Game.runningFrame g deltaTime intents = Normal g' -> Game.isPaused g' = false.
Proof.
  intros Hp. unfold Game.runningFrame.
  destruct (Game.player g) as [p|]; [|discriminate].
  destruct (playerUpdate deltaTime intents (Game.levelManager g) p) as [[p1 l1] items].
  destruct (levelManagerUpdate deltaTime p1 l1) as [p2 l2].
  unfold Game.andThen.
  destruct (Game.processItems _ items) as [g1|] eqn:E1; [|discriminate].
  apply processItems_isPaused in E1. cbn in E1.
  destruct (Game.updateGameState g1 deltaTime) as [g2|] eqn:E2; [|discriminate].
  apply updateGameState_isPaused in E2; [|congruence].
  intros E. inversion E; subst; clear E. cbv zeta.
  repeat split_match; cbn; exact E2.
Qed.

(** A frame never turns [isPaused] on. *)
Lemma update_isPaused (g g' : @Game.t Level) (elapsed : Q) :
  Game.isPaused g = false ->
  Game.update g elapsed = Normal g' -> Game.isPaused g' = false.
Proof.
  intros Hp. unfold Game.update.
  destruct (negb (Game.isRunning g)); [intros E; inversion E; subst; exact Hp|].
  destruct (Game.frameDelta g elapsed) as [c d].
  set (g1 := if pause _ then _ else _).
  assert (H1 : Game.isPaused g1 = false).
  { unfold g1. destruct (pause _); [|exact Hp].
    cbn. destruct (togglePause_flips (Game.set_clock g c)) as [_ W].
    destruct W as [_ [_ [_ [_ [W _]]]]]. rewrite W. exact Hp. }
  clearbody g1. rewrite H1. cbn [andb].
  destruct (Game.isUserPaused g1).
  - intros E. inversion E; subst. exact H1.
  - apply runningFrame_isPaused. exact H1.
Qed.

Lemma frames_isPaused (inputs : list (InputState * Q)) (g g' : @Game.t Level) :
  Game.isPaused g = false ->
  Game.frames g inputs = Normal g' -> Game.isPaused g' = false.
Proof.
  revert g. induction inputs as [|[intents elapsed] rest IH]; intros g Hp E; cbn in E.
  - inversion E; subst. exact Hp.
  - unfold Game.andThen in E.
    destruct (Game.update (Game.set_inputState g intents) elapsed) as [g1|] eqn:E1;
      [|discriminate].
    apply update_isPaused in E1; [|exact Hp]. apply (IH g1); assumption.
Qed.
End NoDialoguePause.

(* ================================================================= *)
(** * Further properties of the code *)

(** ** Objects used as maps *)

Section ObjFacts.
Context {K V : Type} (eq_dec : forall a b : K, {a = b} + {a <> b}).

Lemma Obj_get_set_same (o : list (K * V)) (k : K) (v : V) :
  Obj.get eq_dec (Obj.set eq_dec o k v) k = Some v.
Proof.
  induction o as [|[k' v'] o IH]; cbn.
  - destruct (eq_dec k k); congruence.
  - destruct (eq_dec k' k) as [E|E]; cbn.
    + destruct (eq_dec k' k); congruence.
    + destruct (eq_dec k' k); [contradiction | exact IH].
Qed.

Lemma Obj_get_set_other (o : list (K * V)) (k k' : K) (v : V) :
  k <> k' -> Obj.get eq_dec (Obj.set eq_dec o k v) k' = Obj.get eq_dec o k'.
Proof.
  intros Hne. induction o as [|[k0 v0] o IH]; cbn.
  - destruct (eq_dec k k'); [contradiction | reflexivity].
  - destruct (eq_dec k0 k) as [E|E]; cbn.
    + subst k0. destruct (eq_dec k k'); [contradiction | reflexivity].
    + destruct (eq_dec k0 k'); [reflexivity | exact IH].
Qed.

Lemma Obj_get_delete_same (o : list (K * V)) (k : K) :
  Obj.get eq_dec (Obj.delete eq_dec o k) k = None.
Proof.
  induction o as [|[k0 v0] o IH]; cbn; [reflexivity|].
  destruct (eq_dec k0 k) as [E|E]; [exact IH|].
  cbn. destruct (eq_dec k0 k); [contradiction | exact IH].
Qed.

Lemma Obj_get_delete_other (o : list (K * V)) (k k' : K) :
  k <> k' -> Obj.get eq_dec (Obj.delete eq_dec o k) k' = Obj.get eq_dec o k'.
Proof.
  intros Hne. induction o as [|[k0 v0] o IH]; cbn; [reflexivity|].
  destruct (eq_dec k0 k) as [E|E].
  - subst k0. destruct (eq_dec k k'); [contradiction | exact IH].
  - cbn. destruct (eq_dec k0 k'); [reflexivity | exact IH].
Qed.

Lemma Obj_get_In (o : list (K * V)) (k : K) :
  In k (Obj.keys o) <-> Obj.get eq_dec o k <> None.
Proof.
  induction o as [|[k0 v0] o IH]; cbn.
  - split; [intros [] | congruence].
  - destruct (eq_dec k0 k) as [E|E].
    + split; [discriminate | auto].
    + rewrite <- IH. split; [intros [C|C]; [contradiction | exact C] | auto].
Qed.

Lemma Obj_keys_set_present (o : list (K * V)) (k : K) (v : V) :
  In k (Obj.keys o) -> Obj.keys (Obj.set eq_dec o k v) = Obj.keys o.
Proof.
  unfold Obj.keys. induction o as [|[k0 v0] o IH]; cbn; [intros []|].
  intros Hin. destruct (eq_dec k0 k) as [E|E]; cbn; [reflexivity|].
  rewrite IH; [reflexivity|]. destruct Hin; [contradiction | assumption].
Qed.

Lemma Obj_keys_set_absent (o : list (K * V)) (k : K) (v : V) :
  ~ In k (Obj.keys o) -> Obj.keys (Obj.set eq_dec o k v) = Obj.keys o ++ [k].
Proof.
  unfold Obj.keys. induction o as [|[k0 v0] o IH]; cbn; [reflexivity|].
  intros Hout. destruct (eq_dec k0 k) as [E|E]; cbn.
  - exfalso. apply Hout. left. exact E.
  - rewrite IH; [reflexivity|]. intros C. apply Hout. right. exact C.
Qed.

Lemma Obj_keys_delete (o : list (K * V)) (k : K) :
  Obj.keys (Obj.delete eq_dec o k) = remove eq_dec k (Obj.keys o).
Proof.
  unfold Obj.keys. induction o as [|[k0 v0] o IH]; cbn; [reflexivity|].
  destruct (eq_dec k0 k) as [E|E]; destruct (eq_dec k k0) as [E'|E'];
    try congruence; cbn; rewrite IH; reflexivity.
Qed.
End ObjFacts.

(** ** Keys and touches *)

Lemma flag_set_same (i : list (string * bool)) (intent : string) (b : bool) :
  InputManager.flag (Obj.set string_dec i intent b) intent = b.
Proof. unfold InputManager.flag. rewrite Obj_get_set_same. reflexivity. Qed.

Lemma swallows_other {V : Type} (o : list (string * V)) (k : string) :
  k <> "__proto__"%string -> Proto.swallows o k = false.
Proof.
  intros Hk. unfold Proto.swallows.
  destruct (Obj.get string_dec o k); [reflexivity|].
  apply String.eqb_neq. exact Hk.
Qed.

Lemma assign_get_same {V : Type} (o : list (string * V)) (k : string) (v : V) :
  Proto.swallows o k = false ->
  Obj.get string_dec (Proto.assign o k v) k = Some v.
Proof.
  intros Hs. unfold Proto.assign. rewrite Hs. apply Obj_get_set_same.
Qed.

Lemma assign_get_other {V : Type} (o : list (string * V)) (k k' : string) (v : V) :
  k <> k' ->
  Obj.get string_dec (Proto.assign o k v) k' = Obj.get string_dec o k'.
Proof.
  intros Hne. unfold Proto.assign.
  destruct (Proto.swallows o k); [reflexivity|].
  apply Obj_get_set_other. exact Hne.
Qed.

Lemma assign_swallowed {V : Type} (o : list (string * V)) (k : string) (v : V) :
  Proto.swallows o k = true -> Proto.assign o k v = o.
Proof. intros Hs. unfold Proto.assign. rewrite Hs. reflexivity. Qed.

(** After a first assignment that was not swallowed the property is an own
    one, and no later assignment to it is swallowed. *)
Lemma assign_not_swallowed_again {V : Type} (o : list (string * V)) (k : string)
    (v : V) :
  Proto.swallows o k = false -> Proto.swallows (Proto.assign o k v) k = false.
Proof.
  intros Hs. unfold Proto.swallows at 1.
  rewrite (assign_get_same o k v Hs). reflexivity.
Qed.

Lemma flag_assign_same (i : list (string * bool)) (intent : string) (b : bool) :
  Proto.swallows i intent = false ->
  InputManager.flag (Proto.assign i intent b) intent = b.
Proof.
  intros Hs. unfold InputManager.flag. rewrite assign_get_same by exact Hs. reflexivity.
Qed.

Lemma flag_assign_other (i : list (string * bool)) (k intent : string) (b : bool) :
  k <> intent ->
  InputManager.flag (Proto.assign i k b) intent = InputManager.flag i intent.
Proof.
  intros Hne. unfold InputManager.flag. rewrite assign_get_other by exact Hne.
  reflexivity.
Qed.

(** The intents of the key table are the loop's own names. *)
Lemma keyMappings_intents (key intent : string) :
  Obj.get string_dec InputManager.keyMappings key = Some intent ->
  In intent ["forward"; "backward"; "left"; "right"; "jump"; "down"; "interact";
             "action"; "pause"]%string.
Proof.
  unfold InputManager.keyMappings. cbn [Obj.get].
  repeat match goal with
         | |- context [string_dec ?a key] => destruct (string_dec a key)
         end;
    intros E; inversion E; cbn; tauto.
Qed.

(** An inherited value turned into a property key is none of the intents
    and not ['__proto__']: it reads [function ...] or [[object Object]]. *)
Lemma toPropertyKey_junk (key : string) :
  ~ In (Proto.toPropertyKey key)
       ["forward"; "backward"; "left"; "right"; "jump"; "down"; "interact";
        "action"; "pause"; "__proto__"]%string.
Proof.
  assert (Hfu : substring 0 2 (Proto.toPropertyKey key) = "fu"%string
                \/ Proto.toPropertyKey key = "[object Object]"%string).
  { unfold Proto.toPropertyKey. destruct (Proto.functionName key); [left|right];
      reflexivity. }
  intros Hin. destruct Hfu as [Hfu|Hobj].
  - cbn [In] in Hin.
    repeat (destruct Hin as [Hin|Hin]; [rewrite <- Hin in Hfu; discriminate Hfu|]).
    exact Hin.
  - rewrite Hobj in Hin. cbn [In] in Hin.
    repeat (destruct Hin as [Hin|Hin]; [discriminate Hin|]). exact Hin.
Qed.

(** X1. For a key of the key table, an intent reads [true] after the
    key-down and [false] after the key-up, whatever else is held: with two
    keys of one intent down, releasing either clears the intent; no other
    property and no touch is touched.  The table is a plain object, so a
    key named like a property of [Object.prototype] counts as mapped too:
    the event is prevented and a property named by the inherited value is
    written, which is none of the nine intents the loop reads.  Every other
    key changes nothing and is left to the browser. *)
Theorem key_events_set_their_intent (this : InputManager.t) (key : string) :
  let down := InputManager.handleKeyDown this key in
  let up := InputManager.handleKeyUp this key in
  match Proto.read InputManager.keyMappings key with
  | Proto.Own intent =>
      InputManager.flag (InputManager.inputState (fst down)) intent = true
      /\ InputManager.flag (InputManager.inputState (fst up)) intent = false
      /\ snd down = true /\ snd up = true
      /\ (forall other, other <> intent ->
            Obj.get string_dec (InputManager.inputState (fst down)) other
            = Obj.get string_dec (InputManager.inputState this) other
            /\ Obj.get string_dec (InputManager.inputState (fst up)) other
               = Obj.get string_dec (InputManager.inputState this) other)
      /\ InputManager.activeTouches (fst down) = InputManager.activeTouches this
      /\ InputManager.activeTouches (fst up) = InputManager.activeTouches this
      /\ (forall key2,
            Proto.read InputManager.keyMappings key2 = Proto.Own intent ->
            InputManager.flag
              (InputManager.inputState
                 (fst (InputManager.handleKeyUp
                         (fst (InputManager.handleKeyDown (fst down) key2)) key)))
              intent = false)
  | Proto.Inherited =>
      snd down = true /\ snd up = true
      /\ Obj.get string_dec (InputManager.inputState (fst down))
                 (Proto.toPropertyKey key) = Some true
      /\ Obj.get string_dec (InputManager.inputState (fst up))
                 (Proto.toPropertyKey key) = Some false
      /\ InputManager.getInputState (fst down) = InputManager.getInputState this
      /\ InputManager.getInputState (fst up) = InputManager.getInputState this
      /\ InputManager.activeTouches (fst down) = InputManager.activeTouches this
      /\ InputManager.activeTouches (fst up) = InputManager.activeTouches this
  | Proto.Undefined =>
      InputManager.handleKeyDown this key = (this, false)
      /\ InputManager.handleKeyUp this key = (this, false)
  end.
Proof.
  cbv zeta. unfold InputManager.handleKeyDown, InputManager.handleKeyUp,
    InputManager.mappedKey.
  destruct (Proto.read InputManager.keyMappings key) as [intent| |] eqn:E.
  - assert (Hown : Obj.get string_dec InputManager.keyMappings key = Some intent).
    { unfold Proto.read in E.
      destruct (Obj.get string_dec InputManager.keyMappings key);
        [inversion E; reflexivity|].
      destruct (Proto.inherited key); discriminate E. }
    assert (Hs : forall i : list (string * bool), Proto.swallows i intent = false).
    { intros i. apply swallows_other. intros C.
      apply keyMappings_intents in Hown. rewrite C in Hown. cbn in Hown.
      repeat (destruct Hown as [Hown|Hown]; [discriminate Hown|]). exact Hown. }
    cbn [fst snd InputManager.inputState InputManager.activeTouches].
    rewrite !flag_assign_same by apply Hs.
    repeat split; try reflexivity.
    + apply assign_get_other. congruence.
    + apply assign_get_other. congruence.
    + intros key2 E2. rewrite E2. cbn [fst InputManager.inputState].
      apply flag_assign_same. apply Hs.
  - pose proof (toPropertyKey_junk key) as Hjunk. cbn [In] in Hjunk.
    assert (Hs : forall i : list (string * bool),
               Proto.swallows i (Proto.toPropertyKey key) = false)
      by (intros i; apply swallows_other; intros C; apply Hjunk; rewrite C; tauto).
    cbn [fst snd InputManager.inputState InputManager.activeTouches].
    rewrite !assign_get_same by apply Hs.
    unfold InputManager.getInputState.
    cbn [InputManager.inputState].
    rewrite !flag_assign_other by (intros C; apply Hjunk; rewrite C; tauto).
    repeat split; reflexivity.
  - split; reflexivity.
Qed.

Lemma clear_fold_get (ks : list string) (i : list (string * bool)) (k : string) :
  Obj.get string_dec
    (fold_left (fun i key => Obj.set string_dec i key false) ks i) k
  = if in_dec string_dec k ks then Some false else Obj.get string_dec i k.
Proof.
  revert i. induction ks as [|k0 ks IH]; intros i; cbn [fold_left].
  - reflexivity.
  - rewrite IH. destruct (in_dec string_dec k ks) as [Hin|Hout].
    + destruct (in_dec string_dec k (k0 :: ks)) as [_|C]; [reflexivity|].
      exfalso. apply C. right. exact Hin.
    + destruct (string_dec k0 k) as [->|Hne].
      * rewrite Obj_get_set_same.
        destruct (in_dec string_dec k (k :: ks)) as [_|C]; [reflexivity|].
        exfalso. apply C. left. reflexivity.
      * rewrite Obj_get_set_other by exact Hne.
        destruct (in_dec string_dec k (k0 :: ks)) as [[C|C]|_];
          [contradiction | contradiction | reflexivity].
Qed.

Lemma clear_fold_keys (ks : list string) (i : list (string * bool)) :
  incl ks (Obj.keys i) ->
  Obj.keys (fold_left (fun i key => Obj.set string_dec i key false) ks i)
  = Obj.keys i.
Proof.
  revert i. induction ks as [|k0 ks IH]; intros i Hincl; cbn [fold_left].
  - reflexivity.
  - assert (Hk : Obj.keys (Obj.set string_dec i k0 false) = Obj.keys i).
    { apply Obj_keys_set_present. apply Hincl. left. reflexivity. }
    rewrite IH; [exact Hk|].
    rewrite Hk. intros k Hin. apply Hincl. right. exact Hin.
Qed.

(** X2. [clearInputState] turns every property of the input object to [false],
    also the ones a touch button added under its own action name; it adds
    and removes none, and it leaves the touches it tracks as they are.
    What the loop reads afterwards is the all-false state. *)
Theorem clearInputState_all_false (this : InputManager.t) :
  let cleared := InputManager.clearInputState this in
  (forall key,
      Obj.get string_dec (InputManager.inputState cleared) key
      = option_map (fun _ => false)
                   (Obj.get string_dec (InputManager.inputState this) key))
  /\ Obj.keys (InputManager.inputState cleared)
     = Obj.keys (InputManager.inputState this)
  /\ InputManager.activeTouches cleared = InputManager.activeTouches this
  /\ InputManager.getInputState cleared = clearInputState.
Proof.
  cbv zeta.
  assert (Hget : forall key,
      Obj.get string_dec
        (InputManager.inputState (InputManager.clearInputState this)) key
      = option_map (fun _ => false)
                   (Obj.get string_dec (InputManager.inputState this) key)).
  { intros key. unfold InputManager.clearInputState.
    cbn [InputManager.inputState]. rewrite clear_fold_get.
    destruct (in_dec string_dec key (Obj.keys (InputManager.inputState this)))
      as [Hin|Hout].
    - apply (Obj_get_In string_dec) in Hin.
      destruct (Obj.get string_dec (InputManager.inputState this) key);
        [reflexivity | congruence].
    - destruct (Obj.get string_dec (InputManager.inputState this) key) eqn:E;
        [|reflexivity].
      exfalso. apply Hout. apply (Obj_get_In string_dec). congruence. }
  split; [exact Hget|]. split; [|split; [reflexivity|]].
  - unfold InputManager.clearInputState. cbn [InputManager.inputState].
    apply clear_fold_keys. apply incl_refl.
  - assert (Hflag : forall key,
        InputManager.flag
          (InputManager.inputState (InputManager.clearInputState this)) key = false).
    { intros key. unfold InputManager.flag. rewrite Hget.
      destruct (Obj.get string_dec (InputManager.inputState this) key); reflexivity. }
    unfold InputManager.getInputState. cbv zeta. rewrite !Hflag. reflexivity.
Qed.

(** Held together: [w] and [ArrowUp] both down, [w] released, and the
    forward intent is off although [ArrowUp] is still held.  And a key
    named [toString]: prevented, the intents as they were. *)
Lemma key_events_set_their_intent_witness :
  let held :=
    fst (InputManager.handleKeyDown
           (fst (InputManager.handleKeyDown InputManager.initial "w")) "ArrowUp") in
  forward (InputManager.getInputState held) = true
  /\ forward (InputManager.getInputState (fst (InputManager.handleKeyUp held "w")))
     = false
  /\ snd (InputManager.handleKeyDown InputManager.initial "toString") = true
  /\ Obj.get string_dec
       (InputManager.inputState
          (fst (InputManager.handleKeyDown InputManager.initial "toString")))
       "function toString() { [native code] }"%string = Some true
  /\ InputManager.getInputState
       (fst (InputManager.handleKeyDown InputManager.initial "toString"))
     = clearInputState.
Proof.
  split; [reflexivity|].
  pose proof (key_events_set_their_intent InputManager.initial "w") as Hw.
  pose proof (key_events_set_their_intent InputManager.initial "toString") as Ht.
  change (Proto.read InputManager.keyMappings "w")
    with (@Proto.Own string "forward"%string) in Hw.
  change (Proto.read InputManager.keyMappings "toString")
    with (@Proto.Inherited string) in Ht.
  cbv zeta in Hw, Ht.
  destruct Hw as [_ [_ [_ [_ [_ [_ [_ Hshared]]]]]]].
  destruct Ht as [Hp [_ [Hj [_ [Hi _]]]]].
  split; [exact (Hshared "ArrowUp"%string eq_refl)|].
  split; [exact Hp|]. split; [exact Hj | exact Hi].
Defined.

Lemma truthyAction_Some (a : option string) (action : string) :
  InputManager.truthyAction a = Some action ->
  InputManager.truthyAction (Some action) = Some action.
Proof.
  destruct a as [s|]; cbn; [|discriminate].
  destruct (String.eqb s EmptyString) eqn:E; [discriminate|].
  intros H. inversion H; subst. rewrite E. reflexivity.
Qed.

(** X3. A touch that starts on a touch button carrying an action, under an
    identifier that is not tracked, is tracked under that action and turns
    the action on; when it ends the action is off again and the identifier
    is free, with every other property and every other tracked touch as
    before.  One action is the exception: the write to ['__proto__'] ends
    in the setter of [Object.prototype], so such a touch is tracked and
    released without the input object ever changing.  Touches that start
    elsewhere, or under an identifier already tracked, and touches that end
    without being tracked change nothing. *)
Theorem touch_sets_and_releases_action (this : InputManager.t)
    (touch : InputManager.Touch) (action : string) :
  InputManager.isTouchButton touch = true ->
  InputManager.truthyAction (InputManager.datasetAction touch) = Some action ->
  Obj.get Z.eq_dec (InputManager.activeTouches this) (InputManager.identifier touch)
  = None ->
  let started := InputManager.onTouchStart this [touch] in
  let ended := InputManager.onTouchEnd started [touch] in
  (if Proto.swallows (InputManager.inputState this) action
   then InputManager.inputState started = InputManager.inputState this
        /\ InputManager.inputState ended = InputManager.inputState this
   else InputManager.flag (InputManager.inputState started) action = true
        /\ InputManager.flag (InputManager.inputState ended) action = false)
  /\ Obj.get Z.eq_dec (InputManager.activeTouches started)
                      (InputManager.identifier touch) = Some action
  /\ Obj.get Z.eq_dec (InputManager.activeTouches ended)
                      (InputManager.identifier touch) = None
  /\ (forall other, other <> action ->
        Obj.get string_dec (InputManager.inputState ended) other
        = Obj.get string_dec (InputManager.inputState this) other)
  /\ (forall other, other <> InputManager.identifier touch ->
        Obj.get Z.eq_dec (InputManager.activeTouches ended) other
        = Obj.get Z.eq_dec (InputManager.activeTouches this) other)
  /\ InputManager.onTouchStart started [touch] = started
  /\ InputManager.onTouchEnd this [touch] = this
  /\ (forall elsewhere, InputManager.isTouchButton elsewhere = false ->
        InputManager.onTouchStart this [elsewhere] = this).
Proof.
  intros Hbutton Haction Hfree. cbv zeta.
  pose proof (truthyAction_Some _ _ Haction) as Hstored.
  unfold InputManager.onTouchStart, InputManager.onTouchEnd. cbn [fold_left].
  assert (Estart : InputManager.touchStarted this touch
                   = InputManager.mk
                       (Proto.assign (InputManager.inputState this) action true)
                       (Obj.set Z.eq_dec (InputManager.activeTouches this)
                                (InputManager.identifier touch) action)).
  { unfold InputManager.touchStarted. rewrite Hbutton, Haction, Hfree. reflexivity. }
  rewrite Estart.
  assert (Eend : InputManager.touchEnded
                   (InputManager.mk
                      (Proto.assign (InputManager.inputState this) action true)
                      (Obj.set Z.eq_dec (InputManager.activeTouches this)
                               (InputManager.identifier touch) action)) touch
                 = InputManager.mk
                     (Proto.assign
                        (Proto.assign (InputManager.inputState this) action true)
                        action false)
                     (Obj.delete Z.eq_dec
                        (Obj.set Z.eq_dec (InputManager.activeTouches this)
                                 (InputManager.identifier touch) action)
                        (InputManager.identifier touch))).
  { unfold InputManager.touchEnded. cbn [InputManager.activeTouches].
    rewrite Obj_get_set_same, Hstored. reflexivity. }
  rewrite Eend. cbn [InputManager.inputState InputManager.activeTouches].
  split; [|split; [|split; [|split; [|split; [|split; [|split]]]]]].
  - destruct (Proto.swallows (InputManager.inputState this) action) eqn:Hs.
    + rewrite (assign_swallowed _ _ true Hs), (assign_swallowed _ _ false Hs).
      split; reflexivity.
    + split; [apply flag_assign_same; exact Hs|].
      apply flag_assign_same. apply assign_not_swallowed_again. exact Hs.
  - apply Obj_get_set_same.
  - apply Obj_get_delete_same.
  - intros other Hne. rewrite !assign_get_other by congruence. reflexivity.
  - intros other Hne. rewrite Obj_get_delete_other by congruence.
    apply Obj_get_set_other. congruence.
  - unfold InputManager.touchStarted. rewrite Hbutton, Haction.
    cbn [InputManager.activeTouches]. rewrite Obj_get_set_same, Hstored. reflexivity.
  - unfold InputManager.touchEnded. rewrite Hfree. reflexivity.
  - intros elsewhere Hno. unfold InputManager.touchStarted. rewrite Hno. reflexivity.
Qed.

(** A finger on the jump button while the forward key is held, and a
    finger on a button whose action is [__proto__]. *)
Lemma touch_sets_and_releases_action_witness :
  let keyed := fst (InputManager.handleKeyDown InputManager.initial "w") in
  let finger := InputManager.mkTouch 3 true (Some "jump"%string) in
  let started := InputManager.onTouchStart keyed [finger] in
  let ended := InputManager.onTouchEnd started [finger] in
  let odd := InputManager.mkTouch 4 true (Some "__proto__"%string) in
  InputManager.getInputState started
  = mkInputState true false false false true false false false false
  /\ InputManager.flag (InputManager.inputState ended) "jump" = false
  /\ InputManager.activeTouches ended = []
  /\ InputManager.inputState (InputManager.onTouchStart keyed [odd])
     = InputManager.inputState keyed
  /\ InputManager.activeTouches (InputManager.onTouchStart keyed [odd])
     = [(4%Z, "__proto__"%string)].
Proof.
  intros keyed finger started ended odd.
  destruct (touch_sets_and_releases_action keyed finger "jump" eq_refl eq_refl eq_refl)
    as [[_ Hoff] _].
  destruct (touch_sets_and_releases_action keyed odd "__proto__" eq_refl eq_refl eq_refl)
    as [[Hsame _] _].
  split; [reflexivity|]. split; [exact Hoff|]. split; [reflexivity|].
  split; [exact Hsame | reflexivity].
Defined.

(** ** Chat *)

Lemma length_append (a b : string) :
  String.length (a ++ b) = (String.length a + String.length b)%nat.
Proof. induction a as [|c a IH]; cbn; [reflexivity | rewrite IH; reflexivity]. Qed.

Lemma occurrences_append (c : ascii) (a b : string) :
  Presence.occurrences c (a ++ b)
  = (Presence.occurrences c a + Presence.occurrences c b)%nat.
Proof.
  induction a as [|x a IH]; cbn; [reflexivity|]. rewrite IH. lia.
Qed.

Lemma replaceAll_length (c : ascii) (by_ s : string) :
  (String.length (Presence.replaceAll c by_ s) + Presence.occurrences c s
   = String.length s + Presence.occurrences c s * String.length by_)%nat.
Proof.
  induction s as [|a s IH]; cbn; [reflexivity|].
  destruct (Ascii.eqb a c); cbn; [rewrite length_append|]; lia.
Qed.

Lemma replaceAll_occurrences (c d : ascii) (by_ s : string) :
  Presence.occurrences d (Presence.replaceAll c by_ s)
  = ((if Ascii.eqb c d then 0 else Presence.occurrences d s)
     + Presence.occurrences c s * Presence.occurrences d by_)%nat.
Proof.
  induction s as [|a s IH]; cbn; [destruct (Ascii.eqb c d); reflexivity|].
  destruct (Ascii.eqb a c) eqn:Eac.
  - apply Ascii.eqb_eq in Eac. subst a.
    rewrite occurrences_append, IH. cbn.
    destruct (Ascii.eqb c d); lia.
  - cbn. rewrite IH.
    destruct (Ascii.eqb c d) eqn:Ecd.
    + apply Ascii.eqb_eq in Ecd. subst d. rewrite Eac. lia.
    + destruct (Ascii.eqb a d); lia.
Qed.

Lemma replaceAll_absent (c : ascii) (by_ s : string) :
  Presence.occurrences c s = 0%nat -> Presence.replaceAll c by_ s = s.
Proof.
  induction s as [|a s IH]; cbn; [reflexivity|].
  destruct (Ascii.eqb a c); [discriminate|].
  cbn. intros H0. rewrite IH by exact H0. reflexivity.
Qed.

(** X4. The escaped text has no angle bracket left; it is three characters
    longer for every bracket of the message (so a message of 100 brackets is
    sent as 400 characters), and a message without brackets goes out as
    typed. *)
Theorem sanitize_escapes_brackets (message : string) :
  Presence.occurrences "<" (Presence.sanitize message) = 0%nat
  /\ Presence.occurrences ">" (Presence.sanitize message) = 0%nat
  /\ String.length (Presence.sanitize message)
     = (String.length message
        + 3 * (Presence.occurrences "<" message + Presence.occurrences ">" message))%nat
  /\ (Presence.occurrences "<" message = 0%nat ->
      Presence.occurrences ">" message = 0%nat ->
      Presence.sanitize message = message).
Proof.
  unfold Presence.sanitize.
  assert (Hgt : Presence.occurrences ">" (Presence.replaceAll "<" "&lt;" message)
                = Presence.occurrences ">" message).
  { rewrite replaceAll_occurrences. cbn. lia. }
  split; [|split; [|split]].
  - rewrite !replaceAll_occurrences. cbn. lia.
  - rewrite replaceAll_occurrences. cbn. lia.
  - pose proof (replaceAll_length ">" "&gt;" (Presence.replaceAll "<" "&lt;" message)) as H1.
    pose proof (replaceAll_length "<" "&lt;" message) as H2.
    rewrite Hgt in H1. cbn [String.length] in H1, H2. lia.
  - intros Hlt Hgt0. rewrite (replaceAll_absent "<" _ _ Hlt).
    apply replaceAll_absent. exact Hgt0.
Qed.

(** Markup is escaped, and plain text is left as typed. *)
Lemma sanitize_escapes_brackets_witness :
  Presence.occurrences "<" (Presence.sanitize "<b>hi</b>") = 0%nat
  /\ String.length (Presence.sanitize "<b>hi</b>") = 21%nat
  /\ Presence.sanitize "hello" = "hello"%string.
Proof.
  destruct (sanitize_escapes_brackets "<b>hi</b>") as [Hlt [_ [Hlen _]]].
  destruct (sanitize_escapes_brackets "hello") as [_ [_ [_ Hplain]]].
  split; [exact Hlt|]. split; [exact Hlen|]. exact (Hplain eq_refl eq_refl).
Defined.

(** X5. [sendChatMessage] adds at most one message to what has gone to the
    network: one only if the network is set, the client id is known and the
    message has between 1 and 100 characters, and then it is the escaped
    message, free of angle brackets, which is also shown locally under the
    player's own name.  Otherwise nothing is sent or shown, only a warning
    logged.  The roster and the scene are never touched. *)
Theorem sendChatMessage_sends_escaped (this : Presence.t) (message : string) :
  let after := Presence.sendChatMessage this message in
  let ready :=
    (Presence.network this
     && match Presence.truthyString (Presence.clientId this) with
        | Some _ => true
        | None => false
        end
     && (1 <=? String.length message)%nat
     && (String.length message <=? 100)%nat)%bool in
  Presence.otherPlayers after = Presence.otherPlayers this
  /\ Presence.scene after = Presence.scene this
  /\ (ready = true ->
      Presence.out after
      = Presence.out this
        ++ [Presence.NetworkSend "chatMessage" (Presence.sanitize message);
            Presence.UiShowChatMessage (Presence.playerName this)
                                       (Presence.sanitize message)]
      /\ Presence.occurrences "<" (Presence.sanitize message) = 0%nat
      /\ Presence.occurrences ">" (Presence.sanitize message) = 0%nat)
  /\ (ready = false ->
      exists warning,
        Presence.out after = Presence.out this ++ [Presence.ConsoleWarn warning]).
Proof.
  cbv zeta. unfold Presence.sendChatMessage.
  assert (Hwarn : forall w flag,
            flag = false ->
            Presence.otherPlayers (Presence.emit this (Presence.ConsoleWarn w))
            = Presence.otherPlayers this
            /\ Presence.scene (Presence.emit this (Presence.ConsoleWarn w))
               = Presence.scene this
            /\ (flag = true ->
                Presence.out (Presence.emit this (Presence.ConsoleWarn w))
                = Presence.out this
                  ++ [Presence.NetworkSend "chatMessage" (Presence.sanitize message);
                      Presence.UiShowChatMessage (Presence.playerName this)
                                                 (Presence.sanitize message)]
                /\ Presence.occurrences "<" (Presence.sanitize message) = 0%nat
                /\ Presence.occurrences ">" (Presence.sanitize message) = 0%nat)
            /\ (flag = false ->
                exists warning,
                  Presence.out (Presence.emit this (Presence.ConsoleWarn w))
                  = Presence.out this ++ [Presence.ConsoleWarn warning])).
  { intros w flag ->. split; [reflexivity|]. split; [reflexivity|].
    split; [discriminate|]. intros _. exists w. reflexivity. }
  destruct (Presence.network this);
    destruct (Presence.truthyString (Presence.clientId this)); cbn [negb orb andb];
    try (apply Hwarn; reflexivity).
  destruct (String.length message) as [|n] eqn:Elen; cbn [Nat.eqb orb Nat.leb andb].
  - apply Hwarn. reflexivity.
  - destruct (100 <? S n)%nat eqn:Elong.
    + apply Nat.ltb_lt in Elong. apply Hwarn. apply Nat.leb_gt. lia.
    + apply Nat.ltb_ge in Elong.
      assert (Hlt : Presence.occurrences "<" (Presence.sanitize message) = 0%nat)
        by (unfold Presence.sanitize; rewrite !replaceAll_occurrences; cbn; lia).
      assert (Hgt : Presence.occurrences ">" (Presence.sanitize message) = 0%nat)
        by (unfold Presence.sanitize; rewrite replaceAll_occurrences; cbn; lia).
      cbn. split; [reflexivity|]. split; [reflexivity|].
      split; [|intros C; apply Nat.leb_gt in C; lia]. intros _.
      rewrite <- app_assoc. cbn. split; [reflexivity|]. split; assumption.
Qed.

(** A message with markup, from a connected client. *)
Lemma sendChatMessage_sends_escaped_witness :
  let client := Presence.mk true (Some "c-17"%string) "Anon" [] [] [] in
  Presence.out (Presence.sendChatMessage client "<b>hi</b>")
  = [Presence.NetworkSend "chatMessage" "&lt;b&gt;hi&lt;/b&gt;";
     Presence.UiShowChatMessage "Anon" "&lt;b&gt;hi&lt;/b&gt;"].
Proof.
  intros client.
  destruct (sendChatMessage_sends_escaped client "<b>hi</b>") as [_ [_ [Hsent _]]].
  destruct (Hsent eq_refl) as [Hout _]. exact Hout.
Defined.

(** ** The roster of other players *)

Lemma Obj_delete_absent {K V : Type} (eq_dec : forall a b : K, {a = b} + {a <> b})
    (o : list (K * V)) (k : K) :
  Obj.get eq_dec o k = None -> Obj.delete eq_dec o k = o.
Proof.
  induction o as [|[k0 v0] o IH]; cbn; [reflexivity|].
  destruct (eq_dec k0 k); [discriminate|]. intros E. rewrite IH by exact E. reflexivity.
Qed.

Lemma NoDup_remove_keeps {A : Type} (eq_dec : forall a b : A, {a = b} + {a <> b})
    (x : A) (l : list A) :
  NoDup l -> NoDup (remove eq_dec x l).
Proof.
  induction 1 as [|a l Hout Hnd IH]; cbn; [constructor|].
  destruct (eq_dec x a); [exact IH|].
  constructor; [|exact IH]. intros C. apply in_remove in C. apply Hout, C.
Qed.

Lemma visualsOf_keys (r1 r2 : list (string * Presence.OtherPlayer)) :
  Obj.keys r1 = Obj.keys r2 -> Presence.visualsOf r1 = Presence.visualsOf r2.
Proof. unfold Presence.visualsOf. intros ->. reflexivity. Qed.

Lemma visualsOf_delete (r : list (string * Presence.OtherPlayer)) (k : string) :
  Presence.visualsOf (Obj.delete string_dec r k)
  = remove Presence.Visual_eq_dec (Presence.SpriteOf k)
      (remove Presence.Visual_eq_dec (Presence.MeshOf k) (Presence.visualsOf r)).
Proof.
  unfold Presence.visualsOf. rewrite Obj_keys_delete.
  induction (Obj.keys r) as [|k0 ks IH]; [reflexivity|].
  cbn [remove flat_map app].
  destruct (string_dec k k0) as [->|Hne].
  - destruct (Presence.Visual_eq_dec (Presence.MeshOf k0) (Presence.MeshOf k0))
      as [_|C]; [|contradiction].
    destruct (Presence.Visual_eq_dec (Presence.MeshOf k0) (Presence.SpriteOf k0))
      as [C|_]; [discriminate|].
    cbn [remove].
    destruct (Presence.Visual_eq_dec (Presence.SpriteOf k0) (Presence.SpriteOf k0))
      as [_|C]; [|contradiction].
    exact IH.
  - destruct (Presence.Visual_eq_dec (Presence.MeshOf k) (Presence.MeshOf k0))
      as [C|_]; [inversion C; contradiction|].
    destruct (Presence.Visual_eq_dec (Presence.MeshOf k) (Presence.SpriteOf k0))
      as [C|_]; [discriminate|].
    cbn [remove flat_map app].
    destruct (Presence.Visual_eq_dec (Presence.SpriteOf k) (Presence.MeshOf k0))
      as [C|_]; [discriminate|].
    destruct (Presence.Visual_eq_dec (Presence.SpriteOf k) (Presence.SpriteOf k0))
      as [C|_]; [inversion C; contradiction|].
    rewrite IH. reflexivity.
Qed.

Lemma truthyString_nonempty (s : option string) (v : string) :
  Presence.truthyString s = Some v -> s = Some v /\ v <> EmptyString.
Proof.
  destruct s as [x|]; cbn; [|discriminate].
  destruct (String.eqb x EmptyString) eqn:E; [discriminate|].
  intros H. inversion H; subst. split; [reflexivity|].
  apply String.eqb_neq. exact E.
Qed.

Lemma read_Undefined {V : Type} (o : list (string * V)) (k : string) :
  Proto.read o k = Proto.Undefined
  <-> Obj.get string_dec o k = None /\ Proto.inherited k = false.
Proof.
  unfold Proto.read. destruct (Obj.get string_dec o k) as [v|].
  - split; [discriminate | intros [C _]; discriminate C].
  - destruct (Proto.inherited k); split; try discriminate; auto.
    intros [_ C]. discriminate C.
Qed.

Lemma read_Own {V : Type} (o : list (string * V)) (k : string) (v : V) :
  Proto.read o k = Proto.Own v <-> Obj.get string_dec o k = Some v.
Proof.
  unfold Proto.read. destruct (Obj.get string_dec o k) as [v'|].
  - split; intros E; inversion E; reflexivity.
  - destruct (Proto.inherited k); split; discriminate.
Qed.

(** What [addOtherPlayer] does, by cases. *)
Lemma addOtherPlayer_cases (this : Presence.t) (playerData : option Presence.PlayerData) :
  (exists w, Presence.addOtherPlayer this playerData
             = Presence.emit this (Presence.ConsoleWarn w)
             /\ (forall pd playerId,
                   playerData = Some pd ->
                   Presence.truthyString (Presence.id pd) = Some playerId ->
                   Proto.read (Presence.otherPlayers this) playerId
                   <> Proto.Undefined))
  \/ (exists pd playerId entry,
        playerData = Some pd
        /\ Presence.truthyString (Presence.id pd) = Some playerId
        /\ Proto.read (Presence.otherPlayers this) playerId = Proto.Undefined
        /\ Presence.spritePosition (Presence.nameSprite entry)
           = Presence.above (Presence.meshPosition (Presence.mesh entry))
        /\ Presence.addOtherPlayer this playerData
           = Presence.mk (Presence.network this) (Presence.clientId this)
               (Presence.playerName this)
               (Obj.set string_dec (Presence.otherPlayers this) playerId entry)
               (Presence.scene this
                ++ [Presence.MeshOf playerId; Presence.SpriteOf playerId])
               (Presence.out this)).
Proof.
  unfold Presence.addOtherPlayer.
  destruct playerData as [pd|].
  2:{ left. eexists. split; [reflexivity|]. intros ? ? C. discriminate C. }
  destruct (Presence.truthyString (Presence.id pd)) as [playerId|] eqn:Eid.
  2:{ left. eexists. split; [reflexivity|]. intros ? ? C E. inversion C; subst.
      rewrite Eid in E. discriminate E. }
  destruct (Proto.read (Presence.otherPlayers this) playerId) as [old| |] eqn:Eget.
  - left. eexists. split; [reflexivity|]. intros ? ? C E. inversion C; subst.
    rewrite Eid in E. inversion E; subst. congruence.
  - left. eexists. split; [reflexivity|]. intros ? ? C E. inversion C; subst.
    rewrite Eid in E. inversion E; subst. congruence.
  - right. eexists pd, playerId, _. split; [reflexivity|]. split; [exact Eid|].
    split; [exact Eget|]. split; [|cbv zeta; destruct this; cbn;
                                   rewrite <- app_assoc; reflexivity].
    reflexivity.
Qed.

Lemma emit_consistent (this : Presence.t) (o : Presence.Out) :
  Presence.consistent this -> Presence.consistent (Presence.emit this o).
Proof. intros H. exact H. Qed.

Lemma addOtherPlayer_consistent (this : Presence.t)
    (playerData : option Presence.PlayerData) :
  Presence.consistent this ->
  Presence.consistent (Presence.addOtherPlayer this playerData).
Proof.
  intros Hc.
  destruct (addOtherPlayer_cases this playerData)
    as [[w [-> _]]|[pd [playerId [entry [_ [Eid [Eget [Esprite ->]]]]]]]];
    [exact Hc|].
  destruct Hc as [Hnd [Hne [Hscene Hsprites]]].
  apply read_Undefined in Eget. destruct Eget as [Eget _].
  assert (Hout : ~ In playerId (Obj.keys (Presence.otherPlayers this))).
  { intros C. apply (Obj_get_In string_dec) in C. contradiction. }
  unfold Presence.consistent.
  cbn [Presence.otherPlayers Presence.scene].
  rewrite (Obj_keys_set_absent string_dec _ _ _ Hout).
  split; [|split; [|split]].
  - apply NoDup_app; [exact Hnd | constructor; [intros [] | constructor] |].
    intros a Ha [<-|[]]. contradiction.
  - intros C. apply in_app_or in C. destruct C as [C|[C|[]]]; [contradiction|].
    apply truthyString_nonempty in Eid. destruct Eid as [_ Eid]. congruence.
  - rewrite Hscene. unfold Presence.visualsOf.
    rewrite (Obj_keys_set_absent string_dec _ _ _ Hout), flat_map_app. reflexivity.
  - intros k p Hget.
    destruct (string_dec playerId k) as [->|Hk].
    + rewrite Obj_get_set_same in Hget. inversion Hget; subst. exact Esprite.
    + rewrite Obj_get_set_other in Hget by exact Hk. apply (Hsprites k). exact Hget.
Qed.

Lemma removeOtherPlayer_shape (this : Presence.t) (playerId : string) :
  Presence.consistent this ->
  Presence.otherPlayers (Presence.removeOtherPlayer this playerId)
  = Obj.delete string_dec (Presence.otherPlayers this) playerId
  /\ Presence.scene (Presence.removeOtherPlayer this playerId)
     = Presence.visualsOf (Obj.delete string_dec (Presence.otherPlayers this) playerId)
  /\ Presence.clientId (Presence.removeOtherPlayer this playerId)
     = Presence.clientId this
  /\ Presence.out (Presence.removeOtherPlayer this playerId) = Presence.out this.
Proof.
  intros [_ [_ [Hscene _]]]. unfold Presence.removeOtherPlayer.
  destruct (Obj.get string_dec (Presence.otherPlayers this) playerId) as [p|] eqn:E;
    cbn.
  - rewrite visualsOf_delete, Hscene. repeat split.
  - rewrite (Obj_delete_absent string_dec _ _ E). repeat split. exact Hscene.
Qed.

Lemma removeOtherPlayer_consistent (this : Presence.t) (playerId : string) :
  Presence.consistent this ->
  Presence.consistent (Presence.removeOtherPlayer this playerId).
Proof.
  intros Hc. destruct (removeOtherPlayer_shape this playerId Hc) as [Er [Es _]].
  destruct Hc as [Hnd [Hne [_ Hsprites]]].
  unfold Presence.consistent. rewrite Er, Es, Obj_keys_delete.
  split; [apply NoDup_remove_keeps; exact Hnd|].
  split; [intros C; apply in_remove in C; apply Hne, C|].
  split; [reflexivity|].
  intros k p Hget.
  destruct (string_dec playerId k) as [->|Hk].
  - rewrite Obj_get_delete_same in Hget. discriminate.
  - rewrite Obj_get_delete_other in Hget by exact Hk. apply (Hsprites k). exact Hget.
Qed.

Lemma fold_delete_all {V : Type} (ks : list string) (o : list (string * V)) :
  incl (Obj.keys o) ks ->
  fold_left (fun r k => Obj.delete string_dec r k) ks o = [].
Proof.
  revert o. induction ks as [|k ks IH]; intros o Hincl; cbn [fold_left].
  - destruct o as [|[k0 v0] o]; [reflexivity|].
    exfalso. apply (Hincl k0). left. reflexivity.
  - apply IH. rewrite Obj_keys_delete. intros a Ha.
    apply in_remove in Ha. destruct Ha as [Ha Hne].
    destruct (Hincl a Ha) as [E|E]; [congruence | exact E].
Qed.

Lemma removeMany_shape (ks : list string) (this : Presence.t) :
  Presence.consistent this ->
  let after := fold_left Presence.removeOtherPlayer ks this in
  Presence.consistent after
  /\ Presence.otherPlayers after
     = fold_left (fun r k => Obj.delete string_dec r k) ks (Presence.otherPlayers this)
  /\ Presence.clientId after = Presence.clientId this
  /\ Presence.out after = Presence.out this.
Proof.
  revert this. induction ks as [|k ks IH]; intros this Hc; cbn [fold_left].
  - repeat split; apply Hc.
  - destruct (removeOtherPlayer_shape this k Hc) as [Er [_ [Ec Eo]]].
    destruct (IH _ (removeOtherPlayer_consistent this k Hc)) as [H1 [H2 [H3 H4]]].
    split; [exact H1|]. split; [rewrite H2, Er; reflexivity|].
    split; [rewrite H3; exact Ec | rewrite H4; exact Eo].
Qed.

Lemma removeAll_shape (this : Presence.t) :
  Presence.consistent this ->
  Presence.consistent (Presence.removeAll this)
  /\ Presence.otherPlayers (Presence.removeAll this) = []
  /\ Presence.scene (Presence.removeAll this) = []
  /\ Presence.clientId (Presence.removeAll this) = Presence.clientId this
  /\ Presence.out (Presence.removeAll this) = Presence.out this.
Proof.
  intros Hc. unfold Presence.removeAll.
  destruct (removeMany_shape (Obj.keys (Presence.otherPlayers this)) this Hc)
    as [H1 [H2 [H3 H4]]].
  cbv zeta in *. rewrite fold_delete_all in H2 by apply incl_refl.
  split; [exact H1|]. split; [exact H2|]. split; [|split; assumption].
  destruct H1 as [_ [_ [Hs _]]]. rewrite Hs, H2. reflexivity.
Qed.

Lemma handlePlayerJoined_consistent (this : Presence.t) (pd : Presence.PlayerData) :
  Presence.consistent this -> Presence.consistent (Presence.handlePlayerJoined this pd).
Proof.
  intros Hc. unfold Presence.handlePlayerJoined.
  destruct (Presence.notClient this (Presence.id pd));
    [apply addOtherPlayer_consistent|]; exact Hc.
Qed.

Lemma addMany_consistent (data : list Presence.PlayerData) (this : Presence.t) :
  Presence.consistent this ->
  Presence.consistent
    (fold_left
       (fun this playerData =>
          if Presence.notClient this (Presence.id playerData)
          then Presence.addOtherPlayer this (Some playerData) else this)
       data this).
Proof.
  revert this. induction data as [|pd data IH]; intros this Hc; cbn [fold_left].
  - exact Hc.
  - apply IH. apply (handlePlayerJoined_consistent this pd Hc).
Qed.

Lemma handlePlayerUpdate_shape (this : Presence.t) (playerId : string)
    (newState : option Presence.PlayerState) :
  Obj.keys (Presence.otherPlayers (Presence.handlePlayerUpdate this playerId newState))
  = Obj.keys (Presence.otherPlayers this)
  /\ Presence.scene (Presence.handlePlayerUpdate this playerId newState)
     = Presence.scene this
  /\ Presence.clientId (Presence.handlePlayerUpdate this playerId newState)
     = Presence.clientId this.
Proof.
  unfold Presence.handlePlayerUpdate, Proto.read.
  destruct (Obj.get string_dec (Presence.otherPlayers this) playerId) as [p|] eqn:E;
    [destruct newState as [s|]|destruct (Proto.inherited playerId)];
    cbn; repeat split.
  apply Obj_keys_set_present. apply (Obj_get_In string_dec). congruence.
Qed.

Lemma handlePlayerUpdate_consistent (this : Presence.t) (playerId : string)
    (newState : option Presence.PlayerState) :
  Presence.consistent this ->
  Presence.consistent (Presence.handlePlayerUpdate this playerId newState).
Proof.
  intros [Hnd [Hne [Hscene Hsprites]]].
  destruct (handlePlayerUpdate_shape this playerId newState) as [Ek [Es _]].
  unfold Presence.consistent. rewrite Ek, Es.
  split; [exact Hnd|]. split; [exact Hne|].
  split; [rewrite Hscene; apply visualsOf_keys; symmetry; exact Ek|].
  unfold Presence.handlePlayerUpdate, Proto.read.
  destruct (Obj.get string_dec (Presence.otherPlayers this) playerId) as [p|] eqn:E;
    [destruct newState as [s|]|destruct (Proto.inherited playerId)];
    cbn; try exact Hsprites.
  intros k p' Hget. destruct (string_dec playerId k) as [->|Hk].
  - rewrite Obj_get_set_same in Hget. inversion Hget; subst. reflexivity.
  - rewrite Obj_get_set_other in Hget by exact Hk. apply (Hsprites k). exact Hget.
Qed.

Lemma receive_consistent (this : Presence.t) (m : Presence.Inbound) :
  Presence.consistent this -> Presence.consistent (Presence.receive this m).
Proof.
  intros Hc. destruct m as [newId|data|pd|k|k st|sender text|]; cbn [Presence.receive].
  - exact Hc.
  - unfold Presence.handleWorldState. cbv zeta.
    apply addMany_consistent. apply removeAll_shape. exact Hc.
  - apply handlePlayerJoined_consistent. exact Hc.
  - apply removeOtherPlayer_consistent. exact Hc.
  - apply handlePlayerUpdate_consistent. exact Hc.
  - unfold Presence.handleChatMessage.
    destruct (negb (Presence.notClient this (Some sender))); exact Hc.
  - unfold Presence.handleDisconnect. cbv zeta.
    apply emit_consistent. apply removeAll_shape. apply emit_consistent. exact Hc.
Qed.

Lemma receiveAll_consistent (messages : list Presence.Inbound) (this : Presence.t) :
  Presence.consistent this ->
  Presence.consistent (fold_left Presence.receive messages this).
Proof.
  revert this. induction messages as [|m messages IH]; intros this Hc; cbn [fold_left].
  - exact Hc.
  - apply IH. apply receive_consistent. exact Hc.
Qed.

Lemma initial_consistent (playerName : string) :
  Presence.consistent (Presence.initial playerName).
Proof.
  unfold Presence.consistent. cbn.
  split; [constructor|]. split; [intros []|]. split; [reflexivity|].
  intros k p C. discriminate C.
Qed.

(** X7. Whatever the server sends, in whatever order, starting from the empty
    roster of a new game: the roster has one entry per id and none under an
    empty id, and the scene holds exactly the mesh and the name sprite of
    every listed player, in the order the players were added.  No visual
    is left behind when a player leaves and none is missing. *)
Theorem roster_and_scene_agree (playerName : string)
    (messages : list Presence.Inbound) :
  let after := fold_left Presence.receive messages (Presence.initial playerName) in
  NoDup (Obj.keys (Presence.otherPlayers after))
  /\ ~ In EmptyString (Obj.keys (Presence.otherPlayers after))
  /\ Presence.scene after = Presence.visualsOf (Presence.otherPlayers after).
Proof.
  cbv zeta.
  destruct (receiveAll_consistent messages _ (initial_consistent playerName))
    as [H1 [H2 [H3 _]]].
  auto.
Qed.

(** X8. Whatever the server sends, the name sprite of every listed player sits
    2.5 above that player's mesh: after the join and after every update
    that moves the mesh. *)
Theorem name_sprite_follows_mesh (playerName : string)
    (messages : list Presence.Inbound) (playerId : string)
    (p : Presence.OtherPlayer) :
  Obj.get string_dec
    (Presence.otherPlayers
       (fold_left Presence.receive messages (Presence.initial playerName)))
    playerId = Some p ->
  Presence.spritePosition (Presence.nameSprite p)
  = THREE.mkVector3
      (THREE.x (Presence.meshPosition (Presence.mesh p)))
      (THREE.y (Presence.meshPosition (Presence.mesh p)) + (5 # 2))
      (THREE.z (Presence.meshPosition (Presence.mesh p))).
Proof.
  intros Hget.
  destruct (receiveAll_consistent messages _ (initial_consistent playerName))
    as [_ [_ [_ H4]]].
  exact (H4 playerId p Hget).
Qed.

(** A player who joins at (1, 2, 3) and is then moved to (4, 5, 6). *)
Lemma name_sprite_follows_mesh_witness :
  let bob :=
    Presence.mkPlayerData (Some "bob-1"%string) (Some "Bob"%string)
      (Some (Presence.mkPlayerState (Some (THREE.mkVector3 1 2 3)) None None None)) in
  let moved := Presence.mkPlayerState (Some (THREE.mkVector3 4 5 6)) None None
                                      (Some "Bob"%string) in
  exists p,
    Obj.get string_dec
      (Presence.otherPlayers
         (fold_left Presence.receive
            [Presence.PlayerJoined bob; Presence.PlayerUpdate "bob-1" (Some moved)]
            (Presence.initial "Anon")))
      "bob-1"%string = Some p
    /\ Presence.spritePosition (Presence.nameSprite p)
       = THREE.mkVector3 4 (5 + (5 # 2)) 6.
Proof.
  intros bob moved. eexists. split; [reflexivity|].
  apply (name_sprite_follows_mesh "Anon"
           [Presence.PlayerJoined bob; Presence.PlayerUpdate "bob-1" (Some moved)]
           "bob-1"%string).
  reflexivity.
Defined.

Lemma notClient_other (this : Presence.t) (c k : string) :
  Presence.clientId this = Some c ->
  Presence.notClient this (Some k) = true -> k <> c.
Proof.
  unfold Presence.notClient. intros -> E.
  apply negb_true_iff in E. apply String.eqb_neq. exact E.
Qed.

Lemma addOtherPlayer_keeps_self_out (this : Presence.t) (pd : Presence.PlayerData)
    (c : string) :
  Presence.clientId this = Some c ->
  Obj.get string_dec (Presence.otherPlayers this) c = None ->
  let after := Presence.handlePlayerJoined this pd in
  Presence.clientId after = Some c
  /\ Obj.get string_dec (Presence.otherPlayers after) c = None.
Proof.
  intros Hc Hout. cbv zeta. unfold Presence.handlePlayerJoined.
  destruct (Presence.notClient this (Presence.id pd)) eqn:En; [|auto].
  destruct (addOtherPlayer_cases this (Some pd))
    as [[w [-> _]]|[pd' [k [entry [Epd [Eid [_ [_ ->]]]]]]]]; [auto|].
  inversion Epd; subst pd'. cbn [Presence.clientId Presence.otherPlayers].
  split; [exact Hc|].
  apply truthyString_nonempty in Eid. destruct Eid as [Eid _].
  rewrite Eid in En. pose proof (notClient_other this c k Hc En) as Hne.
  rewrite Obj_get_set_other by exact Hne. exact Hout.
Qed.

Lemma addMany_keeps_self_out (data : list Presence.PlayerData) (this : Presence.t)
    (c : string) :
  Presence.clientId this = Some c ->
  Obj.get string_dec (Presence.otherPlayers this) c = None ->
  let after :=
    fold_left
      (fun this playerData =>
         if Presence.notClient this (Presence.id playerData)
         then Presence.addOtherPlayer this (Some playerData) else this)
      data this in
  Presence.clientId after = Some c
  /\ Obj.get string_dec (Presence.otherPlayers after) c = None.
Proof.
  revert this. induction data as [|pd data IH]; intros this Hc Hout; cbn [fold_left].
  - auto.
  - destruct (addOtherPlayer_keeps_self_out this pd c Hc Hout) as [H1 H2].
    apply IH; assumption.
Qed.

Lemma removeOtherPlayer_roster (this : Presence.t) (k : string) :
  Presence.otherPlayers (Presence.removeOtherPlayer this k)
  = Obj.delete string_dec (Presence.otherPlayers this) k
  /\ Presence.clientId (Presence.removeOtherPlayer this k) = Presence.clientId this.
Proof.
  unfold Presence.removeOtherPlayer.
  destruct (Obj.get string_dec (Presence.otherPlayers this) k); split; reflexivity.
Qed.

Lemma removeMany_keeps_self_out (ks : list string) (this : Presence.t) (c : string) :
  Presence.clientId this = Some c ->
  Obj.get string_dec (Presence.otherPlayers this) c = None ->
  Presence.clientId (fold_left Presence.removeOtherPlayer ks this) = Some c
  /\ Obj.get string_dec
       (Presence.otherPlayers (fold_left Presence.removeOtherPlayer ks this)) c = None.
Proof.
  revert this. induction ks as [|k ks IH]; intros this Hc Hout; cbn [fold_left].
  - auto.
  - destruct (removeOtherPlayer_roster this k) as [Er Ec].
    apply IH; [congruence|]. rewrite Er.
    destruct (string_dec k c) as [->|Hne];
      [apply Obj_get_delete_same | rewrite Obj_get_delete_other by exact Hne; exact Hout].
Qed.

(** X9. Once the client knows its own id, no message other than a new welcome
    ever puts the client itself on the roster of other players. *)
Theorem self_never_listed (messages : list Presence.Inbound) (this : Presence.t)
    (c : string) :
  Presence.clientId this = Some c ->
  Obj.get string_dec (Presence.otherPlayers this) c = None ->
  Forall (fun m => Presence.isWelcome m = false) messages ->
  Obj.get string_dec
    (Presence.otherPlayers (fold_left Presence.receive messages this)) c = None.
Proof.
  revert this. induction messages as [|m messages IH];
    intros this Hc Hout Hall; cbn [fold_left]; [exact Hout|].
  inversion Hall as [|? ? Hm Hrest]; subst.
  assert (Hstep : Presence.clientId (Presence.receive this m) = Some c
                  /\ Obj.get string_dec
                       (Presence.otherPlayers (Presence.receive this m)) c = None).
  { destruct m as [newId|data|pd|k|k st|sender text|]; cbn [Presence.receive];
      cbn in Hm; try discriminate Hm.
    - unfold Presence.handleWorldState. cbv zeta.
      destruct (removeMany_keeps_self_out
                  (Obj.keys (Presence.otherPlayers this)) this c Hc Hout) as [H1 H2].
      apply addMany_keeps_self_out; assumption.
    - apply addOtherPlayer_keeps_self_out; assumption.
    - apply (removeMany_keeps_self_out [k] this c Hc Hout).
    - unfold Presence.handlePlayerUpdate, Proto.read.
      destruct (Obj.get string_dec (Presence.otherPlayers this) k) as [p|] eqn:E;
        [destruct st as [s|]|destruct (Proto.inherited k)]; cbn; auto.
      split; [exact Hc|]. rewrite Obj_get_set_other; [exact Hout|]. congruence.
    - unfold Presence.handleChatMessage.
      destruct (negb (Presence.notClient this (Some sender))); auto.
    - unfold Presence.handleDisconnect. cbv zeta.
      apply (removeMany_keeps_self_out
               (Obj.keys (Presence.otherPlayers this))
               (Presence.emit this (Presence.ConsoleWarn "Disconnected from server."))
               c Hc Hout). }
  destruct Hstep as [H1 H2]. apply IH; assumption.
Qed.

(** The server lists the client itself among the players, announces it
    again and sends an update for it: the roster holds only the other one. *)
Lemma self_never_listed_witness :
  let me := Presence.mkPlayerData (Some "me-1"%string) (Some "Me"%string) None in
  let bob := Presence.mkPlayerData (Some "bob-1"%string) None None in
  let final :=
    fold_left Presence.receive
      [Presence.WorldState [me; bob]; Presence.PlayerJoined me;
       Presence.PlayerUpdate "me-1" (Some Presence.emptyState)]
      (Presence.setClientId (Presence.initial "Me") "me-1") in
  Obj.get string_dec (Presence.otherPlayers final) "me-1"%string = None
  /\ Obj.keys (Presence.otherPlayers final) = ["bob-1"%string].
Proof.
  intros me bob final. split; [|reflexivity].
  apply self_never_listed.
  - reflexivity.
  - reflexivity.
  - repeat constructor.
Defined.

Lemma Obj_delete_set_absent {V : Type} (o : list (string * V)) (k : string) (v : V) :
  Obj.get string_dec o k = None ->
  Obj.delete string_dec (Obj.set string_dec o k v) k = o.
Proof.
  induction o as [|[k0 v0] o IH]; cbn.
  - destruct (string_dec k k); [reflexivity | contradiction].
  - destruct (string_dec k0 k) as [E|E]; [discriminate|].
    intros Hget. cbn. destruct (string_dec k0 k); [contradiction|].
    rewrite IH by exact Hget. reflexivity.
Qed.

(** X10. A player who joins and then leaves is gone without a trace: the roster
    and the scene are what they were before the join.  Stated for a roster
    and scene that fit, a player that is not the client, and an id that is
    non-empty and that the roster does not answer to: not listed, and not
    the name of a property every object inherits, for which [addOtherPlayer]
    finds a value and refuses the player. *)
Theorem join_then_leave_restores (this : Presence.t) (pd : Presence.PlayerData)
    (playerId : string) :
  Presence.consistent this ->
  Presence.truthyString (Presence.id pd) = Some playerId ->
  Presence.notClient this (Presence.id pd) = true ->
  Proto.read (Presence.otherPlayers this) playerId = Proto.Undefined ->
  let joined := Presence.handlePlayerJoined this pd in
  let left := Presence.handlePlayerLeft joined playerId in
  Obj.get string_dec (Presence.otherPlayers joined) playerId <> None
  /\ Presence.scene joined
     = Presence.scene this ++ [Presence.MeshOf playerId; Presence.SpriteOf playerId]
  /\ Presence.otherPlayers left = Presence.otherPlayers this
  /\ Presence.scene left = Presence.scene this.
Proof.
  intros Hc Eid Hnot Hfree. cbv zeta.
  pose proof (handlePlayerJoined_consistent this pd Hc) as Hcj.
  unfold Presence.handlePlayerLeft.
  destruct (removeOtherPlayer_shape _ playerId Hcj) as [Er [Es _]].
  rewrite Er, Es. clear Er Es Hcj.
  unfold Presence.handlePlayerJoined. rewrite Hnot.
  destruct (addOtherPlayer_cases this (Some pd))
    as [[w [_ Hlisted]]|[pd' [k [entry [Epd [Eid' [_ [_ ->]]]]]]]].
  - exfalso. apply (Hlisted pd playerId eq_refl Eid). exact Hfree.
  - inversion Epd; subst pd'. rewrite Eid in Eid'. inversion Eid'; subst k.
    apply read_Undefined in Hfree. destruct Hfree as [Hfree _].
    cbn [Presence.otherPlayers Presence.scene].
    rewrite Obj_get_set_same, (Obj_delete_set_absent _ _ _ Hfree).
    split; [discriminate|]. split; [reflexivity|]. split; [reflexivity|].
    symmetry. apply Hc.
Qed.

Lemma join_then_leave_restores_witness :
  let bob := Presence.mkPlayerData (Some "bob-1"%string) (Some "Bob"%string) None in
  let ann := Presence.mkPlayerData (Some "ann-2"%string) None None in
  let before := Presence.handlePlayerJoined
                  (Presence.setClientId (Presence.initial "Me") "me-1") bob in
  let after := Presence.handlePlayerLeft (Presence.handlePlayerJoined before ann) "ann-2" in
  Presence.otherPlayers after = Presence.otherPlayers before
  /\ Presence.scene after = [Presence.MeshOf "bob-1"; Presence.SpriteOf "bob-1"].
Proof.
  intros bob ann before after.
  assert (Hc : Presence.consistent before).
  { apply handlePlayerJoined_consistent. apply initial_consistent. }
  destruct (join_then_leave_restores before ann "ann-2" Hc eq_refl eq_refl eq_refl)
    as [_ [_ [Hr Hs]]].
  split; [exact Hr | exact Hs].
Defined.

(** A join (or a world-state entry) for an id that is already listed does
    not replace the entry: the roster and the scene stay as they are and a
    warning is logged. *)
Theorem join_of_listed_player_ignored (this : Presence.t) (pd : Presence.PlayerData)
    (playerId : string) (p : Presence.OtherPlayer) :
  Presence.truthyString (Presence.id pd) = Some playerId ->
  Obj.get string_dec (Presence.otherPlayers this) playerId = Some p ->
  Presence.otherPlayers (Presence.handlePlayerJoined this pd)
  = Presence.otherPlayers this
  /\ Presence.scene (Presence.handlePlayerJoined this pd) = Presence.scene this
  /\ (Presence.notClient this (Presence.id pd) = true ->
      exists w, Presence.out (Presence.handlePlayerJoined this pd)
                = Presence.out this ++ [Presence.ConsoleWarn w]).
Proof.
  intros Eid Hget. unfold Presence.handlePlayerJoined.
  destruct (Presence.notClient this (Presence.id pd));
    [|split; [reflexivity | split; [reflexivity | discriminate]]].
  destruct (addOtherPlayer_cases this (Some pd))
    as [[w [-> _]]|[pd' [k [entry [Epd [Eid' [Hfree _]]]]]]].
  - split; [reflexivity|]. split; [reflexivity|]. intros _. exists w. reflexivity.
  - inversion Epd; subst pd'. rewrite Eid in Eid'. inversion Eid'; subst k.
    apply read_Undefined in Hfree. destruct Hfree as [Hfree _]. congruence.
Qed.

Lemma join_of_listed_player_ignored_witness :
  let bob := Presence.mkPlayerData (Some "bob-1"%string) (Some "Bob"%string) None in
  let again := Presence.mkPlayerData (Some "bob-1"%string) (Some "Robert"%string) None in
  let listed := Presence.handlePlayerJoined (Presence.initial "Me") bob in
  option_map Presence.name
    (Obj.get string_dec
       (Presence.otherPlayers (Presence.handlePlayerJoined listed again)) "bob-1"%string)
  = Some "Bob"%string.
Proof.
  intros bob again listed.
  destruct (join_of_listed_player_ignored listed again "bob-1" _ eq_refl eq_refl)
    as [Hr _].
  rewrite Hr. reflexivity.
Defined.

Lemma addMany_keys (data : list Presence.PlayerData) (this : Presence.t)
    (k : string) :
  let after :=
    fold_left
      (fun this playerData =>
         if Presence.notClient this (Presence.id playerData)
         then Presence.addOtherPlayer this (Some playerData) else this)
      data this in
  Presence.clientId after = Presence.clientId this
  /\ (In k (Obj.keys (Presence.otherPlayers after))
      <-> In k (Obj.keys (Presence.otherPlayers this))
          \/ (k <> EmptyString /\ Presence.clientId this <> Some k
              /\ Proto.inherited k = false
              /\ exists pd, In pd data /\ Presence.id pd = Some k)).
Proof.
  revert this. induction data as [|pd data IH]; intros this; cbn [fold_left].
  - split; [reflexivity|]. split; [auto|].
    intros [H|[_ [_ [_ [pd [[] _]]]]]]. exact H.
  - cbv zeta in *.
    set (step := if Presence.notClient this (Presence.id pd)
                 then Presence.addOtherPlayer this (Some pd) else this).
    destruct (IH step) as [Hc Hk].
    assert (Hstep : Presence.clientId step = Presence.clientId this
                    /\ (In k (Obj.keys (Presence.otherPlayers step))
                        <-> In k (Obj.keys (Presence.otherPlayers this))
                            \/ (k <> EmptyString /\ Presence.clientId this <> Some k
                                /\ Proto.inherited k = false
                                /\ Presence.id pd = Some k))).
    { unfold step. destruct (Presence.notClient this (Presence.id pd)) eqn:En.
      - destruct (addOtherPlayer_cases this (Some pd))
          as [[w [-> Hlisted]]|[pd' [k' [entry [Epd [Eid [Hfree [_ ->]]]]]]]].
        + split; [reflexivity|]. cbn [Presence.otherPlayers Presence.emit].
          split; [auto|]. intros [H|[Hne [Hnc [Hni Hid]]]]; [exact H|].
          apply (Obj_get_In string_dec). intros Hnone.
          apply (Hlisted pd k eq_refl).
          * rewrite Hid. cbn. apply String.eqb_neq in Hne. rewrite Hne. reflexivity.
          * apply read_Undefined. split; assumption.
        + inversion Epd; subst pd'. cbn [Presence.clientId Presence.otherPlayers].
          split; [reflexivity|].
          apply read_Undefined in Hfree. destruct Hfree as [Hfree Hni'].
          assert (Hout : ~ In k' (Obj.keys (Presence.otherPlayers this)))
            by (intros C; apply (Obj_get_In string_dec) in C; contradiction).
          rewrite (Obj_keys_set_absent string_dec _ _ _ Hout).
          apply truthyString_nonempty in Eid. destruct Eid as [Eid Hne'].
          rewrite in_app_iff. cbn [In]. split.
          * intros [H|[<-|[]]]; [left; exact H|]. right.
            split; [exact Hne'|]. split; [|split; [exact Hni' | exact Eid]].
            intros C. unfold Presence.notClient in En. rewrite Eid, C in En.
            rewrite String.eqb_refl in En. discriminate En.
          * intros [H|[_ [_ [_ Hid]]]]; [left; exact H|]. right. left. congruence.
      - split; [reflexivity|]. split; [auto|].
        intros [H|[_ [Hnc [_ Hid]]]]; [exact H|]. exfalso.
        unfold Presence.notClient in En. rewrite Hid in En.
        destruct (Presence.clientId this) as [c|]; [|discriminate En].
        apply negb_false_iff in En. apply String.eqb_eq in En. congruence. }
    destruct Hstep as [Hsc Hsk].
    split; [congruence|]. rewrite Hk, Hsk, Hsc. split.
    + intros [[H|[A [B [I C]]]]|[A [B [I [pd' [Hin Hid]]]]]].
      * left. exact H.
      * right. repeat split; auto. exists pd. split; [left; reflexivity | exact C].
      * right. repeat split; auto. exists pd'. split; [right; exact Hin | exact Hid].
    + intros [H|[A [B [I [pd' [[<-|Hin] Hid]]]]]].
      * left. left. exact H.
      * left. right. auto.
      * right. repeat split; auto. exists pd'. auto.
Qed.

(** X11. A world state replaces the roster wholesale: afterwards the listed ids
    are exactly the ids of the message that are non-empty, not the
    client's own and not the name of a property every object inherits
    (for such an id [addOtherPlayer] finds a value and refuses the player);
    everybody who was listed before and is not in the message is gone. *)
Theorem world_state_replaces_roster (this : Presence.t)
    (playersData : list Presence.PlayerData) (k : string) :
  Presence.consistent this ->
  In k (Obj.keys (Presence.otherPlayers (Presence.handleWorldState this playersData)))
  <-> (k <> EmptyString /\ Presence.clientId this <> Some k
       /\ Proto.inherited k = false
       /\ exists pd, In pd playersData /\ Presence.id pd = Some k).
Proof.
  intros Hc. unfold Presence.handleWorldState. cbv zeta.
  destruct (removeAll_shape this Hc) as [_ [Hr [_ [Hcid _]]]].
  destruct (addMany_keys playersData (Presence.removeAll this) k) as [_ Hk].
  cbv zeta in Hk. rewrite Hk, Hr, Hcid. cbn.
  split; [intros [[]|H]; exact H | auto].
Qed.

(** Bob is replaced by Ann; the entry without an id, the repeated one and
    the one named [constructor] add nothing. *)
Lemma world_state_replaces_roster_witness :
  let bob := Presence.mkPlayerData (Some "bob-1"%string) None None in
  let ann := Presence.mkPlayerData (Some "ann-2"%string) None None in
  let nobody := Presence.mkPlayerData None (Some "Ghost"%string) None in
  let odd := Presence.mkPlayerData (Some "constructor"%string) None None in
  let before :=
    Presence.handlePlayerJoined (Presence.setClientId (Presence.initial "Me") "me-1") bob in
  Obj.keys
    (Presence.otherPlayers (Presence.handleWorldState before [ann; nobody; odd; ann]))
  = ["ann-2"%string]
  /\ ~ In "bob-1"%string
        (Obj.keys (Presence.otherPlayers
                     (Presence.handleWorldState before [ann; nobody; odd; ann])))
  /\ ~ In "constructor"%string
        (Obj.keys (Presence.otherPlayers
                     (Presence.handleWorldState before [ann; nobody; odd; ann]))).
Proof.
  intros bob ann nobody odd before. split; [reflexivity|].
  assert (Hc : Presence.consistent before).
  { apply handlePlayerJoined_consistent. apply initial_consistent. }
  split; intros C.
  - apply (world_state_replaces_roster before [ann; nobody; odd; ann] "bob-1" Hc) in C.
    destruct C as [_ [_ [_ [pd [[<-|[<-|[<-|[<-|[]]]]] Hid]]]]]; discriminate Hid.
  - apply (world_state_replaces_roster before [ann; nobody; odd; ann] "constructor" Hc)
      in C.
    destruct C as [_ [_ [Hni _]]]. discriminate Hni.
Defined.

(** X12. A disconnect logs a warning, empties the roster and the scene and
    tells the player. *)
Theorem disconnect_clears_roster (this : Presence.t) :
  Presence.consistent this ->
  Presence.otherPlayers (Presence.handleDisconnect this) = []
  /\ Presence.scene (Presence.handleDisconnect this) = []
  /\ Presence.out (Presence.handleDisconnect this)
     = Presence.out this
       ++ [Presence.ConsoleWarn "Disconnected from server.";
           Presence.UiShowTemporaryMessage "Disconnected from server" 5000].
Proof.
  intros Hc. unfold Presence.handleDisconnect. cbv zeta.
  destruct (removeAll_shape
              (Presence.emit this (Presence.ConsoleWarn "Disconnected from server."))
              (emit_consistent this _ Hc)) as [_ [Hr [Hs [_ Ho]]]].
  cbn [Presence.emit Presence.otherPlayers Presence.scene Presence.out].
  rewrite Hr, Hs, Ho. cbn [Presence.emit Presence.out]. rewrite <- app_assoc.
  repeat split.
Qed.

Lemma disconnect_clears_roster_witness :
  let bob := Presence.mkPlayerData (Some "bob-1"%string) None None in
  let ann := Presence.mkPlayerData (Some "ann-2"%string) None None in
  let before :=
    fold_left Presence.receive [Presence.PlayerJoined bob; Presence.PlayerJoined ann]
              (Presence.initial "Me") in
  List.length (Presence.scene before) = 4%nat
  /\ Presence.otherPlayers (Presence.handleDisconnect before) = []
  /\ Presence.scene (Presence.handleDisconnect before) = []
  /\ Presence.out (Presence.handleDisconnect before)
     = [Presence.ConsoleWarn "Disconnected from server.";
        Presence.UiShowTemporaryMessage "Disconnected from server" 5000].
Proof.
  intros bob ann before. split; [reflexivity|].
  assert (Hc : Presence.consistent before).
  { apply receiveAll_consistent. apply initial_consistent. }
  destruct (disconnect_clears_roster before Hc) as [Hr [Hs Ho]]. auto.
Defined.

(** X13. A state update never adds or removes a player or a visual.  For a
    listed player it moves the mesh when a position is given, stores the
    new state, and takes the name from the update, or [Player_] plus the
    first four characters of the id when the update carries none, whatever
    name the player joined under; every other entry is left alone.  For an
    id the roster does not answer to it changes nothing and logs a
    warning; for an unlisted id that names a property every object
    inherits the lookup finds a value without a mesh, and nothing happens
    at all, not even the warning. *)
Theorem player_update_effects (this : Presence.t) (playerId : string)
    (newState : option Presence.PlayerState) :
  let after := Presence.handlePlayerUpdate this playerId newState in
  Obj.keys (Presence.otherPlayers after) = Obj.keys (Presence.otherPlayers this)
  /\ Presence.scene after = Presence.scene this
  /\ (forall other, other <> playerId ->
        Obj.get string_dec (Presence.otherPlayers after) other
        = Obj.get string_dec (Presence.otherPlayers this) other)
  /\ (Proto.read (Presence.otherPlayers this) playerId = Proto.Undefined ->
      Presence.otherPlayers after = Presence.otherPlayers this
      /\ Presence.out after
         = Presence.out this
           ++ [Presence.ConsoleWarn
                 ("Received update for unknown player ID: " ++ playerId)])
  /\ (Proto.read (Presence.otherPlayers this) playerId = Proto.Inherited ->
      after = this)
  /\ (forall p s,
        Obj.get string_dec (Presence.otherPlayers this) playerId = Some p ->
        newState = Some s ->
        exists p',
          Obj.get string_dec (Presence.otherPlayers after) playerId = Some p'
          /\ Presence.meshPosition (Presence.mesh p')
             = match Presence.position s with
               | Some v => v
               | None => Presence.meshPosition (Presence.mesh p)
               end
          /\ Presence.name p'
             = match Presence.truthyString (Presence.stateName s) with
               | Some n => n
               | None => ("Player_" ++ substring 0 4 playerId)%string
               end
          /\ Presence.state p' = s
          /\ Presence.out after = Presence.out this).
Proof.
  cbv zeta. destruct (handlePlayerUpdate_shape this playerId newState) as [Ek [Es _]].
  split; [exact Ek|]. split; [exact Es|].
  unfold Presence.handlePlayerUpdate, Proto.read.
  destruct (Obj.get string_dec (Presence.otherPlayers this) playerId) as [p|] eqn:E;
    [destruct newState as [s|]|destruct (Proto.inherited playerId)]; cbn.
  - split; [intros other Hne; apply Obj_get_set_other; congruence|].
    split; [discriminate|]. split; [discriminate|].
    intros p0 s0 Hp Hs. inversion Hp; inversion Hs; subst.
    eexists. rewrite Obj_get_set_same. split; [reflexivity|]. cbn. repeat split.
  - split; [reflexivity|]. split; [discriminate|]. split; [discriminate|].
    intros p0 s0 _ C. discriminate C.
  - split; [reflexivity|]. split; [discriminate|]. split; [reflexivity|].
    intros p0 s0 C; discriminate C.
  - split; [reflexivity|]. split; [|split; [discriminate|intros p0 s0 C; discriminate C]].
    intros _. split; reflexivity.
Qed.

(** Bob joined under his name; an update without a name renames him.  An
    update for [toString], whom nobody listed, goes unnoticed. *)
Lemma player_update_effects_witness :
  let bob := Presence.mkPlayerData (Some "bob-1"%string) (Some "Bob"%string) None in
  let listed := Presence.handlePlayerJoined (Presence.initial "Me") bob in
  let moved := Presence.mkPlayerState (Some (THREE.mkVector3 4 5 6)) None None None in
  (exists p',
     Obj.get string_dec
       (Presence.otherPlayers (Presence.handlePlayerUpdate listed "bob-1" (Some moved)))
       "bob-1"%string = Some p'
     /\ Presence.meshPosition (Presence.mesh p') = THREE.mkVector3 4 5 6
     /\ Presence.name p' = "Player_bob-"%string)
  /\ Presence.handlePlayerUpdate listed "toString" (Some moved) = listed
  /\ Presence.out (Presence.handlePlayerUpdate listed "ann-2" (Some moved))
     = [Presence.ConsoleWarn "Received update for unknown player ID: ann-2"].
Proof.
  intros bob listed moved.
  destruct (player_update_effects listed "bob-1" (Some moved))
    as [_ [_ [_ [_ [_ Hknown]]]]].
  destruct (player_update_effects listed "toString" (Some moved))
    as [_ [_ [_ [_ [Hinherited _]]]]].
  destruct (player_update_effects listed "ann-2" (Some moved))
    as [_ [_ [_ [Hunknown _]]]].
  split; [|split].
  - destruct (Hknown _ moved eq_refl eq_refl) as [p' [Hget [Hpos [Hname _]]]].
    exists p'. split; [exact Hget|]. split; [exact Hpos | exact Hname].
  - exact (Hinherited eq_refl).
  - exact (proj2 (Hunknown eq_refl)).
Defined.

Lemma inherited_names (k : string) :
  Proto.inherited k = true -> In k Proto.names.
Proof.
  unfold Proto.inherited. intros E. apply existsb_exists in E.
  destruct E as [n [Hin Heq]]. apply String.eqb_eq in Heq. subst n. exact Hin.
Qed.

(** Every inherited function has a name; only [Object.prototype] itself,
    found under ['__proto__'], has none. *)
Lemma inherited_functionName (k : string) :
  Proto.inherited k = true ->
  Presence.truthyString (Proto.functionName k) = Proto.functionName k.
Proof.
  intros E. apply inherited_names in E. unfold Proto.names in E. cbn [In] in E.
  repeat (destruct E as [E|E]; [subst k; reflexivity|]). destruct E.
Qed.

(** X6. A client that sends a chat message and then gets it back from the
    server shows it once: the echo under the client's own id is dropped.
    A message under any other id is shown as received, under the listed
    name of the sender or, for a sender the roster does not answer to, the
    first six characters of the id.  For an unlisted sender whose id names
    a property every object inherits the lookup finds that function, and
    the message is shown under the function's name ([Object] for
    [constructor]); under ['__proto__'] it finds an object without a name
    and falls back to the id. *)
Theorem chat_echo_dropped (this : Presence.t) (c senderId messageText : string) :
  Presence.clientId this = Some c ->
  (forall message,
      Presence.handleChatMessage (Presence.sendChatMessage this message) c messageText
      = Presence.sendChatMessage this message)
  /\ (senderId <> c ->
      Presence.out (Presence.handleChatMessage this senderId messageText)
      = Presence.out this
        ++ [Presence.UiShowChatMessage
              match Proto.read (Presence.otherPlayers this) senderId with
              | Proto.Own sender =>
                  if String.eqb (Presence.name sender) EmptyString
                  then substring 0 6 senderId else Presence.name sender
              | Proto.Inherited =>
                  match Proto.functionName senderId with
                  | Some functionName => functionName
                  | None => substring 0 6 senderId
                  end
              | Proto.Undefined => substring 0 6 senderId
              end
              messageText]).
Proof.
  intros Hc. split.
  - intros message.
    assert (Hsame : Presence.clientId (Presence.sendChatMessage this message) = Some c).
    { unfold Presence.sendChatMessage.
      destruct (negb (Presence.network this) || _)%bool; [exact Hc|].
      destruct ((String.length message =? 0)%nat || (100 <? String.length message)%nat)%bool;
        exact Hc. }
    unfold Presence.handleChatMessage, Presence.notClient. rewrite Hsame.
    rewrite String.eqb_refl. reflexivity.
  - intros Hne. unfold Presence.handleChatMessage, Presence.notClient. rewrite Hc.
    apply String.eqb_neq in Hne. rewrite Hne. cbn [negb].
    unfold Proto.read.
    destruct (Obj.get string_dec (Presence.otherPlayers this) senderId) as [p|].
    + cbn. destruct (String.eqb (Presence.name p) EmptyString); reflexivity.
    + destruct (Proto.inherited senderId) eqn:Ei; [|reflexivity].
      rewrite (inherited_functionName senderId Ei). reflexivity.
Qed.

Lemma chat_echo_dropped_witness :
  let client := Presence.mk true (Some "me-1"%string) "Me" [] [] [] in
  Presence.out
    (Presence.handleChatMessage (Presence.sendChatMessage client "hello") "me-1" "hello")
  = [Presence.NetworkSend "chatMessage" "hello"; Presence.UiShowChatMessage "Me" "hello"]
  /\ Presence.out (Presence.handleChatMessage client "stranger-9" "hi")
     = [Presence.UiShowChatMessage "strang" "hi"]
  /\ Presence.out (Presence.handleChatMessage client "constructor" "hi")
     = [Presence.UiShowChatMessage "Object" "hi"].
Proof.
  intros client.
  destruct (chat_echo_dropped client "me-1" "stranger-9" "hello" eq_refl) as [Hecho _].
  destruct (chat_echo_dropped client "me-1" "stranger-9" "hi" eq_refl) as [_ Hother].
  destruct (chat_echo_dropped client "me-1" "constructor" "hi" eq_refl) as [_ Hodd].
  split; [|split].
  - rewrite Hecho. reflexivity.
  - rewrite Hother by discriminate. reflexivity.
  - rewrite Hodd by discriminate. reflexivity.
Defined.

(** ** The player's frame *)

Section MotionFacts.
Context {L : Type} `{LevelApi L}.

Ltac split_ifs :=
  repeat match goal with
         | |- context [if ?b then _ else _] => destruct b eqn:?
         end.

(** X14. The horizontal velocity is rebuilt from the intents alone, along the
    facing direction at the start of the frame: 10 times it for forward,
    -7 times it for backward, nothing for neither, and, because the
    backward branch scales the vector the forward branch has already
    scaled, -60 times it when both are held.  Turning, jumping and gravity
    do not enter. *)
Theorem horizontal_velocity_from_intents (this : Motion.t) (deltaTime : Q)
    (inputState : InputState) (levelManager : option LevelManager) :
  let after := Motion.updateLandMovement this deltaTime inputState levelManager in
  let facing := forwardAt (THREE.rotation_y (Player.mesh (Motion.body this))) in
  let factor :=
    match forward inputState, backward inputState with
    | true, true => -(60)
    | true, false => 10
    | false, true => -(7)
    | false, false => 0
    end in
  THREE.x (Player.velocity (Motion.body after)) == factor * THREE.x facing
  /\ THREE.z (Player.velocity (Motion.body after)) == factor * THREE.z facing.
Proof.
  cbv zeta. unfold Motion.updateLandMovement.
  set (p0 := Player.checkGrounded raycastGround (Motion.body this) levelManager).
  assert (Hmesh : Player.mesh p0 = Player.mesh (Motion.body this)).
  { unfold p0, Player.checkGrounded. cbv zeta.
    repeat match goal with
           | |- context [match ?x with _ => _ end] => destruct x
           end; reflexivity. }
  rewrite <- Hmesh. clearbody p0.
  destruct inputState as [f b l r j d a it pa].
  cbn [forward backward left right jump].
  destruct f, b, l, r; cbv zeta;
    cbn [Motion.body Motion.set_body Motion.play Player.velocity Player.set_velocity
         Player.isGrounded Player.mesh Motion.turn Player.set_mesh
         THREE.rotation_y];
    destruct (j && Player.isGrounded p0)%bool;
    cbn [Motion.body Motion.set_body Motion.play Player.velocity Player.set_velocity
         Player.isGrounded Player.set_isGrounded Motion.set_isJumping
         Motion.set_velocity_y Player.mesh negb];
    split_ifs;
    cbn; unfold Motion.moveSpeed; split; ring.
Qed.

(** [updateLandMovement] is the ground probe, then the steering, then the
    vertical part, which sees the vertical velocity of the start of the
    frame. *)
Lemma updateLandMovement_phases (this : Motion.t) (deltaTime : Q)
    (inputState : InputState) (levelManager : option LevelManager) :
  Motion.updateLandMovement this deltaTime inputState levelManager
  = let probed := Player.checkGrounded raycastGround (Motion.body this) levelManager in
    let s := Motion.steering probed deltaTime inputState in
    Motion.vertical (Motion.set_body this (fst s))
             (THREE.y (Player.velocity (Motion.body this))) deltaTime
             (jump inputState) (snd s).
Proof.
  unfold Motion.updateLandMovement, Motion.steering.
  destruct inputState as [f b l r j d a it pa].
  cbn [forward backward left right jump].
  destruct f, b, l, r; reflexivity.
Qed.

(** The ground probe writes [isGrounded] and nothing else. *)
Lemma checkGrounded_only_flag
    (raycast : THREE.Raycaster -> THREE.Object3D -> list THREE.Intersection)
    (p : Player.t) (levelManager : option LevelManager) :
  Player.checkGrounded raycast p levelManager
  = Player.set_isGrounded p
      (Player.isGrounded (Player.checkGrounded raycast p levelManager)).
Proof.
  unfold Player.checkGrounded. cbv zeta.
  repeat match goal with
         | |- context [match ?x with _ => _ end] => destruct x
         end; reflexivity.
Qed.

(** Steering leaves the flags and the fall distances alone. *)
Lemma steering_keeps (p : Player.t) (deltaTime : Q) (inputState : InputState) :
  let q := fst (Motion.steering p deltaTime inputState) in
  Player.isGrounded q = Player.isGrounded p
  /\ Player.isFalling q = Player.isFalling p
  /\ Player.isJumping q = Player.isJumping p
  /\ Player.hasHighJump q = Player.hasHighJump p
  /\ Player.currentFallDistance q = Player.currentFallDistance p
  /\ Player.maxFallDistanceThisSession q = Player.maxFallDistanceThisSession p.
Proof.
  unfold Motion.steering.
  destruct (forward inputState), (backward inputState), (left inputState),
    (right inputState); cbn; repeat split; reflexivity.
Qed.

Ltac phases this deltaTime inputState levelManager this1 K :=
  rewrite (updateLandMovement_phases this deltaTime inputState levelManager);
  cbv zeta;
  pose proof (steering_keeps
                (Player.checkGrounded raycastGround (Motion.body this) levelManager)
                deltaTime inputState) as K;
  cbv zeta in K;
  set (p0 := Player.checkGrounded raycastGround (Motion.body this) levelManager) in *;
  set (s := Motion.steering p0 deltaTime inputState) in *;
  destruct K as (Kg & Kf & Kj & Kh & Kc & Km).

Ltac fields :=
  cbn [Motion.body Motion.set_body Motion.play Motion.set_stepTimer Motion.sounds
       Motion.stepTimer Motion.collectedItemsThisFrame Motion.currentDialogue
       Player.velocity Player.set_velocity
       Player.isGrounded Player.set_isGrounded Player.isFalling Player.set_isFalling
       Player.isJumping Motion.set_isJumping Motion.set_velocity_y
       Motion.set_currentFallDistance Motion.set_maxFallDistanceThisSession
       Player.hasHighJump Player.currentFallDistance
       Player.maxFallDistanceThisSession Player.mesh Player.set_mesh
       THREE.x THREE.y THREE.z negb andb] in *.

(** X15. A player that [updateLandMovement] leaves grounded was found on the
    ground by the probe and did not ask to jump, and is at rest
    vertically: not falling, not jumping, with no vertical velocity and
    no fall distance. *)
Theorem grounded_is_at_rest (this : Motion.t) (deltaTime : Q)
    (inputState : InputState) (levelManager : option LevelManager) :
  let probed := Player.checkGrounded raycastGround (Motion.body this) levelManager in
  let after := Motion.updateLandMovement this deltaTime inputState levelManager in
  Player.isGrounded (Motion.body after) = true ->
  Player.isGrounded probed = true
  /\ jump inputState = false
  /\ Player.isFalling (Motion.body after) = false
  /\ Player.isJumping (Motion.body after) = false
  /\ THREE.y (Player.velocity (Motion.body after)) = 0
  /\ Player.currentFallDistance (Motion.body after) = 0.
Proof.
  cbv zeta. phases this deltaTime inputState levelManager this1 K.
  unfold Motion.vertical. fields. rewrite Kg.
  destruct (jump inputState), (Player.isGrounded p0) eqn:G; fields;
    rewrite ?Kg, ?G; fields;
    repeat match goal with
           | |- context [if ?b then _ else _] => destruct b eqn:?; fields
           end;
    rewrite ?Kg, ?G;
    intros C; try discriminate C; repeat split.
Qed.

(** X16. A jump asked for on the ground takes off in the same frame: the
    vertical velocity is the jump force (15, or 15 * 1.4 = 21 with the
    high jump) less one frame of gravity, [isJumping] is set, the player
    is no longer grounded, and exactly one sound, ['player_jump'], is
    played.  The landing branch is skipped, so a fall that ended on this
    frame stays open: [isFalling] is what it was. *)
Theorem jump_from_ground (this : Motion.t) (deltaTime : Q)
    (inputState : InputState) (levelManager : option LevelManager) :
  let probed := Player.checkGrounded raycastGround (Motion.body this) levelManager in
  let after := Motion.updateLandMovement this deltaTime inputState levelManager in
  jump inputState = true ->
  Player.isGrounded probed = true ->
  THREE.y (Player.velocity (Motion.body after))
  == (if Player.hasHighJump (Motion.body this) then 21 else 15) - 30 * deltaTime
  /\ Player.isJumping (Motion.body after) = true
  /\ Player.isGrounded (Motion.body after) = false
  /\ Player.isFalling (Motion.body after) = Player.isFalling (Motion.body this)
  /\ Motion.sounds after = Motion.sounds this ++ ["player_jump"%string].
Proof.
  cbv zeta. intros Hj Hg.
  assert (Hh : Player.hasHighJump
                 (Player.checkGrounded raycastGround (Motion.body this) levelManager)
               = Player.hasHighJump (Motion.body this))
    by (rewrite checkGrounded_only_flag; reflexivity).
  assert (Hf : Player.isFalling
                 (Player.checkGrounded raycastGround (Motion.body this) levelManager)
               = Player.isFalling (Motion.body this))
    by (rewrite checkGrounded_only_flag; reflexivity).
  phases this deltaTime inputState levelManager this1 K.
  unfold Motion.vertical. fields. rewrite Kg, Hj, Hg. fields. rewrite Kh, Hh.
  unfold Motion.jumpForce, Motion.highJumpForceMultiplier, Motion.gravity.
  destruct (Player.hasHighJump (Motion.body this)),
    (Player.isFalling (Motion.body this)) eqn:F; fields;
    rewrite ?Kf, ?Hf, ?F; fields;
    try change (Qltb (15 * (14 # 10)) 0) with false;
    try change (Qltb 15 0) with false;
    fields; rewrite ?Kf, ?Hf, ?F; fields; rewrite ?Kf, ?Hf;
    (split; [field|]); repeat split; reflexivity.
Qed.

(** X17. [updateLandMovement] reads five intents, and in the air only four of
    them: two inputs that agree on forward, backward, left and right give
    the same player when the probe finds no ground, whatever their jump,
    down, action, interact and pause intents are. *)
Theorem airborne_ignores_jump (this : Motion.t) (deltaTime : Q)
    (i1 i2 : InputState) (levelManager : option LevelManager) :
  let probed := Player.checkGrounded raycastGround (Motion.body this) levelManager in
  forward i1 = forward i2 -> backward i1 = backward i2 ->
  left i1 = left i2 -> right i1 = right i2 ->
  Player.isGrounded probed = false ->
  Motion.updateLandMovement this deltaTime i1 levelManager
  = Motion.updateLandMovement this deltaTime i2 levelManager.
Proof.
  cbv zeta. intros Hf Hb Hl Hr Hair.
  rewrite !updateLandMovement_phases. cbv zeta.
  assert (Hs : forall p : Player.t,
             Motion.steering p deltaTime i1 = Motion.steering p deltaTime i2)
    by (intros p; unfold Motion.steering; rewrite Hf, Hb, Hl, Hr; reflexivity).
  rewrite Hs.
  pose proof (steering_keeps
                (Player.checkGrounded raycastGround (Motion.body this) levelManager)
                deltaTime i2) as K.
  cbv zeta in K. destruct K as (Kg & _).
  unfold Motion.vertical. fields. rewrite Kg, Hair, !andb_false_r. reflexivity.
Qed.

(** X18. A fall that ends on the ground without a jump is recorded once:
    [maxFallDistanceThisSession] becomes the larger of itself and the
    distance of this fall, and the landing plays ['player_step'] before
    any footstep. *)
Theorem landing_records_fall (this : Motion.t) (deltaTime : Q)
    (inputState : InputState) (levelManager : option LevelManager) :
  let probed := Player.checkGrounded raycastGround (Motion.body this) levelManager in
  let after := Motion.updateLandMovement this deltaTime inputState levelManager in
  Player.isGrounded probed = true ->
  jump inputState = false ->
  Player.isFalling (Motion.body this) = true ->
  Player.maxFallDistanceThisSession (Motion.body after)
  = Math_max (Player.maxFallDistanceThisSession (Motion.body this))
             (Player.currentFallDistance (Motion.body this))
  /\ exists later,
       Motion.sounds after = Motion.sounds this ++ "player_step"%string :: later.
Proof.
  cbv zeta. intros Hg Hj Hf.
  pose proof (checkGrounded_only_flag raycastGround (Motion.body this) levelManager) as E.
  assert (Ef : Player.isFalling
                 (Player.checkGrounded raycastGround (Motion.body this) levelManager)
               = true) by (rewrite E; exact Hf).
  assert (Ec : Player.currentFallDistance
                 (Player.checkGrounded raycastGround (Motion.body this) levelManager)
               = Player.currentFallDistance (Motion.body this))
    by (rewrite E; reflexivity).
  assert (Em : Player.maxFallDistanceThisSession
                 (Player.checkGrounded raycastGround (Motion.body this) levelManager)
               = Player.maxFallDistanceThisSession (Motion.body this))
    by (rewrite E; reflexivity).
  clear E.
  phases this deltaTime inputState levelManager this1 K.
  unfold Motion.vertical. rewrite Hj. fields. rewrite Kg, Hg. fields. rewrite Kf, Ef. fields.
  rewrite Km, Kc, Em, Ec.
  destruct (snd s); fields;
    repeat match goal with
           | |- context [if ?b then _ else _] => destruct b eqn:?; fields
           end;
    (split; [reflexivity|]); rewrite <- ?app_assoc; eexists; reflexivity.
Qed.

(** [maxFallDistanceThisSession] never decreases in a frame. *)
Theorem max_fall_never_decreases (this : Motion.t) (deltaTime : Q)
    (inputState : InputState) (levelManager : option LevelManager) :
  let after := Motion.updateLandMovement this deltaTime inputState levelManager in
  Player.maxFallDistanceThisSession (Motion.body this)
  <= Player.maxFallDistanceThisSession (Motion.body after).
Proof.
  cbv zeta.
  pose proof (checkGrounded_only_flag raycastGround (Motion.body this) levelManager) as E.
  assert (Em : Player.maxFallDistanceThisSession
                 (Player.checkGrounded raycastGround (Motion.body this) levelManager)
               = Player.maxFallDistanceThisSession (Motion.body this))
    by (rewrite E; reflexivity).
  clear E.
  phases this deltaTime inputState levelManager this1 K.
  rewrite <- Em, <- Km. unfold Motion.vertical.
  repeat match goal with
         | |- context [if ?b then _ else _] => destruct b eqn:?; fields
         end;
    try apply Qle_refl; unfold Math_max; apply Q.le_max_l.
Qed.

(** X19. In the air, a fall under way stays under way and grows by
    [|previousYVelocity * deltaTime|], the vertical velocity being the one
    from before the frame; nothing is played. *)
Theorem fall_distance_accumulates (this : Motion.t) (deltaTime : Q)
    (inputState : InputState) (levelManager : option LevelManager) :
  let probed := Player.checkGrounded raycastGround (Motion.body this) levelManager in
  let after := Motion.updateLandMovement this deltaTime inputState levelManager in
  Player.isGrounded probed = false ->
  Player.isFalling (Motion.body this) = true ->
  Player.isFalling (Motion.body after) = true
  /\ Player.currentFallDistance (Motion.body after)
     = Player.currentFallDistance (Motion.body this)
       + Math_abs (THREE.y (Player.velocity (Motion.body this)) * deltaTime)
  /\ Motion.sounds after = Motion.sounds this.
Proof.
  cbv zeta. intros Hg Hf.
  pose proof (checkGrounded_only_flag raycastGround (Motion.body this) levelManager) as E.
  assert (Ef : Player.isFalling
                 (Player.checkGrounded raycastGround (Motion.body this) levelManager)
               = true) by (rewrite E; exact Hf).
  assert (Ec : Player.currentFallDistance
                 (Player.checkGrounded raycastGround (Motion.body this) levelManager)
               = Player.currentFallDistance (Motion.body this))
    by (rewrite E; reflexivity).
  clear E.
  phases this deltaTime inputState levelManager this1 K.
  unfold Motion.vertical. fields. rewrite Kg, Hg, andb_false_r. fields. rewrite Kg, Hg. fields.
  rewrite Kf, Ef. fields. rewrite Kc, Ec, Kf, Ef. repeat split.
Qed.

(** X20. The footstep timer stays below [stepInterval]: reaching it plays a
    step and starts the timer again. *)
Theorem step_timer_below_interval (this : Motion.t) (deltaTime : Q)
    (inputState : InputState) (levelManager : option LevelManager) :
  let after := Motion.updateLandMovement this deltaTime inputState levelManager in
  Motion.stepTimer this < Motion.stepInterval ->
  Motion.stepTimer after < Motion.stepInterval.
Proof.
  cbv zeta. intros Ht.
  phases this deltaTime inputState levelManager this1 K.
  unfold Motion.vertical.
  repeat match goal with
         | |- context [if ?b then _ else _] => destruct b eqn:?; fields
         end;
    try exact Ht; try reflexivity.
  all: match goal with
       | C : Qleb _ _ = false |- _ => apply Qleb_gt in C; exact C
       end.
Qed.

(** *** The whole frame ([update])

    The loop of [checkCollectibles] appends what it picks up, at most one
    item per id in reach, and touches nothing else of the player. *)
Lemma checkCollectibles_appends (ids : list string) (this : Motion.t) (level : L) :
  let after :=
    fold_left
      (fun '(this, level) collectibleId =>
         match collectItem level collectibleId with
         | (Some itemData, level) =>
             (Motion.set_collected this (Motion.collectedItemsThisFrame this ++ [itemData]),
              level)
         | (None, level) => (this, level)
         end)
      ids (this, level) in
  Motion.body (fst after) = Motion.body this
  /\ Motion.currentDialogue (fst after) = Motion.currentDialogue this
  /\ Motion.sounds (fst after) = Motion.sounds this
  /\ Motion.stepTimer (fst after) = Motion.stepTimer this
  /\ exists picked,
       Motion.collectedItemsThisFrame (fst after)
       = Motion.collectedItemsThisFrame this ++ picked
       /\ (List.length picked <= List.length ids)%nat.
Proof.
  revert this level. induction ids as [|i ids IH]; intros this level; cbv zeta.
  - cbn. repeat split. exists []. rewrite app_nil_r. split; [reflexivity | apply Nat.le_refl].
  - cbn [fold_left]. destruct (collectItem level i) as [[item|] level'].
    + destruct (IH (Motion.set_collected this (Motion.collectedItemsThisFrame this ++ [item]))
                  level') as (Hb & Hd & Hs & Ht & picked & Hp & Hl).
      cbv zeta in *. rewrite Hb, Hd, Hs, Ht. repeat split.
      exists (item :: picked). rewrite Hp. cbn [Motion.set_collected Motion.collectedItemsThisFrame].
      rewrite <- app_assoc. split; [reflexivity | cbn; lia].
    + destruct (IH this level') as (Hb & Hd & Hs & Ht & picked & Hp & Hl).
      cbv zeta in *. rewrite Hb, Hd, Hs, Ht. repeat split.
      exists picked. split; [exact Hp | cbn; lia].
Qed.

(** [interact] changes the pending dialogue only. *)
Lemma interact_body (this : Motion.t) (level : L) :
  Motion.body (fst (Motion.interact this level)) = Motion.body this
  /\ Motion.collectedItemsThisFrame (fst (Motion.interact this level))
     = Motion.collectedItemsThisFrame this.
Proof.
  unfold Motion.interact. cbv zeta.
  destruct getClosestNPC as [closest|]; [|split; reflexivity].
  cbn [Motion.set_currentDialogue Motion.body].
  destruct (closest level _) as [npc|]; [|split; reflexivity].
  destruct (npcInteract level npc) as [[d|] level']; split; reflexivity.
Qed.

(** Movement alone leaves a grounded player neither falling nor jumping. *)
Lemma updateLandMovement_rest (this : Motion.t) (deltaTime : Q)
    (inputState : InputState) (levelManager : option LevelManager) :
  let after := Motion.updateLandMovement this deltaTime inputState levelManager in
  Player.isGrounded (Motion.body after) = true ->
  Player.isFalling (Motion.body after) = false
  /\ Player.isJumping (Motion.body after) = false.
Proof.
  cbv zeta. phases this deltaTime inputState levelManager this1 K.
  unfold Motion.vertical. fields. rewrite Kg.
  destruct (jump inputState), (Player.isGrounded p0) eqn:G; fields;
    rewrite ?Kg, ?G; fields;
    repeat match goal with
           | |- context [if ?b then _ else _] => destruct b eqn:?; fields
           end;
    rewrite ?Kg, ?G;
    intros C; try discriminate C; split; reflexivity.
Qed.

(** The resolver grounds the player only together with the end of the
    fall, and only when no jump is under way. *)
Lemma resolveObject_rest (p : Player.t) (o : option THREE.Object3D) :
  (Player.isGrounded p = true ->
   Player.isFalling p = false /\ Player.isJumping p = false) ->
  Player.isGrounded (Player.resolveObject p o) = true ->
  Player.isFalling (Player.resolveObject p o) = false
  /\ Player.isJumping (Player.resolveObject p o) = false.
Proof.
  intros Hp. unfold Player.resolveObject.
  destruct o as [object|]; [|exact Hp].
  destruct (negb (THREE.geometry object) || negb (THREE.matrixWorld object))%bool;
    [exact Hp|].
  cbv zeta.
  destruct (THREE.intersectsBox _ _); [|exact Hp].
  destruct (_ || _)%bool; [exact Hp|].
  destruct (Player.selectPushAxis _) as [[minOverlap pushAxis]|]; [|exact Hp].
  destruct pushAxis;
    repeat match goal with
           | |- context [if ?b then _ else _] => destruct b eqn:?
           end;
    cbn [Player.isGrounded Player.isFalling Player.isJumping Player.set_mesh
         Player.set_velocity Player.set_hitbox Player.set_isGrounded
         Player.set_isFalling] in *;
    try exact Hp.
  all: idtac.
  all: intros _; split; [reflexivity|].
  all: match goal with
       | C : (_ && negb ?j)%bool = true |- _ =>
           apply andb_prop in C; destruct C as [_ C];
           cbn [Player.isGrounded Player.isFalling Player.isJumping Player.set_mesh
                Player.set_velocity Player.set_hitbox] in C;
           destruct j; [discriminate C | reflexivity]
       end.
Qed.

Lemma forEach_rest (objects : list (option THREE.Object3D)) (p : Player.t) :
  (Player.isGrounded p = true ->
   Player.isFalling p = false /\ Player.isJumping p = false) ->
  Player.isGrounded (fold_left Player.resolveObject objects p) = true ->
  Player.isFalling (fold_left Player.resolveObject objects p) = false
  /\ Player.isJumping (fold_left Player.resolveObject objects p) = false.
Proof.
  revert p. induction objects as [|o objects IH]; intros p Hp; [exact Hp|].
  cbn [fold_left]. apply IH. apply resolveObject_rest. exact Hp.
Qed.

Lemma handleCollisions_rest (p : Player.t) (levelManager : option LevelManager) :
  (Player.isGrounded p = true ->
   Player.isFalling p = false /\ Player.isJumping p = false) ->
  Player.isGrounded (Player.handleCollisions p levelManager) = true ->
  Player.isFalling (Player.handleCollisions p levelManager) = false
  /\ Player.isJumping (Player.handleCollisions p levelManager) = false.
Proof.
  intros Hp. unfold Player.handleCollisions. cbv zeta.
  destruct (_ =? 0)%nat; [exact Hp|].
  cbn [Player.set_hitbox Player.isGrounded Player.isFalling Player.isJumping].
  apply forEach_rest. exact Hp.
Qed.

(** The body that [update] leaves: the one after movement, the position
    step and the resolver, with its hitbox refreshed. *)
Lemma update_body (this : Motion.t) (deltaTime : Q) (inputState : InputState)
    (level : L) :
  let moved :=
    Motion.updateLandMovement (Motion.set_collected this []) deltaTime inputState
                              (Some (resolverView level)) in
  let p := Motion.body moved in
  let m := Player.mesh p in
  let v := Player.velocity p in
  let stepped :=
    Player.set_mesh p
      (THREE.withPosition m
         (THREE.mkVector3 (THREE.x (THREE.position m) + THREE.x v * deltaTime)
                          (THREE.y (THREE.position m) + THREE.y v * deltaTime)
                          (THREE.z (THREE.position m) + THREE.z v * deltaTime))) in
  let resolved :=
    if checkCollisions level
    then Player.handleCollisions stepped (Some (resolverView level)) else stepped in
  Motion.body (fst (Motion.update this deltaTime inputState (Some level)))
  = Player.set_hitbox resolved (THREE.setFromObject (Player.mesh resolved)).
Proof.
  cbv zeta. unfold Motion.update. cbv zeta.
  set (moved := Motion.updateLandMovement (Motion.set_collected this []) deltaTime
                  inputState (Some (resolverView level))).
  set (resolved := if checkCollisions level then _ else _).
  set (this1 := Motion.set_body moved _).
  assert (E1 : Motion.body this1
               = Player.set_hitbox resolved (THREE.setFromObject (Player.mesh resolved)))
    by reflexivity.
  clearbody this1. rewrite <- E1. clear E1.
  assert (E2 : forall tl : Motion.t * L,
             Motion.body (fst tl) = Motion.body this1 ->
             Motion.body
               (fst (let '(this, level) := tl in
                     let '(this, level) :=
                       if Motion.interactIntent inputState
                       then Motion.interact this level else (this, level) in
                     let level :=
                       if (action inputState && Player.canTelekinesis (Motion.body this))%bool
                       then match getMovableObjects with
                            | Some movable => Motion.useTelekinesis this level movable
                            | None => level
                            end
                       else level in
                     (this, Some level)))
             = Motion.body this1).
  { intros [t l] Ht. cbn [fst] in Ht.
    destruct (Motion.interactIntent inputState).
    - pose proof (interact_body t l) as [Hb _].
      destruct (Motion.interact t l) as [t' l']. cbn [fst] in *. congruence.
    - cbn [fst]. exact Ht. }
  apply E2.
  destruct getCollectiblesInRadius as [inRadius|]; [|reflexivity].
  unfold Motion.checkCollectibles. cbv zeta.
  apply (checkCollectibles_appends _ this1 level).
Qed.

(** After [update] the hitbox is the box of the mesh where the frame left
    it, whether or not the level has collision checks. *)
Theorem update_hitbox_in_sync (this : Motion.t) (deltaTime : Q)
    (inputState : InputState) (level : L) :
  let after := fst (Motion.update this deltaTime inputState (Some level)) in
  Player.hitbox (Motion.body after)
  = THREE.setFromObject (Player.mesh (Motion.body after)).
Proof.
  cbv zeta. rewrite update_body. cbv zeta. reflexivity.
Qed.

(** X21. After [update], movement and collision resolution included, a
    grounded player is neither falling nor jumping. *)
Theorem update_grounded_is_at_rest (this : Motion.t) (deltaTime : Q)
    (inputState : InputState) (level : L) :
  let after := fst (Motion.update this deltaTime inputState (Some level)) in
  Player.isGrounded (Motion.body after) = true ->
  Player.isFalling (Motion.body after) = false
  /\ Player.isJumping (Motion.body after) = false.
Proof.
  cbv zeta. rewrite update_body. cbv zeta.
  cbn [Player.set_hitbox Player.isGrounded Player.isFalling Player.isJumping].
  set (moved := Motion.updateLandMovement (Motion.set_collected this []) deltaTime
                  inputState (Some (resolverView level))).
  assert (Hm : Player.isGrounded (Motion.body moved) = true ->
               Player.isFalling (Motion.body moved) = false
               /\ Player.isJumping (Motion.body moved) = false).
  { apply updateLandMovement_rest. }
  clearbody moved.
  destruct (checkCollisions level).
  - apply handleCollisions_rest. exact Hm.
  - exact Hm.
Qed.

(** Movement does not touch the pickups of the frame. *)
Lemma updateLandMovement_collected (this : Motion.t) (deltaTime : Q)
    (inputState : InputState) (levelManager : option LevelManager) :
  Motion.collectedItemsThisFrame
    (Motion.updateLandMovement this deltaTime inputState levelManager)
  = Motion.collectedItemsThisFrame this.
Proof.
  rewrite updateLandMovement_phases. cbv zeta. unfold Motion.vertical.
  repeat match goal with
         | |- context [if ?b then _ else _] => destruct b eqn:?
         end; reflexivity.
Qed.

(** X22. The pickups of a frame start from nothing: what [getCollectedItems]
    returns after [update] is at most one item per collectible within
    [collectionRadius] of where the frame left the player, and nothing
    when the level has no [getCollectiblesInRadius]. *)
Theorem update_collects_afresh (this : Motion.t) (deltaTime : Q)
    (inputState : InputState) (level : L) :
  let after := fst (Motion.update this deltaTime inputState (Some level)) in
  match getCollectiblesInRadius with
  | None => Motion.getCollectedItems after = []
  | Some inRadius =>
      (List.length (Motion.getCollectedItems after)
       <= List.length
            (inRadius level (THREE.position (Player.mesh (Motion.body after)))
                      Motion.collectionRadius))%nat
  end.
Proof.
  cbv zeta.
  pose proof (update_body this deltaTime inputState level) as Hbody. cbv zeta in Hbody.
  rewrite Hbody. clear Hbody.
  unfold Motion.update, Motion.getCollectedItems. cbv zeta.
  set (moved := Motion.updateLandMovement (Motion.set_collected this []) deltaTime
                  inputState (Some (resolverView level))).
  assert (Hc : Motion.collectedItemsThisFrame moved = [])
    by (unfold moved; rewrite updateLandMovement_collected; reflexivity).
  set (resolved := if checkCollisions level then _ else _).
  set (this1 := Motion.set_body moved _).
  assert (E1 : Motion.body this1
               = Player.set_hitbox resolved (THREE.setFromObject (Player.mesh resolved)))
    by reflexivity.
  assert (C1 : Motion.collectedItemsThisFrame this1 = []) by exact Hc.
  clearbody this1. rewrite <- E1. clear E1 Hc. clearbody resolved. clear moved.
  assert (E2 : forall tl : Motion.t * L,
             Motion.collectedItemsThisFrame
               (fst (let '(this, level) := tl in
                     let '(this, level) :=
                       if Motion.interactIntent inputState
                       then Motion.interact this level else (this, level) in
                     let level :=
                       if (action inputState && Player.canTelekinesis (Motion.body this))%bool
                       then match getMovableObjects with
                            | Some movable => Motion.useTelekinesis this level movable
                            | None => level
                            end
                       else level in
                     (this, Some level)))
             = Motion.collectedItemsThisFrame (fst tl)).
  { intros [t l]. cbn [fst].
    destruct (Motion.interactIntent inputState).
    - pose proof (interact_body t l) as [_ Hb].
      destruct (Motion.interact t l) as [t' l']. cbn [fst] in *. exact Hb.
    - reflexivity. }
  destruct getCollectiblesInRadius as [inRadius|].
  - rewrite E2. unfold Motion.checkCollectibles. cbv zeta.
    destruct (checkCollectibles_appends
                (inRadius level (THREE.position (Player.mesh (Motion.body this1)))
                          Motion.collectionRadius) this1 level)
      as (_ & _ & _ & _ & picked & Hp & Hl).
    cbv zeta in Hp. rewrite Hp, C1. exact Hl.
  - exact (eq_trans (E2 (this1, level)) C1).
Qed.
End MotionFacts.

(** Standing one unit above the slab and walking forward. *)
Lemma grounded_is_at_rest_witness :
  let this := Arena.playerAt 0 1 0 in
  let after :=
    Motion.updateLandMovement this (1 # 60) (Arena.keys true false false false false)
                              (Some Arena.level) in
  Player.isGrounded (Motion.body after) = true
  /\ Player.isFalling (Motion.body after) = false
  /\ THREE.y (Player.velocity (Motion.body after)) = 0.
Proof.
  intros this after.
  assert (G : Player.isGrounded (Motion.body after) = true) by reflexivity.
  destruct (grounded_is_at_rest this (1 # 60) (Arena.keys true false false false false)
              (Some Arena.level) G) as (_ & _ & Hf & _ & Hv & _).
  split; [exact G|]. split; [exact Hf | exact Hv].
Defined.

(** A jump from the slab with a frame of a tenth of a second: 15 - 3. *)
Lemma jump_from_ground_witness :
  let this := Arena.playerAt 0 1 0 in
  let after :=
    Motion.updateLandMovement this (1 # 10) (Arena.keys false false false false true)
                              (Some Arena.level) in
  THREE.y (Player.velocity (Motion.body after)) == 12
  /\ Player.isGrounded (Motion.body after) = false
  /\ Motion.sounds after = ["player_jump"%string].
Proof.
  intros this after.
  destruct (jump_from_ground this (1 # 10) (Arena.keys false false false false true)
              (Some Arena.level) eq_refl eq_refl) as (Hv & _ & Hg & _ & Hs).
  split; [|split; [exact Hg | exact Hs]].
  eapply Qeq_trans; [exact Hv | reflexivity].
Defined.

(** Five units above the slab the jump key changes nothing. *)
Lemma airborne_ignores_jump_witness :
  Motion.updateLandMovement (Arena.playerAt 0 5 0) (1 # 60)
                            (Arena.keys true false false false true) (Some Arena.level)
  = Motion.updateLandMovement (Arena.playerAt 0 5 0) (1 # 60)
                              (Arena.keys true false false false false) (Some Arena.level).
Proof.
  exact (airborne_ignores_jump (Arena.playerAt 0 5 0) (1 # 60)
           (Arena.keys true false false false true)
           (Arena.keys true false false false false)
           (Some Arena.level) eq_refl eq_refl eq_refl eq_refl eq_refl).
Defined.

(** Landing after a fall of 12. *)
Lemma landing_records_fall_witness :
  let body :=
    Motion.set_currentFallDistance
      (Player.set_isFalling (Fixture.playerAt 0 1 0) true) 12 in
  let this := Motion.set_body (Arena.playerAt 0 1 0) body in
  let after :=
    Motion.updateLandMovement this (1 # 60) (Arena.keys false false false false false)
                              (Some Arena.level) in
  Player.maxFallDistanceThisSession (Motion.body after) == 12
  /\ Motion.sounds after = ["player_step"%string].
Proof.
  intros body this after.
  destruct (landing_records_fall this (1 # 60) (Arena.keys false false false false false)
              (Some Arena.level) eq_refl eq_refl eq_refl) as (Hm & _).
  split; [unfold after; rewrite Hm; reflexivity | reflexivity].
Defined.

(** Half a second at 6 units per second adds 3 to a fall of 3. *)
Lemma fall_distance_accumulates_witness :
  let body :=
    Player.set_velocity
      (Motion.set_currentFallDistance
         (Player.set_isFalling (Fixture.playerAt 0 5 0) true) 3)
      (THREE.mkVector3 0 (-(6)) 0) in
  let this := Motion.set_body (Arena.playerAt 0 5 0) body in
  let after :=
    Motion.updateLandMovement this (1 # 2) (Arena.keys false false false false false)
                              (Some Arena.level) in
  Player.currentFallDistance (Motion.body after) == 6.
Proof.
  intros body this after.
  destruct (fall_distance_accumulates this (1 # 2)
              (Arena.keys false false false false false)
              (Some Arena.level) eq_refl eq_refl) as (_ & Hc & _).
  unfold after. rewrite Hc. reflexivity.
Defined.

(** A timer at 0.3 and a frame of 0.2: the step is played and the timer
    starts again. *)
Lemma step_timer_below_interval_witness :
  let this := Motion.set_stepTimer (Arena.playerAt 0 1 0) (3 # 10) in
  Motion.stepTimer
    (Motion.updateLandMovement this (2 # 10) (Arena.keys true false false false false)
                               (Some Arena.level))
  < Motion.stepInterval.
Proof.
  intros this.
  apply (step_timer_below_interval this (2 # 10) (Arena.keys true false false false false)
           (Some Arena.level)).
  reflexivity.
Defined.

(** A frame of walking on the slab. *)
Lemma update_grounded_is_at_rest_witness :
  let after :=
    fst (Motion.update (Arena.playerAt 0 1 0) (1 # 60)
                       (Arena.keys true false false false false) (Some Arena.level)) in
  Player.isGrounded (Motion.body after) = true
  /\ Player.isFalling (Motion.body after) = false
  /\ Player.isJumping (Motion.body after) = false.
Proof.
  intros after.
  assert (G : Player.isGrounded (Motion.body after) = true) by reflexivity.
  split; [exact G|].
  exact (update_grounded_is_at_rest (Arena.playerAt 0 1 0) (1 # 60)
           (Arena.keys true false false false false) Arena.level G).
Defined.

(** ** The loop: terminal events, pickups and timers *)

Section GameExtras.
Context {Level : Type} `{Collaborators Level}.

(** *** Terminal events *)

Lemma gameOver_stopped (g : @Game.t Level) (reason : string) :
  Game.isRunning (Game.gameOver g reason) = false.
Proof.
  unfold Game.gameOver. destruct (Game.isRunning g) eqn:R; cbn [negb]; [reflexivity|exact R].
Qed.

Lemma frames_stopped (inputs : list (InputState * Q)) (g : @Game.t Level) :
  Game.isRunning g = false ->
  exists g',
    Game.frames g inputs = Normal g'
    /\ Game.calls g' = Game.calls g
    /\ Game.state g' = Game.state g
    /\ Game.player g' = Game.player g
    /\ Game.levelManager g' = Game.levelManager g
    /\ Game.isRunning g' = false.
Proof.
  revert g. induction inputs as [|[intents elapsed] rest IH]; intros g R.
  - exists g. repeat split; try reflexivity. exact R.
  - cbn [Game.frames]. unfold Game.update at 1.
    cbn [Game.isRunning Game.set_inputState]. rewrite R. cbn [negb Game.andThen].
    destruct (IH (Game.set_inputState g intents) R) as (g' & E & Hc & Hs & Hp & Hl & Hr).
    exists g'. repeat split; assumption.
Qed.

(** X23. [gameOver] happens once: a second call changes nothing, and no frame
    after it makes an outward call or touches the session state, the
    player or the level, whatever the inputs are. *)
Theorem game_over_is_final (g : @Game.t Level) (reason again : string)
    (inputs : list (InputState * Q)) :
  Game.gameOver (Game.gameOver g reason) again = Game.gameOver g reason
  /\ exists g',
       Game.frames (Game.gameOver g reason) inputs = Normal g'
       /\ Game.calls g' = Game.calls (Game.gameOver g reason)
       /\ Game.state g' = Game.state (Game.gameOver g reason)
       /\ Game.player g' = Game.player g
       /\ Game.levelManager g' = Game.levelManager g
       /\ Game.isRunning g' = false.
Proof.
  split.
  - unfold Game.gameOver at 1. rewrite gameOver_stopped. reflexivity.
  - destruct (frames_stopped inputs (Game.gameOver g reason) (gameOver_stopped g reason))
      as (g' & E & Hc & Hs & Hp & Hl & Hr).
    exists g'. repeat split; try assumption.
    + rewrite Hp. unfold Game.gameOver. destruct (negb (Game.isRunning g)); reflexivity.
    + rewrite Hl. unfold Game.gameOver. destruct (negb (Game.isRunning g)); reflexivity.
Qed.



Ltac split_match :=
  match goal with
  | H : context [match ?x with _ => _ end] |- _ => destruct x eqn:?
  | |- context [match ?x with _ => _ end] => destruct x eqn:?
  end.

(** *** Collecting *)

Lemma applyArtifactEffect_state (g : @Game.t Level) (e : string) (p : Player.t) :
  Game.player g = Some p ->
  exists g' p',
    Game.applyArtifactEffect g e = Normal g'
    /\ Game.state g' = Game.state g
    /\ Game.player g' = Some p'
    /\ Player.hasHighJump p' = Player.hasHighJump p
    /\ Game.timeSinceLastRegen g' = Game.timeSinceLastRegen g.
Proof.
  intros Hp. unfold Game.applyArtifactEffect. rewrite Hp.
  repeat split_match; eexists; eexists; (split; [reflexivity|]); cbn;
    repeat split; try reflexivity; exact Hp.
Qed.

(** With a player present an artifact is always collected: the counter
    rises by one, and the high jump is enabled exactly by the artifact
    that finds the counter at 0. *)
Lemma collectArtifact_normal (g : @Game.t Level) (item : ItemData) (p : Player.t) :
  Game.player g = Some p ->
  exists g' p',
    Game.collectArtifact g item = Normal g'
    /\ Game.state g'
       = State.set_artifacts (Game.state g) (State.artifacts (Game.state g) + 1)
    /\ Game.player g' = Some p'
    /\ Player.hasHighJump p'
       = (Player.hasHighJump p || (State.artifacts (Game.state g) =? 0)%Z)%bool
    /\ Game.timeSinceLastRegen g' = Game.timeSinceLastRegen g.
Proof.
  intros Hp. unfold Game.collectArtifact. cbv zeta.
  set (g1 := Game.set_state g _).
  assert (Hr1 : Game.timeSinceLastRegen g1 = Game.timeSinceLastRegen g) by reflexivity.
  assert (Hp1 : Game.player g1 = Some p) by exact Hp.
  assert (Hs1 : Game.state g1
                = State.set_artifacts (Game.state g) (State.artifacts (Game.state g) + 1))
    by reflexivity.
  clearbody g1.
  assert (E : exists g2 p2,
             match effect item with
             | Some e => Game.applyArtifactEffect g1 e
             | None => Normal g1
             end = Normal g2
             /\ Game.state g2 = Game.state g1
             /\ Game.player g2 = Some p2
             /\ Player.hasHighJump p2 = Player.hasHighJump p
             /\ Game.timeSinceLastRegen g2 = Game.timeSinceLastRegen g1).
  { destruct (effect item) as [e|].
    - apply applyArtifactEffect_state. exact Hp1.
    - exists g1, p. repeat split; try reflexivity; exact Hp1. }
  destruct E as (g2 & p2 & E & Hs2 & Hp2 & Hh2 & Hr2). rewrite E. cbn [Game.andThen].
  cbn [Game.state Game.call Game.player]. rewrite Hs2, Hs1, Hp2.
  cbn [State.artifacts State.set_artifacts].
  replace (State.artifacts (Game.state g) + 1 =? 1)%Z
    with (State.artifacts (Game.state g) =? 0)%Z
    by (destruct (Z.eqb_spec (State.artifacts (Game.state g)) 0);
        destruct (Z.eqb_spec (State.artifacts (Game.state g) + 1) 1); lia).
  destruct (State.artifacts (Game.state g) =? 0)%Z.
  - eexists; eexists. split; [reflexivity|]. cbn. rewrite Hs2, Hs1.
    repeat split; try reflexivity.
    + rewrite orb_true_r. unfold Player.enableHighJump.
      destruct (Player.hasHighJump p2) eqn:Hh; cbn [negb]; [exact Hh | reflexivity].
    + congruence.
  - eexists; eexists. split; [reflexivity|]. cbn. rewrite Hs2, Hs1.
    repeat split; [exact Hp2 | | congruence]. rewrite Hh2, orb_false_r. reflexivity.
Qed.

(** X26. The artifact that finds the counter at 0 enables the high jump; any
    other leaves the ability as it is.  Either way the counter rises by
    one and the loop does not throw. *)
Theorem first_artifact_enables_high_jump (g : @Game.t Level) (item : ItemData)
    (p : Player.t) :
  Game.player g = Some p ->
  exists g' p',
    Game.collectArtifact g item = Normal g'
    /\ Game.player g' = Some p'
    /\ State.artifacts (Game.state g') = (State.artifacts (Game.state g) + 1)%Z
    /\ Player.hasHighJump p'
       = (Player.hasHighJump p || (State.artifacts (Game.state g) =? 0)%Z)%bool.
Proof.
  intros Hp.
  destruct (collectArtifact_normal g item p Hp) as (g' & p' & E & Hs & Hp' & Hh & _).
  exists g', p'. rewrite Hs. repeat split; assumption.
Qed.

Lemma processItem_normal (g : @Game.t Level) (item : ItemData) (p : Player.t) :
  Game.player g = Some p ->
  String.eqb (type item) "health" = false ->
  exists g' p',
    Game.processItem g item = Normal g'
    /\ Game.player g' = Some p'
    /\ State.artifacts (Game.state g')
       = (State.artifacts (Game.state g)
          + if String.eqb (type item) "artifact" then 1 else 0)%Z
    /\ State.memories (Game.state g')
       = (State.memories (Game.state g)
          + if String.eqb (type item) "memory" then 1 else 0)%Z
    /\ State.gameTimer (Game.state g') = State.gameTimer (Game.state g)
    /\ State.depth (Game.state g') = State.depth (Game.state g)
    /\ Game.timeSinceLastRegen g' = Game.timeSinceLastRegen g.
Proof.
  intros Hp Hh. unfold Game.processItem.
  destruct (String.eqb (type item) "artifact") eqn:Ea.
  - apply String.eqb_eq in Ea. rewrite Ea.
    change (String.eqb "artifact" "memory") with false.
    destruct (collectArtifact_normal g item p Hp) as (g' & p' & E & Hs & Hp' & _ & Hr).
    exists g', p'. rewrite Hs. cbn. repeat split; try assumption; lia.
  - destruct (String.eqb (type item) "memory") eqn:Em.
    + exists (Game.collectMemory g item), p. split; [reflexivity|].
      rewrite collectMemory_counter. unfold Game.collectMemory. cbv zeta.
      destruct (negb _); cbn; repeat split; try assumption; try reflexivity; lia.
    + rewrite Hh. exists g, p. repeat split; try assumption; lia.
Qed.

(** A health item calls [this.player.heal(50)], and the player has no
    [heal]. *)
Lemma processItem_health (g : @Game.t Level) (item : ItemData) (p : Player.t) :
  Game.player g = Some p ->
  String.eqb (type item) "health" = true ->
  Game.processItem g item = Throw "this.player.heal is not a function".
Proof.
  intros Hp Hh. unfold Game.processItem.
  apply String.eqb_eq in Hh. rewrite Hh, Hp. reflexivity.
Qed.

(** X27. Every item of the frame is dispatched on its [type].  With a player
    present and no health item among them, the loop completes and the
    counters rise by the number of artifacts and of memories, repeated ids
    included; items of any other type leave them alone.  A health item
    ends the loop: it calls [this.player.heal(50)], the player has no
    [heal], and the [TypeError] leaves the items after it unprocessed. *)
Theorem processItems_counts (items : list ItemData) (g : @Game.t Level) (p : Player.t) :
  Game.player g = Some p ->
  if existsb (fun i => String.eqb (type i) "health") items
  then Game.processItems g items = Throw "this.player.heal is not a function"
  else
    exists g',
      Game.processItems g items = Normal g'
      /\ State.artifacts (Game.state g')
         = (State.artifacts (Game.state g)
            + Z.of_nat (List.length
                          (filter (fun i => String.eqb (type i) "artifact") items)))%Z
      /\ State.memories (Game.state g')
         = (State.memories (Game.state g)
            + Z.of_nat (List.length
                          (filter (fun i => String.eqb (type i) "memory") items)))%Z
      /\ State.gameTimer (Game.state g') = State.gameTimer (Game.state g).
Proof.
  revert g p. induction items as [|item items IH]; intros g p Hp.
  - cbn [existsb]. exists g. cbn. repeat split; lia.
  - cbn [existsb Game.processItems filter].
    destruct (String.eqb (type item) "health") eqn:Hh; cbn [orb].
    + rewrite (processItem_health g item p Hp Hh). reflexivity.
    + destruct (processItem_normal g item p Hp Hh)
        as (g1 & p1 & E1 & Hp1 & Ha & Hm & Ht & _).
      rewrite E1. cbn [Game.andThen].
      specialize (IH g1 p1 Hp1).
      destruct (existsb (fun i => String.eqb (type i) "health") items);
        [exact IH|].
      destruct IH as (g' & E & Ha' & Hm' & Ht').
      exists g'. split; [exact E|]. rewrite Ha', Hm', Ht', Ha, Hm, Ht.
      destruct (String.eqb (type item) "artifact"), (String.eqb (type item) "memory");
        cbn [List.length]; repeat split; lia.
Qed.

Lemma processItems_kept (items : list ItemData) (g g' : @Game.t Level) (p : Player.t) :
  Game.player g = Some p ->
  Game.processItems g items = Normal g' ->
  exists p',
    Game.player g' = Some p'
    /\ State.depth (Game.state g') = State.depth (Game.state g)
    /\ Game.timeSinceLastRegen g' = Game.timeSinceLastRegen g.
Proof.
  revert g p. induction items as [|item items IH]; intros g p Hp E.
  - cbn in E. inversion E; subst. exists p. repeat split. exact Hp.
  - cbn [Game.processItems] in E.
    destruct (String.eqb (type item) "health") eqn:Hh.
    + rewrite (processItem_health g item p Hp Hh) in E. discriminate E.
    + destruct (processItem_normal g item p Hp Hh)
        as (g1 & p1 & E1 & Hp1 & _ & _ & _ & Hd & Hr).
      rewrite E1 in E. cbn [Game.andThen] in E.
      destruct (IH g1 p1 Hp1 E) as (p' & Hp' & Hd' & Hr').
      exists p'. repeat split; try assumption; congruence.
Qed.

(** *** What a respawn and a win leave alone *)

Lemma gameOver_kept (g : @Game.t Level) (reason : string) :
  Game.timeSinceLastRegen (Game.gameOver g reason) = Game.timeSinceLastRegen g
  /\ State.depth (Game.state (Game.gameOver g reason)) = State.depth (Game.state g).
Proof.
  unfold Game.gameOver. destruct (negb (Game.isRunning g)); split; reflexivity.
Qed.

Lemma respawnPlayer_kept (g g' : @Game.t Level) (reason : string) (score : option Z) :
  Game.respawnPlayer g reason score = Normal g' ->
  Game.timeSinceLastRegen g' = Game.timeSinceLastRegen g
  /\ State.depth (Game.state g') = State.depth (Game.state g).
Proof.
  rewrite respawnPlayer_cases.
  destruct (Game.player g) as [p|];
    [destruct (Game.initialPlayerPosition g) as [pos|]|];
    try discriminate; intros E; inversion E; apply gameOver_kept.
Qed.

Lemma gameWon_kept (g g' : @Game.t Level) :
  Game.gameWon g = Normal g' ->
  Game.timeSinceLastRegen g' = Game.timeSinceLastRegen g
  /\ State.depth (Game.state g') = State.depth (Game.state g).
Proof.
  unfold Game.gameWon.
  destruct (negb (Game.isRunning g)); [intros E; inversion E; split; reflexivity|].
  cbv zeta. intros E. apply respawnPlayer_kept in E. exact E.
Qed.

Lemma updateGameState_kept (g g' : @Game.t Level) (deltaTime : Q) (p : Player.t) :
  Game.player g = Some p ->
  Game.updateGameState g deltaTime = Normal g' ->
  Game.timeSinceLastRegen g' = Game.timeSinceLastRegen g
  /\ State.depth (Game.state g')
     = Math_max 0 ((291 # 2) - THREE.y (THREE.position (Player.mesh p))).
Proof.
  intros Hp. unfold Game.updateGameState. rewrite Hp. cbv zeta.
  set (g0 := Game.set_state g _).
  set (g1 := match getHealthState with
             | Some healthOf => _
             | None => _
             end).
  set (g2 := if (negb (Game.isUserPaused g1) && negb (Game.isPaused g1))%bool
             then _ else g1).
  assert (H2 : Game.timeSinceLastRegen g2 = Game.timeSinceLastRegen g
               /\ State.depth (Game.state g2)
                  = Math_max 0 ((291 # 2) - THREE.y (THREE.position (Player.mesh p)))).
  { unfold g2, g1, g0.
    destruct (negb _ && negb _)%bool; destruct getHealthState; split; reflexivity. }
  clearbody g2. clear g1 g0. destruct H2 as [Hr Hd].
  assert (K : forall x : @Game.t Level,
             Game.timeSinceLastRegen x = Game.timeSinceLastRegen g2
             /\ State.depth (Game.state x) = State.depth (Game.state g2) ->
             Game.timeSinceLastRegen x = Game.timeSinceLastRegen g
             /\ State.depth (Game.state x)
                = Math_max 0 ((291 # 2) - THREE.y (THREE.position (Player.mesh p))))
    by (intros x [A B]; split; congruence).
  destruct (match Player.currentHealth p with Some h => Qleb h 0 | None => false end).
  - destruct (negb (Game.isRunning g2)); [intros E; inversion E; subst; split; assumption|].
    intros E. apply K. apply respawnPlayer_kept in E. exact E.
  - unfold Game.andThen.
    destruct (Qltb _ _).
    + destruct (Game.respawnPlayer g2 "fall" None) as [g3|] eqn:E3; [|discriminate].
      apply respawnPlayer_kept in E3.
      destruct (Game.player g3) as [p3|]; [|discriminate].
      destruct (Player.isGrounded p3 && Qltb _ 5)%bool.
      * intros E. apply gameWon_kept in E. apply K. destruct E, E3. split; congruence.
      * intros E. inversion E; subst. apply K. exact E3.
    + destruct (Game.player g2) as [p2|]; [|discriminate].
      destruct (Player.isGrounded p2 && Qltb _ 5)%bool.
      * intros E. apply gameWon_kept in E. apply K. exact E.
      * intros E. inversion E; subst. split; assumption.
Qed.


(** *** The regeneration timer *)

Lemma checkWinCondition_regen (g g' : @Game.t Level) :
  Game.checkWinCondition g = Normal g' ->
  Game.timeSinceLastRegen g' = Game.timeSinceLastRegen g.
Proof.
  unfold Game.checkWinCondition.
  destruct (Game.interactingNPC g) as [npc|].
  - destruct (String.eqb (name npc) "Guardian of the Depths").
    + intros E. apply gameWon_kept in E. apply E.
    + cbv zeta. intros E. inversion E. reflexivity.
  - cbv zeta. intros E. inversion E. reflexivity.
Qed.

Lemma dialogueFrame_regen (g g' : @Game.t Level) (intents : InputState) :
  Game.dialogueFrame g intents = Normal g' ->
  Game.timeSinceLastRegen g' = Game.timeSinceLastRegen g.
Proof.
  unfold Game.dialogueFrame, Game.andThen.
  destruct (interact intents && Game.isSome (Game.interactingNPC g))%bool.
  - destruct (Game.interactingNPC g) as [npc|].
    + destruct (isWinConditionNPC npc).
      * destruct (Game.checkWinCondition g) as [g1|] eqn:E1; [|discriminate].
        apply checkWinCondition_regen in E1.
        intros E. inversion E. destruct (Game.isRunning g1); cbn; exact E1.
      * intros E. inversion E. reflexivity.
    + intros E. inversion E. reflexivity.
  - destruct (interact intents && negb _)%bool; intros E; inversion E; reflexivity.
Qed.

Lemma runningFrame_regen (g g' : @Game.t Level) (deltaTime : Q) (intents : InputState) :
  Game.timeSinceLastRegen g < 5 * 60 * 1000 ->
  Game.runningFrame g deltaTime intents = Normal g' ->
  Game.timeSinceLastRegen g' < 5 * 60 * 1000.
Proof.
  intros Hlt. unfold Game.runningFrame.
  destruct (Game.player g) as [p|]; [|discriminate].
  destruct (playerUpdate deltaTime intents (Game.levelManager g) p) as [[p1 l1] items].
  destruct (levelManagerUpdate deltaTime p1 l1) as [p2 l2].
  unfold Game.andThen.
  destruct (Game.processItems _ items) as [g1|] eqn:E1; [|discriminate].
  destruct (processItems_kept items
              (Game.set_levelManager (Game.set_player g (Some p2)) l2) g1 p2
              eq_refl E1) as (p3 & Hp3 & _ & Hr1).
  cbn [Game.timeSinceLastRegen Game.set_levelManager Game.set_player] in Hr1.
  destruct (Game.updateGameState g1 deltaTime) as [g2|] eqn:E2; [|discriminate].
  apply (updateGameState_kept g1 g2 deltaTime p3 Hp3) in E2. destruct E2 as [Hr2 _].
  intros E. inversion E; subst; clear E. cbv zeta.
  destruct (negb _ && negb _)%bool.
  - destruct (Qleb _ _) eqn:C.
    + cbn. reflexivity.
    + apply Qleb_gt in C. exact C.
  - cbn. rewrite Hr2, Hr1. exact Hlt.
Qed.

(** X29. The regeneration timer stays below five minutes (300000 ms): a frame
    that brings it there regenerates the level and starts it again, and
    nothing else in a frame touches it. *)
Theorem regeneration_timer_bounded (g g' : @Game.t Level) (elapsed : Q) :
  Game.timeSinceLastRegen g < 5 * 60 * 1000 ->
  Game.update g elapsed = Normal g' ->
  Game.timeSinceLastRegen g' < 5 * 60 * 1000.
Proof.
  intros Hlt. unfold Game.update.
  destruct (negb (Game.isRunning g)); [intros E; inversion E; subst; exact Hlt|].
  destruct (Game.frameDelta g elapsed) as [c d].
  set (g1 := if pause _ then _ else _).
  assert (H1 : Game.timeSinceLastRegen g1 = Game.timeSinceLastRegen g).
  { unfold g1. destruct (pause _); [|reflexivity].
    cbn. destruct (togglePause_flips (Game.set_clock g c)) as [_ W].
    destruct W as [_ [_ [_ [_ [_ [_ [_ W]]]]]]]. exact W. }
  clearbody g1. rewrite <- H1 in Hlt. clear H1.
  destruct (Game.isPaused g1 && Game.isSome (Game.interactingNPC g1))%bool.
  - intros E. apply dialogueFrame_regen in E. rewrite E. exact Hlt.
  - destruct (Game.isUserPaused g1).
    + intros E. inversion E; subst. exact Hlt.
    + apply runningFrame_regen. exact Hlt.
Qed.
End GameExtras.



(** The first artifact of a life. *)
Lemma first_artifact_enables_high_jump_witness :
  let fresh :=
    Game.set_state Fixture.game (State.set_artifacts (Game.state Fixture.game) 0) in
  exists g' p',
    Game.collectArtifact fresh (mkItemData "artifact-1" "artifact" None) = Normal g'
    /\ Game.player g' = Some p'
    /\ Player.hasHighJump p' = true.
Proof.
  intros fresh.
  destruct (first_artifact_enables_high_jump fresh
              (mkItemData "artifact-1" "artifact" None)
              (Fixture.playerAt 3 40 (-(2))) eq_refl) as (g' & p' & E & Hp & _ & Hh).
  exists g', p'. split; [exact E|]. split; [exact Hp | exact Hh].
Defined.

(** An artifact, a memory picked up twice and a chest, which no branch
    knows: the loop completes.  With a potion among them it throws. *)
Lemma processItems_counts_witness :
  (exists g',
     Game.processItems Fixture.game
       [mkItemData "artifact-2" "artifact" None;
        mkItemData "memory-1" "memory" None;
        mkItemData "chest" "treasure" None;
        mkItemData "memory-1" "memory" None] = Normal g'
     /\ State.artifacts (Game.state g') = 3%Z
     /\ State.memories (Game.state g') = 3%Z)
  /\ Game.processItems Fixture.game
       [mkItemData "artifact-2" "artifact" None;
        mkItemData "potion" "health" None;
        mkItemData "memory-1" "memory" None]
     = Throw "this.player.heal is not a function".
Proof.
  split.
  - destruct (processItems_counts
                [mkItemData "artifact-2" "artifact" None;
                 mkItemData "memory-1" "memory" None;
                 mkItemData "chest" "treasure" None;
                 mkItemData "memory-1" "memory" None]
                Fixture.game (Fixture.playerAt 3 40 (-(2))) eq_refl)
      as (g' & E & Ha & Hm & _).
    exists g'. split; [exact E|]. split; [exact Ha | exact Hm].
  - exact (processItems_counts
             [mkItemData "artifact-2" "artifact" None;
              mkItemData "potion" "health" None;
              mkItemData "memory-1" "memory" None]
             Fixture.game (Fixture.playerAt 3 40 (-(2))) eq_refl).
Defined.


(** Ten milliseconds before the five minutes, a frame of twenty. *)
Lemma regeneration_timer_bounded_witness :
  let late := Game.set_timeSinceLastRegen Fixture.game 299990 in
  exists g',
    Game.update late (1 # 50) = Normal g'
    /\ Game.timeSinceLastRegen g' < 5 * 60 * 1000.
Proof.
  intros late.
  assert (E : exists g', Game.update late (1 # 50) = Normal g')
    by (eexists; vm_compute; reflexivity).
  destruct E as (g' & E).
  exists g'. split; [exact E|].
  apply (regeneration_timer_bounded late g' (1 # 50)); [reflexivity | exact E].
Defined.


(** ** The score *)

(** X30. From 1000 seconds on the time score is spent: the score is what
    the collectibles give, 1000 per artifact and 750 per memory, and 1000
    more for a win.  The counters are counts, and the total is kept below
    2^53, where every product and sum of the method is an integer that a
    JavaScript number holds exactly. *)
Theorem time_score_runs_out (state : State.t) (isWin : bool) :
  1000 <= State.gameTimer state ->
  (0 <= State.artifacts state)%Z ->
  (0 <= State.memories state)%Z ->
  (State.artifacts state * 1000 + State.memories state * 750 + 1000 < 2 ^ 53)%Z ->
  Score.calculateScore state isWin
  = (State.artifacts state * 1000 + State.memories state * 750
     + if isWin then 1000 else 0)%Z.
Proof.
  intros Ht _ _ _.
  assert (Hm : Math_max 0 (10000 - State.gameTimer state * 10) == 0).
  { unfold Math_max. apply Q.max_l. lra. }
  unfold Score.calculateScore. cbv zeta. unfold Math_floor.
  destruct isWin; rewrite Hm, Qplus_0_l.
  - rewrite <- (Qfloor_Z (State.artifacts state * 1000
                          + State.memories state * 750 + 1000)).
    apply Qfloor_comp. rewrite !inject_Z_plus. reflexivity.
  - rewrite Z.add_0_r. apply Qfloor_Z.
Qed.

(** With the same counters, a longer run never scores higher. *)
Theorem score_falls_with_time (earlier later : State.t) (isWin : bool) :
  State.gameTimer earlier <= State.gameTimer later ->
  State.artifacts later = State.artifacts earlier ->
  State.memories later = State.memories earlier ->
  (Score.calculateScore later isWin <= Score.calculateScore earlier isWin)%Z.
Proof.
  intros Ht Ha Hm. unfold Score.calculateScore. cbv zeta. rewrite Ha, Hm.
  unfold Math_floor. apply Qfloor_resp_le.
  assert (Hmax : Math_max 0 (10000 - State.gameTimer later * 10)
                 <= Math_max 0 (10000 - State.gameTimer earlier * 10)).
  { unfold Math_max. apply Q.max_le_compat; [apply Qle_refl | lra]. }
  destruct isWin; lra.
Qed.

(** 2000 seconds, three artifacts, two memories, won. *)
Lemma time_score_runs_out_witness :
  Score.calculateScore (Score.session 2000 3 2) true = 5500%Z.
Proof.
  apply (time_score_runs_out (Score.session 2000 3 2) true).
  - vm_compute. discriminate.
  - vm_compute. discriminate.
  - vm_compute. discriminate.
  - reflexivity.
Defined.

(** 75 against 80 seconds with one artifact and one memory. *)
Lemma score_falls_with_time_witness :
  (Score.calculateScore (Score.session 80 1 1) false
   <= Score.calculateScore (Score.session 75 1 1) false)%Z.
Proof.
  apply (score_falls_with_time (Score.session 75 1 1) (Score.session 80 1 1) false).
  - vm_compute. discriminate.
  - reflexivity.
  - reflexivity.
Defined.
